(** * Structured-event validation and serialization of rlog_generator

    A shallow embedding of [rlog_generator/validators.py],
    [rlog_generator/windows_event_types.py], [rlog_generator/windows_event.py]
    and of the value provider and serializer of [rlog_generator/utils.py].

    Python values loaded from a configuration file are modelled by [pyval];
    a dictionary is an association list in insertion order, a raised exception
    is the [Raise] branch of [result].  A [string] is the sequence of the
    characters of a text, each with a code point below 256; the white space,
    the letter case and the printable characters are those of Python for
    these code points.  Mappings have text keys.  Floating-point values are
    outside the model, and so is the interpreter's limit on the number of
    digits of a decimal literal.  The messages of the exceptions raised by the
    interpreter itself are those of CPython 3.11. *)

From Stdlib Require Import ZArith List Bool Ascii String Lia Arith.
From Stdlib Require Import Numbers.DecimalString.
Import ListNotations.

#[local] Set Warnings "-register-all".

Open Scope string_scope.
Open Scope Z_scope.

(** ** Python values and exceptions *)

Inductive pyval : Type :=
| PNone
| PBool (b : bool)
| PInt (z : Z)
| PStr (s : string)
| PList (l : list pyval)
| PDict (d : list (string * pyval)).

Inductive exn : Type :=
| WindowsEventValidationError (msg : string)
| ValueError (msg : string)
| TypeError (msg : string)
| KeyError (key : string)
| IndexError (msg : string)
| AttributeError (msg : string).

Inductive result (A : Type) : Type :=
| Ok (a : A)
| Raise (e : exn).
Arguments Ok {A} a.
Arguments Raise {A} e.

Definition bind {A B : Type} (r : result A) (k : A -> result B) : result B :=
  match r with
  | Ok a => k a
  | Raise e => Raise e
  end.

Notation "x <- r ;; k" := (bind r (fun x => k))
  (at level 61, r at next level, right associativity).
Notation "r ;; k" := (bind r (fun _ => k))
  (at level 61, right associativity).

(** [str(e)] of an exception.  [str] of a [KeyError] is the [repr] of its key;
    the keys raised here are plain identifiers. *)
Definition exn_str (e : exn) : string :=
  match e with
  | WindowsEventValidationError m => m
  | ValueError m => m
  | TypeError m => m
  | KeyError k => "'" ++ k ++ "'"
  | IndexError m => m
  | AttributeError m => m
  end.

(** ** Characters and strings *)

Definition char_in (lo hi : nat) (c : ascii) : bool :=
  (lo <=? nat_of_ascii c)%nat && (nat_of_ascii c <=? hi)%nat.

Definition is_digit (c : ascii) : bool := char_in 48 57 c.
Definition is_lower (c : ascii) : bool := char_in 97 122 c.
Definition is_upper (c : ascii) : bool := char_in 65 90 c.
Definition is_hex (c : ascii) : bool :=
  is_digit c || char_in 65 70 c || char_in 97 102 c.

(** White space of [str.split()]: tab, line feed, vertical tab, form feed,
    carriage return, the four separators 28..31, the blank, the next-line
    character and the no-break space. *)
Definition is_space (c : ascii) : bool :=
  char_in 9 13 c || char_in 28 31 c || (nat_of_ascii c =? 32)%nat
  || (nat_of_ascii c =? 133)%nat || (nat_of_ascii c =? 160)%nat.

(** White space that [int()] skips around a literal: the same, but for the
    separators 28..31, which [int()] takes as part of the literal. *)
Definition is_int_space (c : ascii) : bool :=
  char_in 9 13 c || (nat_of_ascii c =? 32)%nat
  || (nat_of_ascii c =? 133)%nat || (nat_of_ascii c =? 160)%nat.

Definition newline : ascii := ascii_of_nat 10.
Definition nl : string := String newline "".

(** The capital letters: A to Z, and 192 to 222 but for the multiplication
    sign *)
Definition is_capital (c : ascii) : bool :=
  is_upper c || (char_in 192 222 c && negb (nat_of_ascii c =? 215)%nat).

Definition lower_char (c : ascii) : ascii :=
  if is_capital c then ascii_of_nat (nat_of_ascii c + 32) else c.

(** [s.lower()] *)
Fixpoint lower (s : string) : string :=
  match s with
  | "" => ""
  | String c r => String (lower_char c) (lower r)
  end.

(** [sep.join(l)] *)
Fixpoint join (sep : string) (l : list string) : string :=
  match l with
  | [] => ""
  | [x] => x
  | x :: r => x ++ sep ++ join sep r
  end.

(** [s.startswith(p)] *)
Definition startswith (p s : string) : bool := String.prefix p s.

(** [p in s] for two strings *)
Fixpoint contains_sub (p s : string) : bool :=
  String.prefix p s ||
  match s with
  | "" => false
  | String _ r => contains_sub p r
  end.

(** [s.split()]: the maximal runs of characters that are not white space.
    [cur] holds the run being read, in reverse. *)
Definition rev_string (s : string) : string :=
  string_of_list_ascii (rev (list_ascii_of_string s)).

Fixpoint split_ws_aux (cur : string) (s : string) : list string :=
  match s with
  | "" => match cur with "" => [] | _ => [rev_string cur] end
  | String c r =>
      if is_space c
      then match cur with
           | "" => split_ws_aux "" r
           | _ => rev_string cur :: split_ws_aux "" r
           end
      else split_ws_aux (String c cur) r
  end.

Definition split_ws (s : string) : list string := split_ws_aux "" s.

(** [s.split(sep)] for a one-character separator: empty pieces are kept. *)
Fixpoint split_on_aux (sep : ascii) (cur : string) (s : string) : list string :=
  match s with
  | "" => [rev_string cur]
  | String c r =>
      if Ascii.eqb c sep
      then rev_string cur :: split_on_aux sep "" r
      else split_on_aux sep (String c cur) r
  end.

Definition split_on (sep : ascii) (s : string) : list string :=
  split_on_aux sep "" s.

(** The text that [int()] reads: the literal without the white space around
    it *)
Fixpoint lstrip (s : string) : string :=
  match s with
  | String c r => if is_int_space c then lstrip r else s
  | "" => ""
  end.

Definition strip (s : string) : string :=
  rev_string (lstrip (rev_string (lstrip s))).

(** [str(z)] of an integer *)
Definition str_of_Z (z : Z) : string := NilZero.string_of_int (Z.to_int z).

Definition hex_digit_char (n : nat) : ascii :=
  if (n <? 10)%nat then ascii_of_nat (48 + n) else ascii_of_nat (87 + n).

(** [repr(s)] of a string: single quotes unless the text holds a single quote
    and no double quote; backslash, the quote, tab, line feed and carriage
    return are escaped, the other characters that are not printable (below
    32, from 127 to 160, and the soft hyphen 173) are written [\xNN]. *)
Definition has_char (c : ascii) (s : string) : bool :=
  existsb (Ascii.eqb c) (list_ascii_of_string s).

Definition repr_char (q : ascii) (c : ascii) : string :=
  let n := nat_of_ascii c in
  if Ascii.eqb c q then String "\" (String c "")
  else if (n =? 92)%nat then "\\"
  else if (n =? 9)%nat then "\t"
  else if (n =? 10)%nat then "\n"
  else if (n =? 13)%nat then "\r"
  else if ((n <? 32) || ((127 <=? n) && (n <=? 160)) || (n =? 173))%nat
  then "\x" ++ String (hex_digit_char (n / 16)) (String (hex_digit_char (n mod 16)) "")
  else String c "".

Fixpoint repr_body (q : ascii) (s : string) : string :=
  match s with
  | "" => ""
  | String c r => repr_char q c ++ repr_body q r
  end.

Definition squote : ascii := "'"%char.
Definition dquote : ascii := ascii_of_nat 34.

Definition repr_str (s : string) : string :=
  let q := if has_char squote s && negb (has_char dquote s) then dquote else squote in
  String q (repr_body q s ++ String q "").

(** [repr(v)] and [str(v)] *)
Fixpoint py_repr (v : pyval) : string :=
  match v with
  | PNone => "None"
  | PBool true => "True"
  | PBool false => "False"
  | PInt z => str_of_Z z
  | PStr s => repr_str s
  | PList l => "[" ++ join ", " (map py_repr l) ++ "]"
  | PDict d =>
      "{" ++ join ", " (map (fun kv => repr_str (fst kv) ++ ": " ++ py_repr (snd kv)) d) ++ "}"
  end.

Definition py_str (v : pyval) : string :=
  match v with
  | PStr s => s
  | _ => py_repr v
  end.

(** ** Generic operations on Python values *)

Definition type_name (v : pyval) : string :=
  match v with
  | PNone => "NoneType"
  | PBool _ => "bool"
  | PInt _ => "int"
  | PStr _ => "str"
  | PList _ => "list"
  | PDict _ => "dict"
  end.

Definition Z_of_bool (b : bool) : Z := if b then 1 else 0.

(** [v == s] for a string constant [s], [v == z] for an integer constant *)
Definition py_eq_str (v : pyval) (s : string) : bool :=
  match v with
  | PStr t => String.eqb t s
  | _ => false
  end.

Definition py_eq_int (v : pyval) (z : Z) : bool :=
  match v with
  | PInt x => x =? z
  | PBool b => Z_of_bool b =? z
  | _ => false
  end.

(** [bool(v)] *)
Definition truthy (v : pyval) : bool :=
  match v with
  | PNone => false
  | PBool b => b
  | PInt z => negb (z =? 0)
  | PStr s => negb (String.eqb s "")
  | PList l => match l with [] => false | _ => true end
  | PDict d => match d with [] => false | _ => true end
  end.

Definition isinstance_dict (v : pyval) : bool :=
  match v with PDict _ => true | _ => false end.
Definition isinstance_list (v : pyval) : bool :=
  match v with PList _ => true | _ => false end.
Definition isinstance_str (v : pyval) : bool :=
  match v with PStr _ => true | _ => false end.

(** Lookup in a dictionary *)
Fixpoint lookup (k : string) (d : list (string * pyval)) : option pyval :=
  match d with
  | [] => None
  | (k', v) :: r => if String.eqb k' k then Some v else lookup k r
  end.

Definition has_key (k : string) (d : list (string * pyval)) : bool :=
  match lookup k d with Some _ => true | None => false end.

(** [k in c] for a string [k] *)
Definition py_in (k : string) (c : pyval) : result bool :=
  match c with
  | PDict d => Ok (has_key k d)
  | PList l => Ok (existsb (fun v => py_eq_str v k) l)
  | PStr s => Ok (contains_sub k s)
  | _ => Raise (TypeError ("argument of type '" ++ type_name c ++ "' is not iterable"))
  end.

(** [c[k]] for a string [k] *)
Definition getitem (c : pyval) (k : string) : result pyval :=
  match c with
  | PDict d =>
      match lookup k d with
      | Some v => Ok v
      | None => Raise (KeyError k)
      end
  | PList _ => Raise (TypeError "list indices must be integers or slices, not str")
  | PStr _ => Raise (TypeError "string indices must be integers, not 'str'")
  | _ => Raise (TypeError ("'" ++ type_name c ++ "' object is not subscriptable"))
  end.

(** [c.get(k, dflt)] *)
Definition get_default (c : pyval) (k : string) (dflt : pyval) : result pyval :=
  match c with
  | PDict d =>
      match lookup k d with
      | Some v => Ok v
      | None => Ok dflt
      end
  | _ => Raise (AttributeError ("'" ++ type_name c ++ "' object has no attribute 'get'"))
  end.

Definition get (c : pyval) (k : string) : result pyval := get_default c k PNone.

(** [c.items()] *)
Definition items (c : pyval) : result (list (string * pyval)) :=
  match c with
  | PDict d => Ok d
  | _ => Raise (AttributeError ("'" ++ type_name c ++ "' object has no attribute 'items'"))
  end.

(** [[f for f in required if f not in c]] *)
Fixpoint missing_from (required : list string) (c : pyval) : result (list string) :=
  match required with
  | [] => Ok []
  | f :: r =>
      b <- py_in f c ;;
      m <- missing_from r c ;;
      Ok (if b then m else f :: m)
  end.

(** ** Integer literals: [int(s)] and [int(s, 16)] *)

Definition digit_val (base : Z) (c : ascii) : option Z :=
  let n := Z.of_nat (nat_of_ascii c) in
  let d := if is_digit c then Some (n - 48)
           else if char_in 97 122 c then Some (n - 87)
           else if char_in 65 90 c then Some (n - 55)
           else None in
  match d with
  | Some x => if x <? base then Some x else None
  | None => None
  end.

Definition underscore : ascii := "_"%char.

(** Digits with single underscores between them; [prev_us] records that the
    previous character was an underscore. *)
Fixpoint parse_digits_aux (base acc : Z) (prev_us : bool) (s : string) : option Z :=
  match s with
  | "" => if prev_us then None else Some acc
  | String c r =>
      if Ascii.eqb c underscore
      then if prev_us then None else parse_digits_aux base acc true r
      else match digit_val base c with
           | Some d => parse_digits_aux base (acc * base + d) false r
           | None => None
           end
  end.

Definition parse_digits (base : Z) (s : string) : option Z :=
  match s with
  | "" => None
  | String c _ => if Ascii.eqb c underscore then None else parse_digits_aux base 0 false s
  end.

Definition drop_sign (s : string) : bool * string :=
  match s with
  | String "-" r => (true, r)
  | String "+" r => (false, r)
  | _ => (false, s)
  end.

(** After the sign, base 16 skips a [0x] or [0X] prefix and one underscore
    that follows it. *)
Definition drop_prefix (base : Z) (s : string) : string :=
  if base =? 16 then
    match s with
    | String "0" (String x r) =>
        if Ascii.eqb x "x" || Ascii.eqb x "X"
        then match r with
             | String "_" r' => r'
             | _ => r
             end
        else s
    | _ => s
    end
  else s.

Definition int_of_string (base : Z) (s : string) : result Z :=
  let (neg, body) := drop_sign (strip s) in
  match parse_digits base (drop_prefix base body) with
  | Some z => Ok (if neg then - z else z)
  | None =>
      Raise (ValueError ("invalid literal for int() with base " ++ str_of_Z base
                         ++ ": " ++ repr_str s))
  end.

(** [int(v)] *)
Definition py_int (v : pyval) : result Z :=
  match v with
  | PInt z => Ok z
  | PBool b => Ok (Z_of_bool b)
  | PStr s => int_of_string 10 s
  | _ => Raise (TypeError ("int() argument must be a string, a bytes-like object or a real number, not '"
                           ++ type_name v ++ "'"))
  end.

(** ** Regular expressions: the fragment used by the validators

    Every pattern of [validators.py] is a sequence of anchors and of bounded
    repetitions of a character class; a literal character is a one-character
    class repeated once.  [re.match] tries the pattern at position 0 only and
    does not require the whole text to be consumed. *)

Inductive re_item : Type :=
| Bol                                              (* [^] *)
| Eol                                              (* [$] *)
| Rep (cls : list (nat * nat)) (lo hi : nat).      (* [[...]{lo,hi}] *)

Definition in_class (cls : list (nat * nat)) (c : ascii) : bool :=
  existsb (fun r => char_in (fst r) (snd r) c) cls.

(** [$] holds at the end of the text and just before a line feed that ends
    the text. *)
Definition at_eol (s : string) : bool :=
  String.eqb s "" || String.eqb s nl.

Fixpoint rep_match (cls : list (nat * nat)) (k : nat -> string -> bool)
    (lo hi : nat) (pos : nat) (s : string) : bool :=
  match hi with
  | O => (lo =? 0)%nat && k pos s
  | S hi' =>
      match s with
      | String c r => in_class cls c && rep_match cls k (pred lo) hi' (S pos) r
      | "" => false
      end
      || ((lo =? 0)%nat && k pos s)
  end.

Fixpoint re_items (p : list re_item) (pos : nat) (s : string) : bool :=
  match p with
  | [] => true
  | Bol :: r => (pos =? 0)%nat && re_items r pos s
  | Eol :: r => at_eol s && re_items r pos s
  | Rep cls lo hi :: r => rep_match cls (re_items r) lo hi pos s
  end.

Definition re_match (p : list re_item) (s : string) : bool := re_items p 0%nat s.

Definition lit (c : ascii) : re_item :=
  Rep [(nat_of_ascii c, nat_of_ascii c)] 1 1.
Definition hex_class : list (nat * nat) := [(48, 57); (97, 102); (65, 70)]%nat.
Definition hex_class' : list (nat * nat) := [(48, 57); (65, 70); (97, 102)]%nat.

(** [r'^\{[0-9a-fA-F]{8}-[0-9a-fA-F]{4}-[0-9a-fA-F]{4}-[0-9a-fA-F]{4}-[0-9a-fA-F]{12}\}$'] *)
Definition GUID_PATTERN : list re_item :=
  [Bol; lit "{"; Rep hex_class 8 8; lit "-"; Rep hex_class 4 4; lit "-";
   Rep hex_class 4 4; lit "-"; Rep hex_class 4 4; lit "-"; Rep hex_class 12 12;
   lit "}"; Eol].

(** [r'^0[xX][0-9A-Fa-f]{1,8}$'] and [r'^0[xX][0-9A-Fa-f]{1,16}$'] *)
Definition HEX_INT32_PATTERN : list re_item :=
  [Bol; lit "0"; Rep [(120, 120); (88, 88)]%nat 1 1; Rep hex_class' 1 8; Eol].
Definition HEX_INT64_PATTERN : list re_item :=
  [Bol; lit "0"; Rep [(120, 120); (88, 88)]%nat 1 1; Rep hex_class' 1 16; Eol].

(** [r'^[a-z]{2}-[A-Z]{2}$'] *)
Definition CULTURE_PATTERN : list re_item :=
  [Bol; Rep [(97, 122)]%nat 2 2; lit "-"; Rep [(65, 90)]%nat 2 2; Eol].

(** [bool(re.match(pattern, v))]; anything but text is a [TypeError]. *)
Definition re_match_val (p : list re_item) (v : pyval) : result bool :=
  match v with
  | PStr s => Ok (re_match p s)
  | _ => Raise (TypeError ("expected string or bytes-like object, got '"
                           ++ type_name v ++ "'"))
  end.

(** ** validators.py *)

Definition STANDARD_CHANNELS : list (string * Z) :=
  [("Application", 1); ("Security", 2); ("System", 3); ("Setup", 4);
   ("ForwardedEvents", 5)].

Fixpoint channel_id (name : string) (t : list (string * Z)) : option Z :=
  match t with
  | [] => None
  | (n, i) :: r => if String.eqb n name then Some i else channel_id name r
  end.

Definition invalid (msg : string) {A : Type} : result A :=
  Raise (WindowsEventValidationError msg).

Definition validate_guid (guid : pyval) : result bool :=
  re_match_val GUID_PATTERN guid.

Definition validate_hex_value (hex_str : pyval) (pattern : list re_item) : result bool :=
  re_match_val pattern hex_str.

(** [d.get(k) and not validate_guid(d[k])], then the error of [what] *)
Definition check_guid_field (d : pyval) (k what : string) : result unit :=
  g <- get d k ;;
  if truthy g then
    v <- getitem d k ;;
    ok <- validate_guid v ;;
    if ok then Ok tt
    else (v' <- getitem d k ;;
          invalid ("Invalid " ++ what ++ " GUID format: " ++ py_str v'))
  else Ok tt.

Definition validate_provider (provider : pyval) : result unit :=
  name <- get provider "Name" ;;
  neither <- (if truthy name then Ok false
              else (guid <- get provider "Guid" ;; Ok (negb (truthy guid)))) ;;
  if neither : bool then invalid "Provider must have either Name or Guid attribute"
  else check_guid_field provider "Guid" "Provider".

Definition validate_correlation (correlation : pyval) : result unit :=
  check_guid_field correlation "ActivityID" "ActivityID" ;;
  check_guid_field correlation "RelatedActivityID" "RelatedActivityID".

Definition is_nil {A : Type} (l : list A) : bool :=
  match l with [] => true | _ => false end.

Definition check_execution_field (execution : pyval) (field : string) : result unit :=
  present <- py_in field execution ;;
  if present : bool then
    x <- getitem execution field ;;
    match py_int x with
    | Ok value =>
        if value <? 0
        then invalid (field ++ " must be non-negative, got " ++ str_of_Z value)
        else Ok tt
    | Raise (ValueError _) =>
        x' <- getitem execution field ;;
        invalid ("Invalid " ++ field ++ " value: " ++ py_str x')
    | Raise e => Raise e
    end
  else Ok tt.

Definition validate_execution (execution : pyval) : result unit :=
  missing <- missing_from ["ProcessID"; "ThreadID"] execution ;;
  if negb (is_nil missing)
  then invalid ("Missing required Execution attributes: " ++ join ", " missing)
  else
    check_execution_field execution "ProcessID" ;;
    check_execution_field execution "ThreadID" ;;
    check_execution_field execution "SessionID".

(** The [try] block of the EventID check *)
Definition event_id_body (system : pyval) : result unit :=
  eid <- getitem system "EventID" ;;
  event_id <-
    (if isinstance_dict eid then
       has_text <- py_in "_text" eid ;;
       if negb has_text then invalid "EventID dict must have '_text' field"
       else
         t <- getitem eid "_text" ;;
         event_id <- py_int t ;;
         has_q <- py_in "Qualifiers" eid ;;
         (if has_q : bool then
            q <- getitem eid "Qualifiers" ;;
            qualifiers <- py_int q ;;
            if qualifiers <? 0
            then invalid ("EventID Qualifiers must be non-negative, got "
                          ++ str_of_Z qualifiers)
            else Ok tt
          else Ok tt) ;;
         Ok event_id
     else py_int eid) ;;
  if event_id <? 0
  then invalid ("EventID must be non-negative, got " ++ str_of_Z event_id)
  else Ok tt.

Definition validate_system_properties (system : pyval) : result unit :=
  missing <- missing_from ["Provider"; "EventID"; "Computer"] system ;;
  if negb (is_nil missing)
  then invalid ("Missing required System elements: " ++ join ", " missing)
  else
    provider <- getitem system "Provider" ;;
    validate_provider provider ;;
    match event_id_body system with
    | Raise (ValueError m) | Raise (TypeError m) =>
        eid <- getitem system "EventID" ;;
        invalid ("Invalid EventID: " ++ py_str eid ++ " - " ++ m)
    | r => r
    end ;;
    has_corr <- py_in "Correlation" system ;;
    (if has_corr : bool
     then (c <- getitem system "Correlation" ;; validate_correlation c)
     else Ok tt) ;;
    has_exec <- py_in "Execution" system ;;
    (if has_exec : bool
     then (e <- getitem system "Execution" ;; validate_execution e)
     else Ok tt) ;;
    has_kw <- py_in "Keywords" system ;;
    (if has_kw : bool then
       kw <- getitem system "Keywords" ;;
       ok <- validate_hex_value kw HEX_INT64_PATTERN ;;
       if ok then Ok tt
       else (kw' <- getitem system "Keywords" ;;
             invalid ("Invalid Keywords format: " ++ py_str kw'))
     else Ok tt) ;;
    has_ver <- py_in "Version" system ;;
    (if has_ver : bool then
       v <- getitem system "Version" ;;
       version <- py_int v ;;
       if (0 <=? version) && (version <=? 255) then Ok tt
       else invalid ("Version must be between 0 and 255, got " ++ str_of_Z version)
     else Ok tt) ;;
    has_lvl <- py_in "Level" system ;;
    (if has_lvl : bool then
       v <- getitem system "Level" ;;
       level <- py_int v ;;
       if (0 <=? level) && (level <=? 15) then Ok tt
       else invalid ("Level must be between 0 and 15, got " ++ str_of_Z level)
     else Ok tt).

(** The accepted lexicon of a [win:Boolean] entry, after [lower()] *)
Definition boolean_lexicon : list string :=
  ["yes"; "no"; "true"; "false"; "0"; "1"; "func_bool"].

Definition in_strings (s : string) (l : list string) : bool :=
  existsb (String.eqb s) l.

(** Body of the loop of [validate_event_data] *)
Definition validate_data_entry (data : pyval) : result unit :=
  if negb (isinstance_dict data) then invalid "Each Data element must be a dictionary"
  else
    has_name <- py_in "Name" data ;;
    if negb has_name then invalid "Each Data element must have a Name"
    else
      ty <- get data "Type" ;;
      if py_eq_str ty "win:Boolean" then
        t <- get_default data "_text" (PStr "") ;;
        let value := lower (py_str t) in
        if negb (in_strings value boolean_lexicon)
        then (n <- getitem data "Name" ;;
              invalid ("Invalid boolean value for " ++ py_str n ++ ": " ++ value))
        else Ok tt
      else Ok tt.

(** [for x in l: f(x)], stopping at the first exception *)
Fixpoint for_each {A : Type} (f : A -> result unit) (l : list A) : result unit :=
  match l with
  | [] => Ok tt
  | x :: r => f x ;; for_each f r
  end.

Definition validate_event_data (event_data : pyval) : result unit :=
  has_data <- py_in "Data" event_data ;;
  if has_data : bool then
    d <- getitem event_data "Data" ;;
    match d with
    | PList l => for_each validate_data_entry l
    | _ => invalid "EventData.Data must be a list"
    end
  else Ok tt.

(** ** windows_event.py *)

Record EventDescriptor : Type := mkEventDescriptor {
  Id : Z;
  Version : Z;
  Channel : Z;
  Level : Z;
  Opcode : Z;
  Task : Z;
  Keyword : Z
}.

(** [int(x, 16) if isinstance(x, str) else int(x)] *)
Definition keyword_of (x : pyval) : result Z :=
  match x with
  | PStr s => int_of_string 16 s
  | _ => py_int x
  end.

Definition int_field (descriptor : pyval) (k : string) : result Z :=
  v <- getitem descriptor k ;; py_int v.

(** The [try] block of [validate_event_descriptor] *)
Definition event_descriptor_body (descriptor : pyval) : result EventDescriptor :=
  missing_fields <-
    missing_from ["Id"; "Version"; "Channel"; "Level"; "Opcode"; "Task"; "Keyword"]
                 descriptor ;;
  if negb (is_nil missing_fields)
  then invalid ("Missing required fields in EventDescriptor: " ++ join ", " missing_fields)
  else
    id <- int_field descriptor "Id" ;;
    version <- int_field descriptor "Version" ;;
    channel <- int_field descriptor "Channel" ;;
    level <- int_field descriptor "Level" ;;
    opcode <- int_field descriptor "Opcode" ;;
    task <- int_field descriptor "Task" ;;
    kw <- getitem descriptor "Keyword" ;;
    keyword <- keyword_of kw ;;
    let event_desc := mkEventDescriptor id version channel level opcode task keyword in
    if negb ((0 <=? Level event_desc) && (Level event_desc <=? 15))
    then invalid ("Level must be between 0 and 15, got " ++ str_of_Z (Level event_desc))
    else if negb ((0 <=? Opcode event_desc) && (Opcode event_desc <=? 240))
    then invalid ("Opcode must be between 0 and 240, got " ++ str_of_Z (Opcode event_desc))
    else if Task event_desc <? 0
    then invalid ("Task must be non-negative, got " ++ str_of_Z (Task event_desc))
    else Ok event_desc.

Definition validate_event_descriptor (descriptor : pyval) : result EventDescriptor :=
  match event_descriptor_body descriptor with
  | Raise (ValueError m) | Raise (TypeError m) =>
      invalid ("Invalid value in EventDescriptor: " ++ m)
  | r => r
  end.

(** ** windows_event_types.py *)

Inductive SecurityEventID : Type :=
| LOGON_SUCCESS | LOGON_FAILED | ACCOUNT_CREATED | ACCOUNT_ENABLED
| PASSWORD_CHANGE | ACCOUNT_LOCKED | USER_DELETED.

Definition security_event_value (e : SecurityEventID) : Z :=
  match e with
  | LOGON_SUCCESS => 4624
  | LOGON_FAILED => 4625
  | ACCOUNT_CREATED => 4720
  | ACCOUNT_ENABLED => 4722
  | PASSWORD_CHANGE => 4723
  | ACCOUNT_LOCKED => 4740
  | USER_DELETED => 4726
  end.

Definition all_security_events : list SecurityEventID :=
  [LOGON_SUCCESS; LOGON_FAILED; ACCOUNT_CREATED; ACCOUNT_ENABLED;
   PASSWORD_CHANGE; ACCOUNT_LOCKED; USER_DELETED].

(** [SecurityEventID(event_id)]: the member whose value equals [event_id] *)
Definition security_event_of (event_id : pyval) : option SecurityEventID :=
  find (fun e => py_eq_int event_id (security_event_value e)) all_security_events.

Record template : Type := mkTemplate {
  message : string;
  required_fields : list string;
  field_types : list (string * string)
}.

Definition tab : string := String (ascii_of_nat 9) "".

Definition LOGON_SUCCESS_TEMPLATE : template := {|
  message :=
    "An account was successfully logged on." ++ nl ++
    "Subject:" ++ nl ++
    tab ++ "Security ID:" ++ tab ++ tab ++ "%1" ++ nl ++
    tab ++ "Account Name:" ++ tab ++ tab ++ "%2" ++ nl ++
    tab ++ "Account Domain:" ++ tab ++ tab ++ "%3" ++ nl ++
    tab ++ "Logon ID:" ++ tab ++ tab ++ "%4" ++ nl ++
    "Logon Information:" ++ nl ++
    tab ++ "Logon Type:" ++ tab ++ tab ++ "%5" ++ nl ++
    tab ++ "Restricted Admin Mode:" ++ tab ++ "%6" ++ nl ++
    tab ++ "Virtual Account:" ++ tab ++ tab ++ "%7" ++ nl ++
    tab ++ "Elevated Token:" ++ tab ++ tab ++ "%8" ++ nl;
  required_fields :=
    ["SubjectUserSid"; "SubjectUserName"; "SubjectDomainName"; "SubjectLogonId";
     "LogonType"; "RestrictedAdminMode"; "VirtualAccount"; "ElevatedToken"];
  field_types :=
    [("SubjectUserSid", "win:SID");
     ("SubjectUserName", "win:UnicodeString");
     ("SubjectDomainName", "win:UnicodeString");
     ("SubjectLogonId", "win:HexInt64");
     ("LogonType", "win:UInt32");
     ("RestrictedAdminMode", "win:Boolean");
     ("VirtualAccount", "win:Boolean");
     ("ElevatedToken", "win:Boolean")]
|}.

(** [SECURITY_EVENT_TEMPLATES.get(event)] *)
Definition SECURITY_EVENT_TEMPLATES (e : SecurityEventID) : option template :=
  match e with
  | LOGON_SUCCESS => Some LOGON_SUCCESS_TEMPLATE
  | _ => None
  end.

(** Keys of the name-indexed lookup are arbitrary hashable values; two keys
    are the same key when they are equal in Python ([True == 1]). *)
Definition hashable (v : pyval) : bool :=
  match v with
  | PList _ | PDict _ => false
  | _ => true
  end.

Definition key_eq (a b : pyval) : bool :=
  match a, b with
  | PNone, PNone => true
  | PStr s, PStr t => String.eqb s t
  | PInt x, _ => py_eq_int b x
  | PBool x, _ => py_eq_int b (Z_of_bool x)
  | _, _ => false
  end.

Definition mem_key (k : pyval) (d : list (pyval * pyval)) : bool :=
  existsb (fun kv => key_eq (fst kv) k) d.

(** [d[k] = v]: an existing key keeps its place, a new one goes last. *)
Fixpoint dict_set (k v : pyval) (d : list (pyval * pyval)) : list (pyval * pyval) :=
  match d with
  | [] => [(k, v)]
  | (k', v') :: r =>
      if key_eq k' k then (k', v) :: r else (k', v') :: dict_set k v r
  end.

(** [for item in v] *)
Definition py_iter (v : pyval) : result (list pyval) :=
  match v with
  | PList l => Ok l
  | PStr s => Ok (map (fun c => PStr (String c "")) (list_ascii_of_string s))
  | PDict d => Ok (map (fun kv => PStr (fst kv)) d)
  | _ => Raise (TypeError ("'" ++ type_name v ++ "' object is not iterable"))
  end.

(** [{item['Name']: item for item in l}], continuing from [acc] *)
Fixpoint index_by_name (l : list pyval) (acc : list (pyval * pyval))
    : result (list (pyval * pyval)) :=
  match l with
  | [] => Ok acc
  | item :: r =>
      name <- getitem item "Name" ;;
      if hashable name then index_by_name r (dict_set name item acc)
      else Raise (TypeError ("unhashable type: '" ++ type_name name ++ "'"))
  end.

Definition declared_type (field_name : pyval) (t : template) : option string :=
  match field_name with
  | PStr n =>
      match find (fun kt => String.eqb (fst kt) n) (field_types t) with
      | Some kt => Some (snd kt)
      | None => None
      end
  | _ => None
  end.

(** Body of the loop over [data_fields.items()] *)
Definition check_field_type (t : template) (entry : pyval * pyval) : result unit :=
  let (field_name, field_data) := entry in
  match declared_type field_name t with
  | Some expected_type =>
      actual <- get field_data "Type" ;;
      if negb (py_eq_str actual expected_type)
      then (actual' <- get field_data "Type" ;;
            Raise (ValueError ("Invalid type for field " ++ py_str field_name ++ ". "
                               ++ "Expected " ++ expected_type ++ ", got "
                               ++ py_str actual')))
      else Ok tt
  | None => Ok tt
  end.

Definition missing_required (t : template) (data_fields : list (pyval * pyval))
    : list string :=
  filter (fun field => negb (mem_key (PStr field) data_fields)) (required_fields t).

Definition validate_security_event (event_id : pyval) (data : pyval) : result unit :=
  match security_event_of event_id with
  | None => Raise (ValueError ("Unknown Security Event ID: " ++ py_str event_id))
  | Some event =>
      match SECURITY_EVENT_TEMPLATES event with
      | None =>
          Raise (ValueError ("No template defined for Security Event ID: "
                             ++ py_str event_id))
      | Some t =>
          has_data <- py_in "Data" data ;;
          if negb has_data then Raise (ValueError "EventData must contain Data array")
          else
            d <- getitem data "Data" ;;
            data_fields <- (if truthy d
                            then (d' <- getitem data "Data" ;;
                                  l <- py_iter d' ;;
                                  index_by_name l [])
                            else Ok []) ;;
            let missing_fields := missing_required t data_fields in
            if negb (is_nil missing_fields)
            then Raise (ValueError ("Missing required fields for Security Event "
                                    ++ py_str event_id ++ ": "
                                    ++ py_repr (PList (map PStr missing_fields))))
            else for_each (check_field_type t) data_fields
      end
  end.

(** ** validators.py, continued *)

Definition validate_security_event_data (event_data : pyval) (event_id : pyval)
    : result unit :=
  match (if negb (isinstance_dict event_data)
         then invalid "Security Event data must be a dictionary"
         else validate_security_event event_id event_data) with
  | Raise (ValueError m) => invalid ("Security Event validation failed: " ++ m)
  | r => r
  end.

Definition validate_rendering_info (rendering : pyval) : result unit :=
  has_culture <- py_in "Culture" rendering ;;
  if negb has_culture then invalid "RenderingInfo must have Culture attribute"
  else
    culture <- getitem rendering "Culture" ;;
    ok <- re_match_val CULTURE_PATTERN culture ;;
    if negb ok
    then invalid ("Invalid Culture format: " ++ py_str culture
                  ++ ". Expected format: 'en-US'")
    else
      has_kw <- py_in "Keywords" rendering ;;
      if has_kw : bool then
        keywords <- getitem rendering "Keywords" ;;
        bad <- (if negb (isinstance_dict keywords) then Ok true
                else (b <- py_in "Keyword" keywords ;; Ok (negb b))) ;;
        if bad : bool
        then invalid "Keywords in RenderingInfo must contain Keyword elements"
        else
          kw <- getitem keywords "Keyword" ;;
          match kw with
          | PList l =>
              if (64 <? List.length l)%nat
              then invalid "Maximum 64 Keywords allowed in RenderingInfo"
              else Ok tt
          | _ => invalid "Keywords.Keyword must be a list"
          end
      else Ok tt.

(** [channel_name in STANDARD_CHANNELS], which hashes [channel_name] *)
Definition standard_channel (channel_name : pyval) : result (option Z) :=
  match channel_name with
  | PStr n => Ok (channel_id n STANDARD_CHANNELS)
  | PList _ | PDict _ =>
      Raise (TypeError ("unhashable type: '" ++ type_name channel_name ++ "'"))
  | _ => Ok None
  end.

Definition is_security_event_id (event_id : pyval) : bool :=
  existsb (fun e => py_eq_int event_id (security_event_value e)) all_security_events.

Definition validate_windows_event_config (config : pyval) : result unit :=
  missing <- missing_from ["event_descriptor"; "template"; "Event"] config ;;
  if negb (is_nil missing)
  then invalid ("Missing required fields: " ++ join ", " missing)
  else
    template <- getitem config "template" ;;
    if negb (isinstance_dict template) then invalid "Template must be a dictionary"
    else
      has_message <- py_in "message" template ;;
      no_values <- (if negb has_message then Ok true
                    else (b <- py_in "values" template ;; Ok (negb b))) ;;
      if no_values : bool then invalid "Template must contain message and values"
      else
        event <- getitem config "Event" ;;
        has_system <- py_in "System" event ;;
        if negb has_system then invalid "Missing System element in Event"
        else
          system <- getitem event "System" ;;
          validate_system_properties system ;;
          descriptor <- getitem config "event_descriptor" ;;
          validate_event_descriptor descriptor ;;
          has_channel <- py_in "Channel" system ;;
          (if has_channel : bool then
             channel_name <- getitem system "Channel" ;;
             std <- standard_channel channel_name ;;
             match std with
             | Some id =>
                 ch <- getitem descriptor "Channel" ;;
                 if negb (py_eq_int ch id)
                 then invalid ("Channel ID mismatch for " ++ py_str channel_name)
                 else Ok tt
             | None => Ok tt
             end
           else Ok tt) ;;
          event_id <- getitem descriptor "Id" ;;
          (if is_security_event_id event_id then
             has_ed <- py_in "EventData" event ;;
             if negb has_ed
             then invalid ("Security Event " ++ py_str event_id ++ " requires EventData")
             else (ed <- getitem event "EventData" ;;
                   validate_security_event_data ed event_id)
           else Ok tt) ;;
          has_ri <- py_in "RenderingInfo" event ;;
          (if has_ri : bool
           then (ri <- getitem event "RenderingInfo" ;; validate_rendering_info ri)
           else Ok tt) ;;
          has_ed <- py_in "EventData" event ;;
          (if has_ed : bool
           then (ed <- getitem event "EventData" ;; validate_event_data ed)
           else Ok tt).

(** ** utils.py: the value provider

    The generators read the process's random source and clock.  These are an
    [Oracle]: the answer to the [n]-th reading.  A [World] counts the readings
    made so far and keeps what was sent to the logger. *)

Record datetime : Type := mkDatetime {
  year : nat; month : nat; day : nat;
  hour : nat; minute : nat; second : nat; microsecond : nat
}.

Record Oracle : Type := mkOracle {
  uuid4 : nat -> string;              (* [str(uuid.uuid4())] *)
  random_randint : nat -> Z -> Z -> Z;  (* [random.randint(a, b)] *)
  now : nat -> datetime               (* [datetime.datetime.now()] *)
}.

Inductive log_level : Type := WARNING | ERROR.

Record World : Type := mkWorld {
  readings : nat;
  logged : list (log_level * string)
}.

Definition M (A : Type) : Type := World -> result A * World.

Definition ret {A : Type} (a : A) : M A := fun w => (Ok a, w).
Definition throw {A : Type} (e : exn) : M A := fun w => (Raise e, w).
Definition lift {A : Type} (r : result A) : M A := fun w => (r, w).

Definition mbind {A B : Type} (m : M A) (k : A -> M B) : M B :=
  fun w =>
    match m w with
    | (Ok a, w') => k a w'
    | (Raise e, w') => (Raise e, w')
    end.

Notation "x <~ m ;; k" := (mbind m (fun x => k))
  (at level 61, m at next level, right associativity).

Definition read {A : Type} (f : nat -> A) : M A :=
  fun w => (Ok (f (readings w)), mkWorld (S (readings w)) (logged w)).

Definition log_to (lvl : log_level) (msg : string) : M unit :=
  fun w => (Ok tt, mkWorld (readings w) (logged w ++ [(lvl, msg)])).

(** Decimal text of [n], padded with zeros on the left to [width] *)
Fixpoint zeros (n : nat) : string :=
  match n with O => "" | S m => String "0" (zeros m) end.

Definition pad (width n : nat) : string :=
  let s := str_of_Z (Z.of_nat n) in
  zeros (width - String.length s) ++ s.

(** [d.strftime("%Y-%m-%dT%H:%M:%S")], for a year of four digits *)
Definition strftime_iso (d : datetime) : string :=
  pad 4 (year d) ++ "-" ++ pad 2 (month d) ++ "-" ++ pad 2 (day d) ++ "T"
  ++ pad 2 (hour d) ++ ":" ++ pad 2 (minute d) ++ ":" ++ pad 2 (second d).

(** [d.isoformat()]: the microseconds are written when they are not zero. *)
Definition isoformat (d : datetime) : string :=
  strftime_iso d ++
  (if (microsecond d =? 0)%nat then "" else "." ++ pad 6 (microsecond d)).

(** The attributes of the module whose name starts with [func_] *)
Inductive module_function : Type :=
| func_guid | func_sid | func_hostname | func_datetime | func_datetime_iso8601.

Definition function_name (f : module_function) : string :=
  match f with
  | func_guid => "func_guid"
  | func_sid => "func_sid"
  | func_hostname => "func_hostname"
  | func_datetime => "func_datetime"
  | func_datetime_iso8601 => "func_datetime_iso8601"
  end.

Definition module_functions : list module_function :=
  [func_guid; func_sid; func_hostname; func_datetime; func_datetime_iso8601].

(** [getattr(module, name)] for a [name] that starts with [func_] *)
Definition getattr_module (name : string) : option module_function :=
  find (fun f => String.eqb (function_name f) name) module_functions.

(** The body of each generator *)
Definition run_function (o : Oracle) (f : module_function) : M string :=
  match f with
  | func_guid => u <~ read (uuid4 o) ;; ret ("{" ++ u ++ "}")
  | func_sid =>
      n <~ read (fun i => random_randint o i 1000000000 9999999999) ;;
      ret ("S-1-5-21-" ++ str_of_Z n)
  | func_hostname =>
      n <~ read (fun i => random_randint o i 1000 9999) ;;
      ret ("WIN-" ++ str_of_Z n)
  | func_datetime => d <~ read (now o) ;; ret (isoformat d)
  | func_datetime_iso8601 => d <~ read (now o) ;; ret (strftime_iso d)
  end.

(** What [get_function] returns: [lambda: function_str] or a module function *)
Inductive callable : Type :=
| Lambda (function_str : string)
| Function (f : module_function).

Definition arity_error (name : string) (n : nat) : exn :=
  TypeError (name ++ "() takes 0 positional arguments but "
             ++ str_of_Z (Z.of_nat n)
             ++ (if (n =? 1)%nat then " was given" else " were given")).

(** The qualified name of the function that [lambda: function_str] makes *)
Definition lambda_name : string := "get_function.<locals>.<lambda>".

(** Calling [func] with the remaining tokens: every callable here takes no
    argument. *)
Definition call (o : Oracle) (func : callable) (args : list string) : M string :=
  match func, args with
  | Lambda s, [] => ret s
  | Lambda _, _ => throw (arity_error lambda_name (List.length args))
  | Function f, [] => run_function o f
  | Function f, _ => throw (arity_error (function_name f) (List.length args))
  end.

Definition get_function (function_str : string) : result callable :=
  if negb (startswith "func_" function_str) then Ok (Lambda function_str)
  else
    match split_on underscore function_str with
    | _ :: function_str' :: _ =>
        match getattr_module ("func_" ++ function_str') with
        | Some f => Ok (Function f)
        | None => Raise (ValueError ("Unknown function: func_" ++ function_str'))
        end
    | _ => Raise (IndexError "list index out of range")
    end.

Definition exec_function_str (o : Oracle) (function_str : string) : M string :=
  match split_ws function_str with
  | [] => throw (IndexError "list index out of range")
  | t :: args =>
      func <~ lift (get_function t) ;;
      call o func args
  end.

Definition get_random_value (o : Oracle) (field_value : pyval) : M string :=
  match field_value with
  | PStr s =>
      fun w =>
        match exec_function_str o s w with
        | (Raise (ValueError m), w') | (Raise (IndexError m), w') =>
            (_ <~ log_to WARNING ("Failed to execute function for " ++ s ++ ": " ++ m) ;;
             ret s) w'
        | r => r
        end
  | _ => ret (py_str field_value)
  end.

(** ** utils.py: the serializer *)

(** [for x in l: acc = f(acc, x)] in the state monad *)
Fixpoint fold_m {A B : Type} (f : A -> B -> M A) (l : list B) (acc : A) : M A :=
  match l with
  | [] => ret acc
  | x :: r => a <~ f acc x ;; fold_m f r a
  end.

(** [l.append(x)] *)
Definition append {A : Type} (l : list A) (x : A) : list A := (l ++ [x])%list.

Definition q : string := String dquote "".

(** [f'{k}=<quote>{x}<quote>'] *)
Definition attribute (k x : string) : string := k ++ "=" ++ q ++ x ++ q.

(** The two shapes of an element line, chosen by [if attrs] *)
Definition element_line (key : string) (attrs : list string) (text : string) : string :=
  if negb (is_nil attrs)
  then "    <" ++ key ++ " " ++ join " " attrs ++ ">" ++ text ++ "</" ++ key ++ ">"
  else "    <" ++ key ++ ">" ++ text ++ "</" ++ key ++ ">".

(** Body of the loop over the items of a dictionary-valued System field *)
Definition system_attr_step (o : Oracle) (st : list string * string)
    (kv : string * pyval) : M (list string * string) :=
  let (attrs, text) := st in
  let (k, v) := kv in
  if String.eqb k "_text"
  then (t <~ get_random_value o v ;; ret (attrs, t))
  else (x <~ get_random_value o v ;; ret (append attrs (attribute k x), text)).

(** Body of the loop over the items of an EventData entry *)
Definition data_attr_step (o : Oracle) (st : list string * string)
    (kv : string * pyval) : M (list string * string) :=
  let (attrs, text) := st in
  let (k, v) := kv in
  if String.eqb k "_text"
  then (t <~ get_random_value o v ;; ret (attrs, t))
  else ret (append attrs (attribute k (py_str v)), text).

(** Body of the loop over [system.items()] *)
Definition system_step (o : Oracle) (xml : list string) (kv : string * pyval)
    : M (list string) :=
  let (key, value) := kv in
  if isinstance_dict value then
    its <~ lift (items value) ;;
    st <~ fold_m (system_attr_step o) its ([], "") ;;
    ret (append xml (element_line key (fst st) (snd st)))
  else
    t <~ get_random_value o value ;;
    ret (append xml ("    <" ++ key ++ ">" ++ t ++ "</" ++ key ++ ">")).

(** Body of the loop over the entries of [EventData.Data] *)
Definition data_step (o : Oracle) (xml : list string) (data : pyval)
    : M (list string) :=
  its <~ lift (items data) ;;
  st <~ fold_m (data_attr_step o) its ([], "") ;;
  ret (append xml (element_line "Data" (fst st) (snd st))).

Definition xml_declaration : string :=
  "<?xml version=" ++ q ++ "1.0" ++ q ++ " encoding=" ++ q ++ "UTF-8" ++ q ++ "?>".

Definition event_open : string :=
  "<Event xmlns=" ++ q ++ "http://schemas.microsoft.com/win/2004/08/events/event"
  ++ q ++ ">".

(** The [try] block of [get_windows_event_log] *)
Definition windows_event_log_body (o : Oracle) (config : pyval) : M string :=
  _ <~ lift (validate_windows_event_config config) ;;
  let xml := [xml_declaration] in
  let xml := append xml event_open in
  let xml := append xml "  <System>" in
  event <~ lift (getitem config "Event") ;;
  system <~ lift (getitem event "System") ;;
  its <~ lift (items system) ;;
  xml <~ fold_m (system_step o) its xml ;;
  let xml := append xml "  </System>" in
  has_ed <~ lift (py_in "EventData" event) ;;
  xml <~ (if has_ed : bool then
            let xml := append xml "  <EventData>" in
            ed <~ lift (getitem event "EventData") ;;
            d <~ lift (getitem ed "Data") ;;
            l <~ lift (py_iter d) ;;
            xml <~ fold_m (data_step o) l xml ;;
            ret (append xml "  </EventData>")
          else ret xml) ;;
  let xml := append xml "</Event>" in
  ret (join nl xml).

Definition get_windows_event_log (o : Oracle) (config : pyval) : M string :=
  fun w =>
    match windows_event_log_body o config w with
    | (Raise (WindowsEventValidationError m), w') =>
        (_ <~ log_to ERROR ("Windows Event validation error: " ++ m) ;;
         throw (WindowsEventValidationError m)) w'
    | (Raise e, w') =>
        (_ <~ log_to ERROR ("Unexpected error generating Windows Event: " ++ exn_str e) ;;
         throw e) w'
    | r => r
    end.

(** ** A configuration that passes every check (the one of the test suite) *)

Definition entry (name type text : string) : pyval :=
  PDict [("Name", PStr name); ("Type", PStr type); ("_text", PStr text)].

Definition logon_entries : list pyval :=
  [entry "SubjectUserSid" "win:SID" "func_sid";
   entry "SubjectUserName" "win:UnicodeString" "TestUser";
   entry "SubjectDomainName" "win:UnicodeString" "DOMAIN";
   entry "SubjectLogonId" "win:HexInt64" "0x123456";
   entry "LogonType" "win:UInt32" "2";
   entry "RestrictedAdminMode" "win:Boolean" "No";
   entry "VirtualAccount" "win:Boolean" "No";
   entry "ElevatedToken" "win:Boolean" "Yes"].

Definition descriptor_of (channel : pyval) : pyval :=
  PDict [("Id", PInt 4624); ("Version", PInt 0); ("Channel", channel);
         ("Level", PInt 0); ("Opcode", PInt 0); ("Task", PInt 12544);
         ("Keyword", PStr "0x8020000000000000")].

Definition system_of (computer : string) : pyval :=
  PDict [("Provider", PDict [("Name", PStr "Microsoft-Windows-Security-Auditing");
                             ("Guid", PStr "{54849625-5478-4994-A5BA-3E3B0328C30D}")]);
         ("EventID", PDict [("_text", PStr "4624"); ("Qualifiers", PStr "0")]);
         ("Version", PStr "0");
         ("Level", PStr "0");
         ("Task", PStr "12544");
         ("Opcode", PStr "0");
         ("Keywords", PStr "0x8020000000000000");
         ("TimeCreated", PDict [("SystemTime", PStr "func_datetime_iso8601")]);
         ("EventRecordID", PStr "1234");
         ("Correlation", PDict [("ActivityID", PStr "{12345678-1234-5678-1234-567812345678}")]);
         ("Execution", PDict [("ProcessID", PStr "1234"); ("ThreadID", PStr "5678")]);
         ("Channel", PStr "Security");
         ("Computer", PStr computer)].

Definition config_of (descriptor system : pyval) (entries : list pyval) : pyval :=
  PDict [("event_descriptor", descriptor);
         ("template",
          PDict [("message",
                  PStr ("An account was successfully logged on." ++ nl ++ "Subject:"
                        ++ nl ++ tab ++ "Security ID:" ++ tab ++ tab ++ "%1"));
                 ("values", PList [PStr "func_sid"])]);
         ("Event",
          PDict [("xmlns", PStr "http://schemas.microsoft.com/win/2004/08/events/event");
                 ("System", system);
                 ("EventData", PDict [("Data", PList entries)])])].

Definition valid_config : pyval :=
  config_of (descriptor_of (PInt 2)) (system_of "TestComputer") logon_entries.

(** A fixed oracle and the initial world, for evaluation *)
Definition oracle0 : Oracle := {|
  uuid4 := fun _ => "0f8fad5b-d9cb-469f-a165-70867728950e";
  random_randint := fun _ a _ => a;
  now := fun _ => mkDatetime 2024 2 20 10 0 0 7
|}.

Definition world0 : World := mkWorld 0 [].

(** A literal value with a blank in it, and an EventData without entries *)
Definition blank_config : pyval :=
  config_of (descriptor_of (PInt 2)) (system_of "Test Computer") logon_entries.

Definition no_data_config : pyval :=
  PDict [("event_descriptor",
          PDict [("Id", PInt 1000); ("Version", PInt 0); ("Channel", PInt 1);
                 ("Level", PInt 4); ("Opcode", PInt 0); ("Task", PInt 0);
                 ("Keyword", PInt 0)]);
         ("template", PDict [("message", PStr "started"); ("values", PList [])]);
         ("Event",
          PDict [("System",
                  PDict [("Provider", PDict [("Name", PStr "App")]);
                         ("EventID", PInt 1000);
                         ("Computer", PStr "host1")]);
                 ("EventData", PDict [])])].

(** * Further code of the repository *)

(** ** utils.py: the descriptor check and the message format *)

Module Utils.

(** [utils.validate_event_descriptor], on a descriptor already built *)
Definition validate_event_descriptor (event : EventDescriptor) : bool :=
  ((0 <=? Level event) && (Level event <=? 15)) &&
  ((0 <=? Opcode event) && (Opcode event <=? 240)) &&
  (Task event >=? 0).

End Utils.

(** [s.replace(old, new)]: the occurrences of [old] are replaced from left to
    right without overlap; [skip] counts the characters of an occurrence still
    to be passed over.  For an empty [old], [new] goes before every character
    and at the end. *)
Fixpoint replace_aux (old new : string) (skip : nat) (s : string) : string :=
  match s with
  | "" => ""
  | String c r =>
      match skip with
      | S k => replace_aux old new k r
      | O =>
          if String.prefix old s
          then new ++ replace_aux old new (String.length old - 1) r
          else String c (replace_aux old new 0 r)
      end
  end.

Fixpoint replace_empty (new : string) (s : string) : string :=
  match s with
  | "" => new
  | String c r => new ++ String c (replace_empty new r)
  end.

Definition replace (old new s : string) : string :=
  match old with
  | "" => replace_empty new s
  | _ => replace_aux old new 0 s
  end.

(** [f"%{i}"] *)
Definition placeholder (i : nat) : string := "%" ++ str_of_Z (Z.of_nat i).

(** How the error of a wrong argument names its type: [None] by its own
    name *)
Definition argument_type_name (v : pyval) : string :=
  match v with
  | PNone => "None"
  | _ => type_name v
  end.

(** [for i, value in enumerate(values, i): message = message.replace(...)] *)
Fixpoint format_from (i : nat) (message : string) (values : list pyval)
    : result string :=
  match values with
  | [] => Ok message
  | PStr value :: r => format_from (S i) (replace (placeholder i) value message) r
  | v :: _ =>
      Raise (TypeError ("replace() argument 2 must be str, not "
                        ++ argument_type_name v))
  end.

Definition format_windows_message (message : string) (values : list pyval)
    : result string :=
  format_from 1 message values.

(** ** validators.py: message format, UserData and DebugData *)

(** [len(v)] *)
Definition py_len (v : pyval) : result nat :=
  match v with
  | PStr s => Ok (String.length s)
  | PList l => Ok (List.length l)
  | PDict d => Ok (List.length d)
  | _ => Raise (TypeError ("object of type '" ++ type_name v ++ "' has no len()"))
  end.

(** [sum(1 for i in l if f"%{i}" in message)] *)
Fixpoint count_placeholders (l : list nat) (message : pyval) : result nat :=
  match l with
  | [] => Ok O
  | i :: r =>
      b <- py_in (placeholder i) message ;;
      n <- count_placeholders r message ;;
      Ok (if b : bool then S n else n)
  end.

Definition validate_message_format (message : pyval) (values : pyval) : result unit :=
  n <- py_len values ;;
  param_count <- count_placeholders (seq 1 (n + 1)) message ;;
  if (n <? param_count)%nat
  then invalid ("Message contains " ++ str_of_Z (Z.of_nat param_count)
                ++ " parameters but only " ++ str_of_Z (Z.of_nat n)
                ++ " values provided")
  else Ok tt.


Definition validate_debug_data (debug_data : pyval) : result unit :=
  missing <- missing_from ["Component"; "Message"] debug_data ;;
  if negb (is_nil missing)
  then invalid ("Missing required DebugData elements: " ++ join ", " missing)
  else
    has_seq <- py_in "SequenceNumber" debug_data ;;
    if has_seq : bool then
      x <- getitem debug_data "SequenceNumber" ;;
      match py_int x with
      | Ok seq_num =>
          if seq_num <? 0
          then invalid ("SequenceNumber must be non-negative, got " ++ str_of_Z seq_num)
          else Ok tt
      | Raise (ValueError _) =>
          x' <- getitem debug_data "SequenceNumber" ;;
          invalid ("Invalid SequenceNumber: " ++ py_str x')
      | Raise e => Raise e
      end
    else Ok tt.

(** ** windows_event_types.py: the logon event *)

Definition SecurityLogonType_values : list Z := [0; 2; 3; 4; 5; 6; 7; 8; 9; 10; 11].

(** An exception of the validators, or the [UnboundLocalError] of a local
    variable read before it was assigned *)
Inductive outcome (A : Type) : Type :=
| Returns (a : A)
| Raises (e : exn)
| RaisesUnboundLocalError (name : string).
Arguments Returns {A} a.
Arguments Raises {A} e.
Arguments RaisesUnboundLocalError {A} name.

Definition of_result {A : Type} (r : result A) : outcome A :=
  match r with
  | Ok a => Returns a
  | Raise e => Raises e
  end.

(** The lexicon of [validate_logon_event], without [func_bool] *)
Definition logon_boolean_lexicon : list string :=
  ["yes"; "no"; "true"; "false"; "0"; "1"].

(** Body of the loop over the boolean fields *)
Definition check_logon_boolean (data : pyval) (field : string) : result unit :=
  v <- get_default data field (PStr "") ;;
  let value := lower (py_str v) in
  if negb (in_strings value logon_boolean_lexicon)
  then Raise (ValueError ("Invalid boolean value for " ++ field ++ ": " ++ value))
  else Ok tt.

(** In the handler of [ValueError] the variable [logon_type] is read: it is
    bound when the enumeration refused the number, not when [int] refused the
    text. *)
Definition validate_logon_event (data : pyval) : outcome unit :=
  match get_default data "LogonType" (PInt (-1)) with
  | Raise e => Raises e
  | Ok v =>
      match py_int v with
      | Raise (ValueError _) => RaisesUnboundLocalError "logon_type"
      | Raise e => Raises e
      | Ok logon_type =>
          if negb (existsb (Z.eqb logon_type) SecurityLogonType_values)
          then Raises (ValueError ("Invalid LogonType: " ++ str_of_Z logon_type
                                   ++ ". Must be one of "
                                   ++ py_repr (PList (map PInt SecurityLogonType_values))))
          else of_result
                 (for_each (check_logon_boolean data)
                           ["RestrictedAdminMode"; "VirtualAccount"; "ElevatedToken"])
      end
  end.
(** * Definitions used to state the properties *)

(** ** The canonical GUID form *)

(** The canonical form in the words of the specification: a text is read
    segment by segment, each segment a fixed number of characters of one kind,
    and nothing may remain. *)
Fixpoint take_chars (p : ascii -> bool) (n : nat) (s : string) : option string :=
  match n with
  | O => Some s
  | S m =>
      match s with
      | String c r => if p c then take_chars p m r else None
      | "" => None
      end
  end.

Fixpoint has_form (fmt : list (nat * (ascii -> bool))) (final : string -> bool)
    (s : string) : bool :=
  match fmt with
  | [] => final s
  | (n, p) :: r =>
      match take_chars p n s with
      | Some rest => has_form r final rest
      | None => false
      end
  end.

Definition guid_form : list (nat * (ascii -> bool)) :=
  [(1, Ascii.eqb "{"); (8, is_hex); (1, Ascii.eqb "-"); (4, is_hex);
   (1, Ascii.eqb "-"); (4, is_hex); (1, Ascii.eqb "-"); (4, is_hex);
   (1, Ascii.eqb "-"); (12, is_hex); (1, Ascii.eqb "}")]%nat.

Definition canonical_guid (s : string) : bool :=
  has_form guid_form (String.eqb "") s.

(** A canonical GUID followed by a line feed *)
Definition guid_with_newline : string :=
  "{54849625-5478-4994-A5BA-3E3B0328C30D}" ++ nl.

(** ** Converted descriptors *)

(** The seven fields of [descriptor] convert to the fields of [e]. *)
Definition converts (descriptor : pyval) (e : EventDescriptor) : Prop :=
  int_field descriptor "Id" = Ok (Id e) /\
  int_field descriptor "Version" = Ok (Version e) /\
  int_field descriptor "Channel" = Ok (Channel e) /\
  int_field descriptor "Level" = Ok (Level e) /\
  int_field descriptor "Opcode" = Ok (Opcode e) /\
  int_field descriptor "Task" = Ok (Task e) /\
  (kw <- getitem descriptor "Keyword" ;; keyword_of kw) = Ok (Keyword e).

(** The descriptor of the test suite at a given Level, and its conversion *)
Definition sample_descriptor (level : Z) : pyval :=
  PDict [("Id", PInt 4624); ("Version", PInt 0); ("Channel", PInt 2);
         ("Level", PInt level); ("Opcode", PInt 0); ("Task", PInt 12544);
         ("Keyword", PStr "0x8020000000000000")].

Definition sample_event_descriptor (level : Z) : EventDescriptor :=
  mkEventDescriptor 4624 0 2 level 0 12544 9232379236109516800.

(** ** Readings of a digit string *)

(** The readings of a digit string, in the words of the specification *)
Fixpoint position (c : ascii) (alphabet : string) : option nat :=
  match alphabet with
  | "" => None
  | String a r =>
      if Ascii.eqb a c then Some O
      else match position c r with
           | Some n => Some (S n)
           | None => None
           end
  end.

Definition hex_digit_value (c : ascii) : Z :=
  match position (lower_char c) "0123456789abcdef" with
  | Some n => Z.of_nat n
  | None => 0
  end.

Definition reading (base : Z) (s : string) : Z :=
  fold_left (fun acc c => acc * base + hex_digit_value c) (list_ascii_of_string s) 0.

Definition hexadecimal_reading : string -> Z := reading 16.
Definition decimal_reading : string -> Z := reading 10.

Definition all_chars (p : ascii -> bool) (s : string) : bool :=
  forallb p (list_ascii_of_string s).

Definition hex_text (s : string) : Prop := s <> "" /\ all_chars is_hex s = true.

Definition no_space (c : ascii) : bool := negb (is_space c).

(** A descriptor with a given Keyword *)
Definition keyword_descriptor (kw : pyval) : pyval :=
  PDict [("Id", PInt 1); ("Version", PInt 0); ("Channel", PInt 1);
         ("Level", PInt 4); ("Opcode", PInt 0); ("Task", PInt 0);
         ("Keyword", kw)].

(** ** Entries and the name-indexed lookup *)

(** [item['Name'] == f] *)
Definition named (item : pyval) (f : string) : bool :=
  match getitem item "Name" with
  | Ok v => py_eq_str v f
  | Raise _ => false
  end.

(** The keys of a lookup are pairwise different. *)
Fixpoint distinct_keys (d : list (pyval * pyval)) : Prop :=
  match d with
  | [] => True
  | (k, _) :: r => mem_key k r = false /\ distinct_keys r
  end.

(** [e] is the last of the entries whose Name equals [n]. *)
Definition last_named (l : list pyval) (n e : pyval) : Prop :=
  exists l1 l2,
    l = (l1 ++ e :: l2)%list /\
    (exists n', getitem e "Name" = Ok n' /\ key_eq n n' = true) /\
    Forall (fun it => forall n', getitem it "Name" = Ok n' -> key_eq n n' = false) l2.

(** The entries of the test suite without LogonType and ElevatedToken, and
    their lookup *)
Definition without_two_entries : list pyval :=
  [entry "SubjectUserSid" "win:SID" "func_sid";
   entry "SubjectUserName" "win:UnicodeString" "TestUser";
   entry "SubjectDomainName" "win:UnicodeString" "DOMAIN";
   entry "SubjectLogonId" "win:HexInt64" "0x123456";
   entry "RestrictedAdminMode" "win:Boolean" "No";
   entry "VirtualAccount" "win:Boolean" "No"].

Definition indexed_without_two : list (pyval * pyval) :=
  combine (map PStr ["SubjectUserSid"; "SubjectUserName"; "SubjectDomainName";
                     "SubjectLogonId"; "RestrictedAdminMode"; "VirtualAccount"])
          without_two_entries.

(** A LogonType entry of type [win:Bogus], followed by the eight well-typed
    entries *)
Definition shadowed_entries : list pyval :=
  entry "LogonType" "win:Bogus" "2" :: logon_entries.

(** ** Outcomes of validation *)

(** [r] is not a validation error whose message starts with the letter C;
    the channel-mismatch message does. *)
Definition other_outcome {A : Type} (r : result A) : Prop :=
  match r with
  | Raise (WindowsEventValidationError (String "C" _)) => False
  | _ => True
  end.

(** The template validator raises no validation error of its own. *)
Definition no_validation_error {A : Type} (r : result A) : Prop :=
  match r with
  | Raise (WindowsEventValidationError _) => False
  | _ => True
  end.

(** The checks made before the cross-check pass. *)
Definition reaches_cross_check (config event system descriptor : pyval) : Prop :=
  missing_from ["event_descriptor"; "template"; "Event"] config = Ok [] /\
  (exists t, getitem config "template" = Ok (PDict t) /\
             has_key "message" t = true /\ has_key "values" t = true) /\
  getitem config "Event" = Ok event /\
  getitem event "System" = Ok system /\
  validate_system_properties system = Ok tt /\
  getitem config "event_descriptor" = Ok descriptor /\
  (exists e, validate_event_descriptor descriptor = Ok e).

(** A System with the channel Security and no Computer *)
Definition system_without_computer : pyval :=
  PDict [("Provider", PDict [("Name", PStr "Microsoft-Windows-Security-Auditing")]);
         ("EventID", PStr "4624");
         ("Channel", PStr "Security")].

(** ** Attributes and lines of the serializer *)




(** A text is a generator invocation when its first token carries the
    marker [func_]. *)
Definition is_invocation (s : string) : bool :=
  match split_ws s with
  | t :: _ => startswith "func_" t
  | [] => false
  end.




(** Two computations end alike, whatever the worlds they start from. *)
Definition same_outcome {A : Type} (m1 m2 : M A) : Prop :=
  forall w1 w2, fst (m1 w1) = fst (m2 w2).






(** A configuration without generator invocations, and a second random
    source and clock *)
Definition resolved_config : pyval :=
  PDict [("event_descriptor", descriptor_of (PInt 2));
         ("template", PDict [("message", PStr "An account was successfully logged on.");
                             ("values", PList [])]);
         ("Event",
          PDict [("System",
                  PDict [("Provider",
                          PDict [("Name", PStr "Microsoft-Windows-Security-Auditing");
                                 ("Guid", PStr "{54849625-5478-4994-A5BA-3E3B0328C30D}")]);
                         ("EventID", PDict [("_text", PStr "4624"); ("Qualifiers", PStr "0")]);
                         ("TimeCreated", PDict [("SystemTime", PStr "2024-02-20T10:00:00")]);
                         ("Channel", PStr "Security");
                         ("Computer", PStr "TestComputer")]);
                 ("EventData",
                  PDict [("Data",
                          PList (entry "SubjectUserSid" "win:SID" "S-1-5-21-1000000000"
                                 :: tl logon_entries))])])].


(** ** Definitions used to state the further properties *)


(** The field [f] of the mapping [d] is absent, or converts to an integer that
    is not negative. *)
Definition absent_or_natural (d : list (string * pyval)) (f : string) : Prop :=
  lookup f d = None \/
  exists v z, lookup f d = Some v /\ py_int v = Ok z /\ 0 <= z.

(** The value under [k], if there is one and it is not empty, is a GUID that
    [validate_guid] accepts. *)
Definition empty_or_guid (d : list (string * pyval)) (k : string) : Prop :=
  forall g, lookup k d = Some g -> truthy g = true -> validate_guid g = Ok true.

(** The culture name in words: two lower-case letters, a hyphen, two
    upper-case letters *)
Definition culture_form : list (nat * (ascii -> bool)) :=
  [(2, is_lower); (1, Ascii.eqb "-"); (2, is_upper)]%nat.

Definition culture_name (s : string) : bool := has_form culture_form (String.eqb "") s.

(** A hexadecimal literal of at most [width] digits: [0x] or [0X], then one
    to [width] hexadecimal digits *)
Definition hex_literal (width : nat) (s : string) : Prop :=
  exists x h,
    s = String "0" (String x h) /\ (x = "x"%char \/ x = "X"%char) /\
    hex_text h /\ (String.length h <= width)%nat.

(** [d.get(k, dflt)] on a mapping *)
Definition field_or (d : list (string * pyval)) (k : string) (dflt : pyval) : pyval :=
  match lookup k d with
  | Some v => v
  | None => dflt
  end.

Definition logon_boolean (d : list (string * pyval)) (f : string) : bool :=
  in_strings (lower (py_str (field_or d f (PStr "")))) logon_boolean_lexicon.

(** An entry that [validate_event_data] accepts: a mapping with a Name whose
    text, when its Type is [win:Boolean], reads in lower case as one of the
    boolean lexicon. *)
Definition acceptable_entry (data : pyval) : Prop :=
  exists d, data = PDict d /\ has_key "Name" d = true /\
    (py_eq_str (field_or d "Type" PNone) "win:Boolean" = true ->
     in_strings (lower (py_str (field_or d "_text" (PStr "")))) boolean_lexicon = true).


(** An entry that the name-indexed lookup can take *)
Definition indexable (item : pyval) : Prop :=
  exists n, getitem item "Name" = Ok n /\ hashable n = true.

(** The values for which the value provider has an answer: everything but a
    text of two or more tokens whose first token is a literal or names a
    module function. *)
Definition answered (v : pyval) : bool :=
  match v with
  | PStr s =>
      match split_ws s with
      | t :: _ :: _ =>
          match get_function t with
          | Ok _ => false
          | Raise _ => true
          end
      | _ => true
      end
  | _ => true
  end.

(** The text of a UUID: 8, 4, 4, 4 and 12 hexadecimal digits between
    hyphens *)
Definition uuid_form : list (nat * (ascii -> bool)) :=
  [(8, is_hex); (1, Ascii.eqb "-"); (4, is_hex); (1, Ascii.eqb "-"); (4, is_hex);
   (1, Ascii.eqb "-"); (4, is_hex); (1, Ascii.eqb "-"); (12, is_hex)]%nat.

Definition returns {A : Type} (m : M A) (w : World) : Prop :=
  exists a w', m w = (Ok a, w').

(** The values of a System field and of a Data entry that the value
    provider is asked for *)
Definition answered_items (its : list (string * pyval)) : bool :=
  forallb (fun kv => answered (snd kv)) its.

Definition system_field_answered (kv : string * pyval) : bool :=
  match snd kv with
  | PDict its => answered_items its
  | v => answered v
  end.

Definition data_entry_answered (data : pyval) : bool :=
  match data with
  | PDict its =>
      forallb (fun kv => negb (String.eqb (fst kv) "_text") || answered (snd kv)) its
  | _ => false
  end.



(** The value whose conversion is the event id *)
Definition event_id_value (eid : pyval) : pyval :=
  match eid with
  | PDict e => field_or e "_text" PNone
  | v => v
  end.

(** * Properties *)

(** ** Serialization after validation *)

(** C1: the claim is that every validated configuration serializes.  The
    configuration of the test suite with the computer name [Test Computer]
    passes the validator, and the serializer raises [TypeError] on it, whatever
    the random source and the clock answer: [get_function] returns a function
    of no argument for a literal, and [exec_function_str] calls it with the
    tokens that follow the first.  A validated configuration whose EventData
    has no Data key ends in [KeyError]. *)
Theorem serializer_fails_after_validation :
  forall (o : Oracle) (w : World),
    validate_windows_event_config blank_config = Ok tt /\
    fst (get_windows_event_log o blank_config w)
      = Raise (TypeError ("get_function.<locals>.<lambda>() takes 0 positional "
                          ++ "arguments but 1 was given")) /\
    validate_windows_event_config no_data_config = Ok tt /\
    fst (get_windows_event_log o no_data_config w) = Raise (KeyError "Data").
Proof.
  intros o w. repeat split; vm_compute; reflexivity.
Qed.

(** ** GUID validation *)

Lemma rep_match_exact (cls : list (nat * nat)) (p : ascii -> bool)
    (k : nat -> string -> bool) :
  (forall c, in_class cls c = p c) ->
  forall n pos s,
    rep_match cls k n n pos s =
    match take_chars p n s with
    | Some r => k (pos + n)%nat r
    | None => false
    end.
Proof.
  intros Hcls n. induction n as [|n IH]; intros pos s; simpl.
  - now rewrite Nat.add_0_r.
  - rewrite orb_false_r. destruct s as [|c r]; [reflexivity|].
    rewrite Hcls. destruct (p c); simpl; [|reflexivity].
    rewrite IH. now rewrite Nat.add_succ_r.
Qed.

Lemma in_class_hex (c : ascii) : in_class hex_class c = is_hex c.
Proof.
  unfold in_class, hex_class, is_hex, is_digit; simpl.
  destruct (char_in 48 57 c), (char_in 97 102 c), (char_in 65 70 c); reflexivity.
Qed.

Lemma in_class_lit (a c : ascii) :
  in_class [(nat_of_ascii a, nat_of_ascii a)] c = Ascii.eqb a c.
Proof.
  unfold in_class, char_in; simpl. rewrite orb_false_r.
  destruct (Ascii.eqb_spec a c) as [->|Hne].
  - now rewrite Nat.leb_refl.
  - destruct (Nat.leb_spec (nat_of_ascii a) (nat_of_ascii c)),
             (Nat.leb_spec (nat_of_ascii c) (nat_of_ascii a)); simpl; try reflexivity.
    exfalso. apply Hne.
    rewrite <- (ascii_nat_embedding a), <- (ascii_nat_embedding c).
    f_equal. lia.
Qed.

Lemma take_chars_app (p : ascii -> bool) (n : nat) :
  forall s r t, take_chars p n s = Some r -> take_chars p n (s ++ t) = Some (r ++ t).
Proof.
  induction n as [|n IH]; intros s r t H; simpl in *.
  - now inversion H.
  - destruct s as [|c s']; [discriminate|]. simpl.
    destruct (p c); [now apply IH | discriminate].
Qed.

Lemma take_chars_unapp (p : ascii -> bool) (n : nat) :
  forall s r t, take_chars p n s = Some (r ++ t) ->
    exists s', s = s' ++ t /\ take_chars p n s' = Some r.
Proof.
  induction n as [|n IH]; intros s r t H; simpl in *.
  - inversion H. now exists r.
  - destruct s as [|c s']; [discriminate|].
    destruct (p c) eqn:Hp; [|discriminate].
    destruct (IH _ _ _ H) as (s'' & -> & Hs'').
    exists (String c s''). simpl. now rewrite Hp.
Qed.

(** A text has the form up to one remaining line feed exactly when it is a
    text of that form followed by a line feed. *)
Lemma has_form_newline (fmt : list (nat * (ascii -> bool))) :
  forall s,
    has_form fmt (fun r => String.eqb r nl) s = true <->
    exists g, s = g ++ nl /\ has_form fmt (String.eqb "") g = true.
Proof.
  induction fmt as [|[n p] fmt IH]; intros s; simpl.
  - rewrite String.eqb_eq. split.
    + intros ->. now exists "".
    + intros (g & -> & Hg). destruct g; [reflexivity | discriminate].
  - split.
    + destruct (take_chars p n s) as [rest|] eqn:Ht; [|discriminate].
      intros H. apply IH in H. destruct H as (g & -> & Hg).
      destruct (take_chars_unapp _ _ _ _ _ Ht) as (s' & -> & Hs').
      exists s'. split; [reflexivity|]. now rewrite Hs'.
    + intros (g & -> & Hg).
      destruct (take_chars p n g) as [rest|] eqn:Ht; [|discriminate].
      rewrite (take_chars_app _ _ _ _ nl Ht). apply IH. now exists rest.
Qed.

Lemma has_form_or (fmt : list (nat * (ascii -> bool))) (f g : string -> bool) :
  forall s, has_form fmt (fun r => f r || g r) s = has_form fmt f s || has_form fmt g s.
Proof.
  induction fmt as [|[n p] fmt IH]; intros s; simpl; [reflexivity|].
  destruct (take_chars p n s); [apply IH | reflexivity].
Qed.

Lemma re_match_guid (s : string) :
  re_match GUID_PATTERN s = has_form guid_form at_eol s.
Proof.
  unfold re_match, GUID_PATTERN, guid_form, lit. cbn [re_items Nat.eqb andb].
  repeat (first [ rewrite (rep_match_exact _ _ _ (in_class_lit _))
                | rewrite (rep_match_exact _ _ _ in_class_hex) ];
          cbn [has_form];
          match goal with
          | |- context [take_chars ?p ?n ?x] =>
              destruct (take_chars p n x); [|reflexivity]
          end).
  cbn [re_items has_form]. now rewrite andb_true_r.
Qed.

(** What [validate_guid] accepts: the canonical form, and the canonical form
    followed by one line feed. *)
Theorem validate_guid_accepts (s : string) :
  validate_guid (PStr s) = Ok true <->
  canonical_guid s = true \/ exists g, s = g ++ nl /\ canonical_guid g = true.
Proof.
  unfold validate_guid, re_match_val, canonical_guid.
  rewrite re_match_guid. unfold at_eol.
  rewrite (has_form_or guid_form (fun r => String.eqb r "") (fun r => String.eqb r nl)).
  rewrite <- has_form_newline.
  assert (E : has_form guid_form (fun r => String.eqb r "") s
              = has_form guid_form (String.eqb "") s).
  { generalize guid_form. intros fmt. revert s.
    induction fmt as [|[n p] fmt IH]; intros s; simpl.
    - apply String.eqb_sym.
    - destruct (take_chars p n s); [apply IH | reflexivity]. }
  rewrite E. split.
  - intros H. injection H as H. now apply orb_true_iff in H.
  - intros H. apply orb_true_iff in H. now rewrite H.
Qed.

(** C5: the claim is that [validate_guid] accepts exactly the texts of the
    canonical form.  The pattern ends in [$], which also holds before a final
    line feed: a canonical GUID followed by a line feed is accepted although
    it is not of the canonical form (it has 39 characters). *)
Theorem validate_guid_trailing_newline :
  validate_guid (PStr guid_with_newline) = Ok true /\
  canonical_guid guid_with_newline = false /\
  String.length guid_with_newline = 39%nat.
Proof.
  repeat split; vm_compute; reflexivity.
Qed.

(** ** The value provider *)

Lemma has_char_rev (c : ascii) (s : string) :
  has_char c (rev_string s) = has_char c s.
Proof.
  unfold has_char, rev_string. rewrite list_ascii_of_string_of_list_ascii.
  apply eq_true_iff_eq. rewrite !existsb_exists.
  split; intros (x & Hin & Hx); exists x; split; auto.
  - now apply in_rev.
  - now apply in_rev in Hin.
Qed.

(** No piece of [s.split(sep)] holds the separator. *)
Lemma split_on_aux_pieces (sep : ascii) :
  forall s cur x,
    has_char sep cur = false ->
    In x (split_on_aux sep cur s) -> has_char sep x = false.
Proof.
  induction s as [|c s IH]; intros cur x Hcur Hin; simpl in Hin.
  - destruct Hin as [<-|[]]. now rewrite has_char_rev.
  - destruct (Ascii.eqb c sep) eqn:Hc.
    + destruct Hin as [<-|Hin].
      * now rewrite has_char_rev.
      * now apply (IH "" x).
    + apply (IH (String c cur) x); [|assumption].
      unfold has_char in *. simpl. rewrite Hcur, orb_false_r.
      now rewrite Ascii.eqb_sym.
Qed.

Lemma split_on_pieces (sep : ascii) (s x : string) :
  In x (split_on sep s) -> has_char sep x = false.
Proof. now apply split_on_aux_pieces. Qed.

Lemma getattr_module_name (name : string) (f : module_function) :
  getattr_module name = Some f -> function_name f = name.
Proof.
  unfold getattr_module. intros H. apply find_some in H.
  now apply String.eqb_eq.
Qed.

(** The name looked up by [get_function] is the piece between the first and
    the second underscore, so it holds no underscore itself. *)
Lemma get_function_name (s : string) (f : module_function) :
  get_function s = Ok (Function f) ->
  exists x, function_name f = "func_" ++ x /\ has_char underscore x = false.
Proof.
  unfold get_function. destruct (startswith "func_" s); cbn [negb]; [|discriminate].
  destruct (split_on underscore s) as [|a [|x r]] eqn:Hs; try discriminate.
  destruct (getattr_module ("func_" ++ x)) as [g|] eqn:Hg; [|discriminate].
  intros H. injection H as <-. exists x. split.
  - now apply getattr_module_name.
  - apply (split_on_pieces underscore s). rewrite Hs. simpl. auto.
Qed.

(** [func_datetime_iso8601] is never what [get_function] returns. *)
Theorem func_datetime_iso8601_unreachable (s : string) :
  get_function s <> Ok (Function func_datetime_iso8601).
Proof.
  intros H. apply get_function_name in H. destruct H as (x & Hx & Hu).
  cbn [function_name String.append] in Hx. inversion Hx; subst x.
  vm_compute in Hu. discriminate Hu.
Qed.

(** C10: the claim is that the specification [func_datetime_iso8601] is
    dispatched to the function of that name.  [get_function] keeps only the
    piece between the first and the second underscore, [datetime], and
    returns [func_datetime]; the two functions answer differently as soon as
    the clock shows microseconds. *)
Theorem get_function_datetime_iso8601 :
  get_function "func_datetime_iso8601" = Ok (Function func_datetime) /\
  getattr_module "func_datetime_iso8601" = Some func_datetime_iso8601 /\
  fst (get_random_value oracle0 (PStr "func_datetime_iso8601") world0)
    = Ok "2024-02-20T10:00:00.000007" /\
  fst (run_function oracle0 func_datetime_iso8601 world0) = Ok "2024-02-20T10:00:00".
Proof.
  repeat split; vm_compute; reflexivity.
Qed.

(** An unknown generator: the text is returned as it is, one warning is
    logged, the random source and the clock are not read. *)
Lemma get_random_value_unknown (o : Oracle) (s t a x : string)
    (args rest : list string) (w : World) :
  split_ws s = t :: args ->
  startswith "func_" t = true ->
  split_on underscore t = a :: x :: rest ->
  getattr_module ("func_" ++ x) = None ->
  get_random_value o (PStr s) w =
    (Ok s, mkWorld (readings w)
             (logged w ++ [(WARNING, "Failed to execute function for " ++ s
                                     ++ ": Unknown function: func_" ++ x)])).
Proof.
  intros Hs Ht Hx Hg.
  unfold get_random_value, exec_function_str. rewrite Hs.
  unfold mbind, lift, get_function. rewrite Ht, Hx, Hg. reflexivity.
Qed.

(** C7: the claim is that a specification whose first token names no
    registered capability is returned unchanged and never raises.  The token
    [func_guid_x] names none ([getattr] finds no such function), but
    [get_function] looks up [func_guid]: the value is a fresh GUID and no
    warning is logged, and with a further token the call raises
    [TypeError], which [get_random_value] does not catch. *)
Theorem get_random_value_truncated_name :
  forall (o : Oracle) (w : World),
    getattr_module "func_guid_x" = None /\
    get_random_value o (PStr "func_guid_x") w
      = (Ok ("{" ++ uuid4 o (readings w) ++ "}"), mkWorld (S (readings w)) (logged w)) /\
    get_random_value o (PStr "func_guid_x 5") w
      = (Raise (TypeError "func_guid() takes 0 positional arguments but 1 was given"), w).
Proof.
  intros o w. repeat split.
Qed.

(** ** The event descriptor *)

Lemma bind_ok {A B : Type} (r : result A) (k : A -> result B) (b : B) :
  bind r k = Ok b -> exists a, r = Ok a /\ k a = Ok b.
Proof. destruct r as [a|e]; simpl; [now exists a | discriminate]. Qed.

Lemma getitem_in (d : pyval) (k : string) (v : pyval) :
  getitem d k = Ok v -> py_in k d = Ok true.
Proof.
  destruct d; simpl; try discriminate.
  unfold has_key. destruct (lookup k d); [reflexivity | discriminate].
Qed.

Lemma int_field_in (d : pyval) (k : string) (z : Z) :
  int_field d k = Ok z -> py_in k d = Ok true.
Proof.
  unfold int_field. intros H. apply bind_ok in H. destruct H as (v & Hv & _).
  exact (getitem_in _ _ _ Hv).
Qed.

Lemma event_descriptor_body_converted (descriptor : pyval) (e : EventDescriptor) :
  converts descriptor e ->
  event_descriptor_body descriptor =
    if negb ((0 <=? Level e) && (Level e <=? 15))
    then invalid ("Level must be between 0 and 15, got " ++ str_of_Z (Level e))
    else if negb ((0 <=? Opcode e) && (Opcode e <=? 240))
    then invalid ("Opcode must be between 0 and 240, got " ++ str_of_Z (Opcode e))
    else if Task e <? 0
    then invalid ("Task must be non-negative, got " ++ str_of_Z (Task e))
    else Ok e.
Proof.
  intros (Hid & Hver & Hch & Hlvl & Hop & Htask & Hkw).
  unfold event_descriptor_body.
  assert (Hk : py_in "Keyword" descriptor = Ok true).
  { apply bind_ok in Hkw. destruct Hkw as (v & Hv & _). exact (getitem_in _ _ _ Hv). }
  cbn [missing_from].
  rewrite (int_field_in _ _ _ Hid), (int_field_in _ _ _ Hver), (int_field_in _ _ _ Hch),
    (int_field_in _ _ _ Hlvl), (int_field_in _ _ _ Hop), (int_field_in _ _ _ Htask), Hk.
  cbn [bind is_nil negb].
  rewrite Hid, Hver, Hch, Hlvl, Hop, Htask. cbn [bind].
  apply bind_ok in Hkw. destruct Hkw as (v & Hv & Hkw). rewrite Hv. cbn [bind].
  rewrite Hkw. cbn [bind Level Opcode Task].
  now destruct e.
Qed.

(** C2, as amended: when the seven fields convert, the descriptor validator
    fails naming the first field out of range (Level outside 0..15, then
    Opcode outside 0..240, then negative Task) with its range and the
    offending value, and otherwise returns the descriptor made of exactly the
    converted values. *)
Theorem validate_event_descriptor_ranges (descriptor : pyval) (e : EventDescriptor) :
  converts descriptor e ->
  (Level e < 0 \/ 15 < Level e ->
   validate_event_descriptor descriptor
     = invalid ("Level must be between 0 and 15, got " ++ str_of_Z (Level e))) /\
  (0 <= Level e <= 15 -> Opcode e < 0 \/ 240 < Opcode e ->
   validate_event_descriptor descriptor
     = invalid ("Opcode must be between 0 and 240, got " ++ str_of_Z (Opcode e))) /\
  (0 <= Level e <= 15 -> 0 <= Opcode e <= 240 -> Task e < 0 ->
   validate_event_descriptor descriptor
     = invalid ("Task must be non-negative, got " ++ str_of_Z (Task e))) /\
  (0 <= Level e <= 15 -> 0 <= Opcode e <= 240 -> 0 <= Task e ->
   validate_event_descriptor descriptor = Ok e).
Proof.
  intros Hc. unfold validate_event_descriptor.
  rewrite (event_descriptor_body_converted _ _ Hc).
  repeat split; intros;
    repeat match goal with
    | |- context [?a <=? ?b] => destruct (Z.leb_spec a b); try lia
    | |- context [?a <? ?b] => destruct (Z.ltb_spec a b); try lia
    end; reflexivity.
Qed.

(** The descriptor of the test suite converts and is returned whole. *)
Lemma validate_event_descriptor_ranges_witness :
  converts (sample_descriptor 0) (sample_event_descriptor 0) /\
  validate_event_descriptor (sample_descriptor 0) = Ok (sample_event_descriptor 0).
Proof.
  assert (Hc : converts (sample_descriptor 0) (sample_event_descriptor 0))
    by (repeat split).
  split; [exact Hc|].
  apply (validate_event_descriptor_ranges _ _ Hc); simpl; lia.
Defined.

(** C2, as stated, at Level -1: the converted values satisfy Level <= 15,
    Opcode <= 240 and Task >= 0, and the validator fails. *)
Lemma validate_event_descriptor_negative_level :
  converts (sample_descriptor (-1)) (sample_event_descriptor (-1)) /\
  Level (sample_event_descriptor (-1)) <= 15 /\
  Opcode (sample_event_descriptor (-1)) <= 240 /\
  Task (sample_event_descriptor (-1)) >= 0 /\
  validate_event_descriptor (sample_descriptor (-1))
    = Raise (WindowsEventValidationError "Level must be between 0 and 15, got -1").
Proof.
  repeat split; simpl; try lia; discriminate.
Qed.

(** ** The Keyword literal *)

Lemma hex_char_facts (c : ascii) :
  is_hex c = true ->
  digit_val 16 c = Some (hex_digit_value c) /\
  is_space c = false /\
  Ascii.eqb c underscore = false /\
  Ascii.eqb c "x" = false /\ Ascii.eqb c "X" = false /\
  Ascii.eqb c "-" = false /\ Ascii.eqb c "+" = false.
Proof.
  destruct c as [[] [] [] [] [] [] [] []]; intros H;
    try discriminate H; repeat split.
Qed.

Lemma rev_string_involutive (s : string) : rev_string (rev_string s) = s.
Proof.
  unfold rev_string.
  now rewrite list_ascii_of_string_of_list_ascii, rev_involutive,
    string_of_list_ascii_of_string.
Qed.

(** What [int()] skips is white space of [str.split()] too. *)
Lemma int_space_is_space (c : ascii) : is_space c = false -> is_int_space c = false.
Proof.
  destruct c as [[] [] [] [] [] [] [] []]; intros H; try discriminate H; reflexivity.
Qed.

Lemma lstrip_no_space (s : string) : all_chars no_space s = true -> lstrip s = s.
Proof.
  destruct s as [|c r]; [reflexivity|].
  unfold all_chars, no_space. simpl. intros H. apply andb_true_iff in H.
  destruct H as [H _]. apply negb_true_iff in H.
  now rewrite (int_space_is_space c H).
Qed.

Lemma all_chars_rev (p : ascii -> bool) (s : string) :
  all_chars p (rev_string s) = all_chars p s.
Proof.
  unfold all_chars, rev_string. rewrite list_ascii_of_string_of_list_ascii.
  apply eq_true_iff_eq. rewrite !forallb_forall.
  split; intros H x Hx; apply H; [now apply in_rev in Hx | now apply in_rev].
Qed.

Lemma strip_no_space (s : string) : all_chars no_space s = true -> strip s = s.
Proof.
  intros H. unfold strip. rewrite (lstrip_no_space s H).
  rewrite lstrip_no_space by now rewrite all_chars_rev.
  apply rev_string_involutive.
Qed.

Lemma all_chars_hex_no_space (s : string) :
  all_chars is_hex s = true -> all_chars no_space s = true.
Proof.
  unfold all_chars. rewrite !forallb_forall. intros H c Hc.
  unfold no_space. now rewrite (proj1 (proj2 (hex_char_facts c (H c Hc)))).
Qed.

Lemma parse_digits_aux_hex (s : string) :
  all_chars is_hex s = true ->
  forall acc,
    parse_digits_aux 16 acc false s
    = Some (fold_left (fun a c => a * 16 + hex_digit_value c)
                      (list_ascii_of_string s) acc).
Proof.
  unfold all_chars.
  induction s as [|c r IH]; intros H acc; [reflexivity|].
  simpl in H. apply andb_true_iff in H. destruct H as [Hc Hr].
  destruct (hex_char_facts c Hc) as (Hd & _ & Hu & _).
  cbn [parse_digits_aux list_ascii_of_string fold_left].
  rewrite Hu, Hd. now apply IH.
Qed.

Lemma parse_digits_hex (s : string) :
  hex_text s -> parse_digits 16 s = Some (hexadecimal_reading s).
Proof.
  intros [Hne Hall]. destruct s as [|c r]; [contradiction|].
  unfold parse_digits.
  assert (Hc : is_hex c = true).
  { unfold all_chars in Hall. simpl in Hall. now apply andb_true_iff in Hall. }
  destruct (hex_char_facts c Hc) as (_ & _ & Hu & _). rewrite Hu.
  now apply parse_digits_aux_hex.
Qed.

(** [int(h, 16)] and [int("0x" + h, 16)] are the hexadecimal reading of [h]. *)
Lemma int_of_string_hex (h : string) :
  hex_text h ->
  int_of_string 16 h = Ok (hexadecimal_reading h) /\
  int_of_string 16 ("0x" ++ h) = Ok (hexadecimal_reading h).
Proof.
  intros Hh. pose proof Hh as [Hne Hall].
  pose proof (all_chars_hex_no_space h Hall) as Hns.
  destruct h as [|c r]; [contradiction|].
  assert (Hc : is_hex c = true).
  { unfold all_chars in Hall. simpl in Hall. now apply andb_true_iff in Hall. }
  destruct (hex_char_facts c Hc) as (_ & _ & Hu & Hx & HX & Hm & Hp).
  split; unfold int_of_string.
  - rewrite (strip_no_space _ Hns).
    assert (Hs : drop_sign (String c r) = (false, String c r)).
    { unfold drop_sign.
      destruct c as [[] [] [] [] [] [] [] []]; try reflexivity; discriminate. }
    rewrite Hs.
    assert (Hd : drop_prefix 16 (String c r) = String c r).
    { unfold drop_prefix. cbn [Z.eqb Pos.eqb].
      destruct r as [|x r']; [now destruct c as [[] [] [] [] [] [] [] []]|].
      assert (Hxh : is_hex x = true).
      { unfold all_chars in Hall. simpl in Hall.
        apply andb_true_iff in Hall. destruct Hall as [_ Hall].
        now apply andb_true_iff in Hall. }
      destruct (hex_char_facts x Hxh) as (_ & _ & _ & Hxx & HxX & _).
      rewrite Hxx, HxX. now destruct c as [[] [] [] [] [] [] [] []]. }
    rewrite Hd, (parse_digits_hex _ Hh). reflexivity.
  - rewrite strip_no_space.
    + change ("0x" ++ String c r) with (String "0" (String "x" (String c r))).
      cbn [drop_sign drop_prefix Z.eqb Pos.eqb Ascii.eqb Bool.eqb orb].
      replace (match String c r with String "_" r' => r' | _ => String c r end)
        with (String c r)
        by (destruct c as [[] [] [] [] [] [] [] []]; try reflexivity; discriminate).
      rewrite (parse_digits_hex _ Hh). reflexivity.
    + unfold all_chars in *. simpl. simpl in Hns. exact Hns.
Qed.

Lemma validate_event_descriptor_keyword (descriptor kw : pyval) (e : EventDescriptor) :
  getitem descriptor "Keyword" = Ok kw ->
  validate_event_descriptor descriptor = Ok e ->
  keyword_of kw = Ok (Keyword e).
Proof.
  intros Hkw H. unfold validate_event_descriptor in H.
  assert (Hb : event_descriptor_body descriptor = Ok e).
  { destruct (event_descriptor_body descriptor) as [a|[]]; try discriminate; exact H. }
  clear H. unfold event_descriptor_body in Hb.
  apply bind_ok in Hb. destruct Hb as (m & _ & Hb).
  destruct (negb (is_nil m)); [discriminate|].
  do 6 (apply bind_ok in Hb; destruct Hb as (? & _ & Hb)).
  rewrite Hkw in Hb. cbn [bind] in Hb.
  apply bind_ok in Hb. destruct Hb as (k & Hk & Hb).
  cbn [Level Opcode Task] in Hb.
  repeat match type of Hb with
         | (if ?c then _ else _) = _ => destruct c; [discriminate|]
         end.
  injection Hb as <-. exact Hk.
Qed.

(** C6, as amended: a numeric Keyword is taken as the integer it is; a
    textual Keyword is read in base 16 with or without the [0x] prefix, so a
    text of hexadecimal digits [h], and [0x] followed by [h], both give the
    hexadecimal reading of [h] in the returned descriptor. *)
Theorem keyword_parsing (descriptor : pyval) (e : EventDescriptor) :
  validate_event_descriptor descriptor = Ok e ->
  (forall z, getitem descriptor "Keyword" = Ok (PInt z) -> Keyword e = z) /\
  (forall h, hex_text h ->
     getitem descriptor "Keyword" = Ok (PStr h) \/
     getitem descriptor "Keyword" = Ok (PStr ("0x" ++ h)) ->
     Keyword e = hexadecimal_reading h).
Proof.
  intros Hv. split.
  - intros z Hk.
    pose proof (validate_event_descriptor_keyword _ _ _ Hk Hv) as H.
    simpl in H. now injection H.
  - intros h Hh [Hk|Hk];
      pose proof (validate_event_descriptor_keyword _ _ _ Hk Hv) as H;
      destruct (int_of_string_hex h Hh) as [H1 H2];
      cbn [keyword_of] in H; congruence.
Qed.

(** The Keyword text [0x1F] gives 31, the hexadecimal reading of [1F]. *)
Lemma keyword_parsing_witness :
  validate_event_descriptor (keyword_descriptor (PStr "0x1F"))
    = Ok (mkEventDescriptor 1 0 1 4 0 0 31) /\
  hex_text "1F" /\
  Keyword (mkEventDescriptor 1 0 1 4 0 0 31) = hexadecimal_reading "1F".
Proof.
  assert (Hv : validate_event_descriptor (keyword_descriptor (PStr "0x1F"))
               = Ok (mkEventDescriptor 1 0 1 4 0 0 31)) by reflexivity.
  assert (Hh : hex_text "1F") by (split; [discriminate | reflexivity]).
  split; [exact Hv|]. split; [exact Hh|].
  apply (proj2 (keyword_parsing _ _ Hv) "1F" Hh). right. reflexivity.
Defined.

(** C6, as stated, at the Keyword text [10]: it consists of decimal digits
    and has no prefix, its decimal reading is 10, and the descriptor carries
    16. *)
Lemma keyword_decimal_text_read_as_hex :
  all_chars is_digit "10" = true /\
  decimal_reading "10" = 10 /\
  validate_event_descriptor (keyword_descriptor (PStr "10"))
    = Ok (mkEventDescriptor 1 0 1 4 0 0 16).
Proof.
  repeat split.
Qed.

(** ** The security template validator *)

Lemma key_eq_str (x : pyval) (f : string) : key_eq x (PStr f) = py_eq_str x f.
Proof. destruct x; reflexivity. Qed.

Lemma py_eq_str_true (x : pyval) (f : string) : py_eq_str x f = true -> x = PStr f.
Proof.
  destruct x; simpl; try discriminate. intros H. apply String.eqb_eq in H. now subst.
Qed.

Lemma key_eq_refl (k : pyval) : hashable k = true -> key_eq k k = true.
Proof.
  destruct k; simpl; try discriminate; intros _;
    auto using Z.eqb_refl, String.eqb_refl.
Qed.

Lemma key_eq_sym (a b : pyval) : key_eq a b = key_eq b a.
Proof.
  destruct a, b; simpl; try reflexivity;
    auto using Z.eqb_sym, String.eqb_sym.
Qed.

Lemma key_eq_trans (a b c : pyval) :
  key_eq a b = true -> key_eq b c = true -> key_eq a c = true.
Proof.
  destruct a, b, c; simpl; try discriminate;
    rewrite ?Z.eqb_eq, ?String.eqb_eq; congruence.
Qed.

Lemma mem_key_dict_set (f : string) (k v : pyval) (d : list (pyval * pyval)) :
  mem_key (PStr f) (dict_set k v d) = mem_key (PStr f) d || py_eq_str k f.
Proof.
  unfold mem_key. induction d as [|[k0 v0] d IH]; simpl.
  - now rewrite key_eq_str, orb_false_r.
  - destruct (key_eq k0 k) eqn:E; simpl.
    + destruct (py_eq_str k f) eqn:Hk.
      * apply py_eq_str_true in Hk. subst k. rewrite E. reflexivity.
      * now rewrite orb_false_r.
    + rewrite IH. now rewrite orb_assoc.
Qed.

(** A required field is in the lookup exactly when some entry carries it as
    its Name. *)
Lemma index_by_name_mem (f : string) :
  forall l acc df,
    index_by_name l acc = Ok df ->
    mem_key (PStr f) df = mem_key (PStr f) acc || existsb (fun it => named it f) l.
Proof.
  induction l as [|item l IH]; intros acc df H; simpl in H.
  - injection H as <-. simpl. now rewrite orb_false_r.
  - destruct (getitem item "Name") as [name|] eqn:Hn; [|discriminate].
    simpl in H. destruct (hashable name); [|discriminate].
    rewrite (IH _ _ H), mem_key_dict_set. cbn [existsb].
    unfold named at 2. rewrite Hn. now rewrite orb_assoc.
Qed.

Lemma missing_required_entries (t : template) (l : list pyval)
    (df : list (pyval * pyval)) :
  index_by_name l [] = Ok df ->
  missing_required t df
  = filter (fun f => negb (existsb (fun it => named it f) l)) (required_fields t).
Proof.
  intros H. unfold missing_required. apply filter_ext. intros f.
  now rewrite (index_by_name_mem f _ _ _ H).
Qed.

(** Every entry that is a mapping with a hashable Name can be indexed. *)
Lemma index_by_name_total :
  forall l acc,
    Forall (fun it => exists n, getitem it "Name" = Ok n /\ hashable n = true) l ->
    exists df, index_by_name l acc = Ok df.
Proof.
  induction l as [|item l IH]; intros acc H; simpl.
  - now exists acc.
  - inversion H as [|? ? (n & Hn & Hh) Hl]; subst.
    rewrite Hn. simpl. rewrite Hh. now apply IH.
Qed.

Lemma mem_key_false (k : pyval) (d : list (pyval * pyval)) :
  mem_key k d = false -> forall n e, In (n, e) d -> key_eq n k = false.
Proof.
  unfold mem_key. induction d as [|[k0 v0] d IH]; simpl; intros H n e [].
  - apply orb_false_iff in H. now injection H0 as <- <-.
  - apply orb_false_iff in H. now apply (IH (proj2 H) n e).
Qed.

Lemma mem_key_dict_set_other (k k' v : pyval) (d : list (pyval * pyval)) :
  key_eq k' k = false -> mem_key k d = false -> mem_key k (dict_set k' v d) = false.
Proof.
  unfold mem_key. induction d as [|[k0 v0] d IH]; simpl; intros Hk H.
  - now rewrite Hk.
  - apply orb_false_iff in H. destruct H as [H0 H].
    destruct (key_eq k0 k'); simpl; rewrite H0; simpl; auto.
Qed.

Lemma dict_set_distinct (k v : pyval) (d : list (pyval * pyval)) :
  distinct_keys d -> distinct_keys (dict_set k v d).
Proof.
  induction d as [|[k0 v0] d IH]; simpl; intros H.
  - auto.
  - destruct H as [H0 H]. destruct (key_eq k0 k) eqn:E; simpl.
    + auto.
    + split; [|auto]. apply mem_key_dict_set_other; [|assumption].
      now rewrite key_eq_sym.
Qed.

(** After [d[k] = v], an entry of the lookup is the new one, under a key
    equal to [k], or an old one under another key. *)
Lemma dict_set_entries (k v : pyval) (d : list (pyval * pyval)) :
  hashable k = true -> distinct_keys d ->
  forall n e, In (n, e) (dict_set k v d) ->
    (e = v /\ key_eq n k = true) \/ (In (n, e) d /\ key_eq n k = false).
Proof.
  intros Hk. induction d as [|[k0 v0] d IH]; simpl; intros Hd n e Hin.
  - destruct Hin as [Hin|[]]. injection Hin as <- <-. left. split; [reflexivity|].
    now apply key_eq_refl.
  - destruct Hd as [H0 Hd]. destruct (key_eq k0 k) eqn:E.
    + destruct Hin as [Hin|Hin].
      * injection Hin as <- <-. now left.
      * right. split; [now right|].
        pose proof (mem_key_false _ _ H0 n e Hin) as Hn.
        destruct (key_eq n k) eqn:E'; [|reflexivity].
        rewrite <- Hn. symmetry. apply key_eq_trans with k; [assumption|].
        now rewrite key_eq_sym.
    + destruct Hin as [Hin|Hin].
      * injection Hin as <- <-. right. split; [now left | assumption].
      * destruct (IH Hd n e Hin) as [?|[? ?]]; [now left | right; split; auto].
Qed.

Lemma index_by_name_entries :
  forall l acc df,
    distinct_keys acc ->
    index_by_name l acc = Ok df ->
    forall n e, In (n, e) df ->
      last_named l n e \/
      (In (n, e) acc /\
       Forall (fun it => forall n', getitem it "Name" = Ok n' -> key_eq n n' = false) l).
Proof.
  induction l as [|item l IH]; intros acc df Hacc H n e Hin; simpl in H.
  - injection H as <-. right. split; [assumption | constructor].
  - destruct (getitem item "Name") as [name|] eqn:Hn; [|discriminate].
    simpl in H. destruct (hashable name) eqn:Hh; [|discriminate].
    destruct (IH _ _ (dict_set_distinct name item acc Hacc) H n e Hin)
      as [(l1 & l2 & -> & Hname & Hl2)|[Hin' Hl]].
    + left. exists (item :: l1), l2. now repeat split.
    + destruct (dict_set_entries name item acc Hh Hacc n e Hin') as [[-> Hk]|[Ha Hk]].
      * left. exists [], l. repeat split; [|assumption]. now exists name.
      * right. split; [assumption|]. constructor; [|assumption].
        intros n' Hn'. congruence.
Qed.

Lemma for_each_first_failure {A : Type} (f : A -> result unit)
    (pre post : list A) (x : A) (e : exn) :
  Forall (fun p => f p = Ok tt) pre -> f x = Raise e ->
  for_each f (pre ++ x :: post) = Raise e.
Proof.
  intros Hpre Hx. induction Hpre as [|p pre Hp _ IH]; simpl.
  - now rewrite Hx.
  - now rewrite Hp.
Qed.

Lemma for_each_ok {A : Type} (f : A -> result unit) (l : list A) :
  Forall (fun p => f p = Ok tt) l -> for_each f l = Ok tt.
Proof.
  intros H. induction H as [|p l Hp _ IH]; simpl; [reflexivity|]. now rewrite Hp.
Qed.

Lemma validate_security_event_logon (d : list (string * pyval))
    (entries : list pyval) (df : list (pyval * pyval)) :
  lookup "Data" d = Some (PList entries) ->
  index_by_name entries [] = Ok df ->
  validate_security_event (PInt 4624) (PDict d) =
    if negb (is_nil (missing_required LOGON_SUCCESS_TEMPLATE df))
    then Raise (ValueError
                  ("Missing required fields for Security Event 4624: "
                   ++ py_repr (PList (map PStr (missing_required LOGON_SUCCESS_TEMPLATE df)))))
    else for_each (check_field_type LOGON_SUCCESS_TEMPLATE) df.
Proof.
  intros Hd Hdf.
  assert (Hg : getitem (PDict d) "Data" = Ok (PList entries))
    by (simpl; now rewrite Hd).
  unfold validate_security_event.
  change (security_event_of (PInt 4624)) with (Some LOGON_SUCCESS).
  cbn [SECURITY_EVENT_TEMPLATES].
  rewrite (getitem_in _ _ _ Hg), Hg. cbn [bind negb].
  assert (E : (if truthy (PList entries)
               then (l <- py_iter (PList entries) ;; index_by_name l [])
               else Ok []) = Ok df).
  { destruct entries; simpl in *; [congruence | exact Hdf]. }
  rewrite E. reflexivity.
Qed.

(** C3, as amended, for the cataloged type 4624 and Data entries that are
    mappings with a Name: validation fails listing exactly the required field
    names that no entry carries, in template order; the entries are then taken
    from the name-indexed lookup, which keeps for each Name the last entry of
    that Name, and when no field is missing validation fails at the first
    looked-up entry whose declared type differs from its Type, naming the
    field, the expected type and the actual type; without such an entry it
    succeeds. *)
Theorem validate_security_event_4624 (d : list (string * pyval))
    (entries : list pyval) (df : list (pyval * pyval)) :
  lookup "Data" d = Some (PList entries) ->
  index_by_name entries [] = Ok df ->
  let missing :=
    filter (fun f => negb (existsb (fun it => named it f) entries))
           (required_fields LOGON_SUCCESS_TEMPLATE) in
  (missing <> [] ->
   validate_security_event (PInt 4624) (PDict d)
   = Raise (ValueError ("Missing required fields for Security Event 4624: "
                        ++ py_repr (PList (map PStr missing))))) /\
  (forall n e, In (n, e) df -> last_named entries n e) /\
  (missing = [] ->
   forall pre post n e expected actual,
     df = (pre ++ (n, e) :: post)%list ->
     Forall (fun p => check_field_type LOGON_SUCCESS_TEMPLATE p = Ok tt) pre ->
     declared_type n LOGON_SUCCESS_TEMPLATE = Some expected ->
     get e "Type" = Ok actual ->
     py_eq_str actual expected = false ->
     validate_security_event (PInt 4624) (PDict d)
     = Raise (ValueError ("Invalid type for field " ++ py_str n ++ ". Expected "
                          ++ expected ++ ", got " ++ py_str actual))) /\
  (missing = [] ->
   Forall (fun p => check_field_type LOGON_SUCCESS_TEMPLATE p = Ok tt) df ->
   validate_security_event (PInt 4624) (PDict d) = Ok tt).
Proof.
  intros Hd Hdf missing.
  pose proof (validate_security_event_logon d entries df Hd Hdf) as Hv.
  rewrite (missing_required_entries _ _ _ Hdf) in Hv. fold missing in Hv.
  repeat split.
  - intros Hm. rewrite Hv. destruct missing; [contradiction | reflexivity].
  - intros n e Hin.
    destruct (index_by_name_entries entries [] df I Hdf n e Hin) as [H|[[] _]].
    exact H.
  - intros Hm pre post n e expected actual -> Hpre Hty Hget Hne.
    rewrite Hv, Hm. cbn [is_nil negb].
    apply for_each_first_failure; [assumption|].
    unfold check_field_type. rewrite Hty, Hget. cbn [bind]. now rewrite Hne.
  - intros Hm Hall. rewrite Hv, Hm. cbn [is_nil negb]. now apply for_each_ok.
Qed.

(** Without the LogonType and ElevatedToken entries, exactly these two names
    are listed. *)
Lemma validate_security_event_4624_witness :
  lookup "Data" [("Data", PList without_two_entries)] = Some (PList without_two_entries) /\
  index_by_name without_two_entries [] = Ok indexed_without_two /\
  validate_security_event (PInt 4624) (PDict [("Data", PList without_two_entries)])
  = Raise (ValueError
             "Missing required fields for Security Event 4624: ['LogonType', 'ElevatedToken']").
Proof.
  split; [reflexivity|]. split; [reflexivity|].
  apply (proj1 (validate_security_event_4624
                  [("Data", PList without_two_entries)] without_two_entries
                  indexed_without_two eq_refl eq_refl)).
  discriminate.
Defined.

(** C3, as stated, on nine entries of which the first is a LogonType entry of
    type [win:Bogus], followed by the eight well-typed entries: the entry is
    present, its Name has the declared type [win:UInt32], its Type differs,
    and validation succeeds. *)
Lemma shadowed_type_mismatch_accepted :
  In (entry "LogonType" "win:Bogus" "2") shadowed_entries /\
  declared_type (PStr "LogonType") LOGON_SUCCESS_TEMPLATE = Some "win:UInt32" /\
  get (entry "LogonType" "win:Bogus" "2") "Type" = Ok (PStr "win:Bogus") /\
  py_eq_str (PStr "win:Bogus") "win:UInt32" = false /\
  validate_security_event (PInt 4624) (PDict [("Data", PList shadowed_entries)]) = Ok tt.
Proof.
  repeat split. now left.
Qed.

(** ** The standard-channel cross-check *)

Lemma other_bind {A B : Type} (r : result A) (k : A -> result B) :
  other_outcome r -> (forall a, other_outcome (k a)) -> other_outcome (bind r k).
Proof. destruct r as [a|e]; simpl; auto. Qed.

Lemma other_py_in (k : string) (c : pyval) : other_outcome (py_in k c).
Proof. destruct c; exact I. Qed.

Lemma other_getitem (c : pyval) (k : string) : other_outcome (getitem c k).
Proof. destruct c; simpl; try exact I. destruct (lookup k d); exact I. Qed.

Lemma other_get_default (c : pyval) (k : string) (v : pyval) :
  other_outcome (get_default c k v).
Proof. destruct c; simpl; try exact I. destruct (lookup k d); exact I. Qed.

Lemma other_py_iter (v : pyval) : other_outcome (py_iter v).
Proof. destruct v; exact I. Qed.

Lemma other_re_match_val (p : list re_item) (v : pyval) :
  other_outcome (re_match_val p v).
Proof. destruct v; exact I. Qed.

Lemma other_for_each {A : Type} (f : A -> result unit) (l : list A) :
  (forall x, other_outcome (f x)) -> other_outcome (for_each f l).
Proof.
  intros Hf. induction l as [|x l IH]; simpl; [exact I|].
  apply other_bind; auto.
Qed.

Ltac other_step :=
  first
    [ exact I
    | assumption
    | apply other_py_in
    | apply other_getitem
    | apply other_get_default
    | apply other_py_iter
    | apply other_re_match_val
    | apply other_bind; [|intros]
    | apply other_for_each; intros
    | match goal with
      | |- other_outcome (if ?c then _ else _) => destruct c
      | |- other_outcome (match ?x with _ => _ end) => destruct x
      | |- other_outcome (let (_, _) := ?x in _) => destruct x
      end ].

Lemma other_validate_data_entry (data : pyval) :
  other_outcome (validate_data_entry data).
Proof. unfold validate_data_entry, get, invalid. repeat other_step. Qed.

Lemma other_validate_event_data (event_data : pyval) :
  other_outcome (validate_event_data event_data).
Proof.
  unfold validate_event_data, invalid. repeat other_step.
  all: apply other_validate_data_entry.
Qed.

Lemma other_validate_rendering_info (rendering : pyval) :
  other_outcome (validate_rendering_info rendering).
Proof. unfold validate_rendering_info, invalid. repeat other_step. Qed.

Lemma nve_bind {A B : Type} (r : result A) (k : A -> result B) :
  no_validation_error r -> (forall a, no_validation_error (k a)) ->
  no_validation_error (bind r k).
Proof. destruct r as [a|e]; simpl; auto. Qed.

Lemma nve_getitem (c : pyval) (k : string) : no_validation_error (getitem c k).
Proof. destruct c; simpl; try exact I. destruct (lookup k d); exact I. Qed.

Lemma nve_get (c : pyval) (k : string) : no_validation_error (get c k).
Proof. destruct c; simpl; try exact I. destruct (lookup k d); exact I. Qed.

Lemma nve_index_by_name (l : list pyval) :
  forall acc, no_validation_error (index_by_name l acc).
Proof.
  induction l as [|item l IH]; intros acc; simpl; [exact I|].
  apply nve_bind; [apply nve_getitem|]. intros name.
  destruct (hashable name); [apply IH | exact I].
Qed.

Lemma nve_check_field_type (t : template) (entry : pyval * pyval) :
  no_validation_error (check_field_type t entry).
Proof.
  destruct entry as [n e]. unfold check_field_type.
  destruct (declared_type n t); [|exact I].
  apply nve_bind; [apply nve_get|]. intros a.
  destruct (negb (py_eq_str a s)); [|exact I].
  apply nve_bind; [apply nve_get|]. intros; exact I.
Qed.

Lemma nve_for_each {A : Type} (f : A -> result unit) (l : list A) :
  (forall x, no_validation_error (f x)) -> no_validation_error (for_each f l).
Proof.
  intros Hf. induction l as [|x l IH]; simpl; [exact I|].
  apply nve_bind; auto.
Qed.

Lemma nve_validate_security_event (event_id data : pyval) :
  no_validation_error (validate_security_event event_id data).
Proof.
  unfold validate_security_event.
  destruct (security_event_of event_id) as [ev|]; [|exact I].
  destruct (SECURITY_EVENT_TEMPLATES ev) as [t|]; [|exact I].
  apply nve_bind; [destruct data; exact I|]. intros b.
  destruct (negb b); [exact I|].
  apply nve_bind; [apply nve_getitem|]. intros v.
  apply nve_bind.
  - destruct (truthy v); [|exact I].
    apply nve_bind; [apply nve_getitem|]. intros v'.
    apply nve_bind; [destruct v'; exact I|]. intros l. apply nve_index_by_name.
  - intros df. destruct (negb (is_nil (missing_required t df))); [exact I|].
    apply nve_for_each. apply nve_check_field_type.
Qed.

Lemma other_validate_security_event_data (event_data event_id : pyval) :
  other_outcome (validate_security_event_data event_data event_id).
Proof.
  unfold validate_security_event_data.
  destruct (negb (isinstance_dict event_data)); [exact I|].
  pose proof (nve_validate_security_event event_id event_data) as H.
  destruct (validate_security_event event_id event_data) as [[]|[]];
    unfold invalid; simpl in *; try exact I; contradiction.
Qed.

Lemma standard_channel_id (name : string) (id : Z) :
  In (name, id) STANDARD_CHANNELS -> channel_id name STANDARD_CHANNELS = Some id.
Proof.
  intros H. repeat (destruct H as [H|H]; [injection H as <- <-; reflexivity|]).
  destruct H.
Qed.

(** C4, as amended: for a configuration that passes the checks made before
    the cross-check and whose System.Channel is a standard channel name,
    full validation fails with the channel-mismatch error exactly when the
    Channel value of the descriptor is not equal to the table id of that
    name. *)
Theorem channel_cross_check
    (config event system descriptor ch : pyval) (name : string) (id : Z) :
  reaches_cross_check config event system descriptor ->
  getitem system "Channel" = Ok (PStr name) ->
  In (name, id) STANDARD_CHANNELS ->
  getitem descriptor "Channel" = Ok ch ->
  validate_windows_event_config config = invalid ("Channel ID mismatch for " ++ name)
  <-> py_eq_int ch id = false.
Proof.
  intros (Hm & (t & Ht & Hmsg & Hval) & He & Hs & Hsys & Hd & (e & Hdesc)) Hch Hin Hc.
  unfold validate_windows_event_config.
  rewrite Hm. cbn [bind is_nil negb]. rewrite Ht. cbn [bind isinstance_dict negb py_in].
  rewrite Hmsg, Hval. cbn [bind negb]. rewrite He. cbn [bind].
  rewrite (getitem_in _ _ _ Hs), Hs. cbn [bind negb].
  rewrite Hsys, Hd. cbn [bind]. rewrite Hdesc. cbn [bind].
  rewrite (getitem_in _ _ _ Hch), Hch. cbn [bind standard_channel].
  rewrite (standard_channel_id _ _ Hin), Hc. cbn [bind py_str].
  destruct (py_eq_int ch id); cbn [negb bind].
  - split; [|discriminate]. intros H. exfalso.
    match type of H with
    | ?tail = _ => assert (Ho : other_outcome tail)
    end.
    { unfold invalid.
      repeat first [ apply other_validate_security_event_data
                   | apply other_validate_rendering_info
                   | apply other_validate_event_data
                   | other_step ]. }
    rewrite H in Ho. exact Ho.
  - split; reflexivity.
Qed.

(** The configuration of the test suite with the descriptor Channel 3 and the
    System channel Security ends in the channel-mismatch error. *)
Lemma channel_cross_check_witness :
  validate_windows_event_config
    (config_of (descriptor_of (PInt 3)) (system_of "TestComputer") logon_entries)
  = Raise (WindowsEventValidationError "Channel ID mismatch for Security").
Proof.
  apply (channel_cross_check
           (config_of (descriptor_of (PInt 3)) (system_of "TestComputer") logon_entries)
           (PDict [("xmlns", PStr "http://schemas.microsoft.com/win/2004/08/events/event");
                   ("System", system_of "TestComputer");
                   ("EventData", PDict [("Data", PList logon_entries)])])
           (system_of "TestComputer") (descriptor_of (PInt 3)) (PInt 3) "Security" 2).
  - repeat split.
    + eexists. repeat split.
    + eexists. reflexivity.
  - reflexivity.
  - simpl. auto.
  - reflexivity.
  - reflexivity.
Defined.

(** C4, as stated, on a configuration whose System has no Computer: the
    channel is the standard name Security, the descriptor has Channel 3, not
    the table id 2, and validation fails with another error. *)
Lemma channel_mismatch_not_reported :
  getitem system_without_computer "Channel" = Ok (PStr "Security") /\
  In ("Security", 2) STANDARD_CHANNELS /\
  getitem (descriptor_of (PInt 3)) "Channel" = Ok (PInt 3) /\
  py_eq_int (PInt 3) 2 = false /\
  validate_windows_event_config
    (config_of (descriptor_of (PInt 3)) system_without_computer logon_entries)
  = Raise (WindowsEventValidationError "Missing required System elements: Computer").
Proof.
  repeat split. simpl. auto.
Qed.

(** ** The serializer: literal and resolved attributes *)








(** ** The serializer on resolved configurations *)



Lemma same_lift {A : Type} (r : result A) : same_outcome (lift r) (lift r).
Proof. intros w1 w2. reflexivity. Qed.

























(** The resolved configuration does serialize: System first, then the eight
    Data entries. *)
Example resolved_config_serializes :
  exists text,
    fst (get_windows_event_log oracle0 resolved_config world0) = Ok text /\
    String.prefix (xml_declaration ++ nl ++ event_open ++ nl ++ "  <System>" ++ nl
                   ++ "    <Provider Name=") text = true.
Proof.
  eexists. split; [vm_compute; reflexivity | vm_compute; reflexivity].
Qed.

(** * Further properties *)

(** ** The descriptor validator *)

Lemma missing_from_dict (required : list string) (d : list (string * pyval)) :
  missing_from required (PDict d)
  = Ok (filter (fun f => negb (has_key f d)) required).
Proof.
  induction required as [|f r IH]; [reflexivity|].
  cbn [missing_from py_in bind filter]. rewrite IH. cbn [bind].
  now destruct (has_key f d).
Qed.












(** A mapping that lacks some of the seven fields is refused with a message
    that lists the absent fields, all of them, in the order Id, Version,
    Channel, Level, Opcode, Task, Keyword. *)
Theorem validate_event_descriptor_missing (d : list (string * pyval)) :
  let required := ["Id"; "Version"; "Channel"; "Level"; "Opcode"; "Task"; "Keyword"] in
  let absent := filter (fun f => negb (has_key f d)) required in
  absent <> [] ->
  validate_event_descriptor (PDict d)
  = Raise (WindowsEventValidationError
             ("Missing required fields in EventDescriptor: " ++ join ", " absent)).
Proof.
  intros required absent Ha.
  unfold validate_event_descriptor, event_descriptor_body.
  rewrite missing_from_dict. fold required. fold absent. cbn [bind].
  destruct absent; [contradiction | reflexivity].
Qed.

Lemma validate_event_descriptor_missing_witness :
  validate_event_descriptor (PDict [("Id", PInt 1); ("Level", PInt 4); ("Task", PInt 0)])
  = Raise (WindowsEventValidationError
             "Missing required fields in EventDescriptor: Version, Channel, Opcode, Keyword").
Proof.
  apply (validate_event_descriptor_missing
           [("Id", PInt 1); ("Level", PInt 4); ("Task", PInt 0)]).
  discriminate.
Defined.

Lemma validate_event_descriptor_converts (descriptor : pyval) (e : EventDescriptor) :
  validate_event_descriptor descriptor = Ok e -> converts descriptor e.
Proof.
  intros H. unfold validate_event_descriptor in H.
  assert (Hb : event_descriptor_body descriptor = Ok e).
  { destruct (event_descriptor_body descriptor) as [a|[]]; try discriminate; exact H. }
  clear H. unfold event_descriptor_body in Hb.
  apply bind_ok in Hb. destruct Hb as (m & _ & Hb).
  destruct (negb (is_nil m)); [discriminate|].
  apply bind_ok in Hb. destruct Hb as (id & Hid & Hb).
  apply bind_ok in Hb. destruct Hb as (ver & Hver & Hb).
  apply bind_ok in Hb. destruct Hb as (ch & Hch & Hb).
  apply bind_ok in Hb. destruct Hb as (lvl & Hlvl & Hb).
  apply bind_ok in Hb. destruct Hb as (op & Hop & Hb).
  apply bind_ok in Hb. destruct Hb as (task & Htask & Hb).
  apply bind_ok in Hb. destruct Hb as (kw & Hkw & Hb).
  apply bind_ok in Hb. destruct Hb as (k & Hk & Hb).
  cbn [Level Opcode Task] in Hb.
  repeat match type of Hb with
         | (if ?c then _ else _) = _ => destruct c; [discriminate|]
         end.
  injection Hb as <-. unfold converts. cbn [Id Version Channel Level Opcode Task Keyword].
  repeat split; try assumption. rewrite Hkw. exact Hk.
Qed.

Lemma descriptor_checks_iff (descriptor : pyval) (e : EventDescriptor) :
  converts descriptor e ->
  (validate_event_descriptor descriptor = Ok e
   <-> Utils.validate_event_descriptor e = true).
Proof.
  intros Hc. unfold validate_event_descriptor, Utils.validate_event_descriptor.
  rewrite (event_descriptor_body_converted _ _ Hc).
  rewrite Z.geb_leb.
  destruct (0 <=? Level e), (Level e <=? 15), (0 <=? Opcode e), (Opcode e <=? 240);
    cbn [andb negb]; try (split; discriminate).
  destruct (Z.ltb_spec (Task e) 0), (Z.leb_spec 0 (Task e)); try lia;
    split; (reflexivity || discriminate).
Qed.

(** The two descriptor checks agree: when the seven fields convert, the
    validator of [validators.py] returns the descriptor exactly when the
    check of [utils.py] holds of it; in particular every descriptor it
    returns passes that check. *)
Theorem descriptor_checks_agree (descriptor : pyval) (e : EventDescriptor) :
  converts descriptor e ->
  (validate_event_descriptor descriptor = Ok e
   <-> Utils.validate_event_descriptor e = true).
Proof. exact (descriptor_checks_iff descriptor e). Qed.

Lemma descriptor_checks_agree_witness :
  converts (sample_descriptor 4) (sample_event_descriptor 4) /\
  Utils.validate_event_descriptor (sample_event_descriptor 4) = true.
Proof.
  assert (Hc : converts (sample_descriptor 4) (sample_event_descriptor 4))
    by (repeat split).
  split; [exact Hc|].
  apply (descriptor_checks_agree _ _ Hc). reflexivity.
Defined.

(** ** The message format *)

Lemma count_placeholders_text (l : list nat) (m : string) :
  count_placeholders l (PStr m)
  = Ok (List.length (filter (fun i => contains_sub (placeholder i) m) l)).
Proof.
  induction l as [|i l IH]; [reflexivity|].
  cbn [count_placeholders py_in bind filter]. rewrite IH. cbn [bind].
  now destruct (contains_sub (placeholder i) m).
Qed.

Lemma filter_all_length {A : Type} (f : A -> bool) (l : list A) :
  List.length (filter f l) = List.length l <-> forallb f l = true.
Proof.
  induction l as [|x l IH]; simpl; [tauto|].
  pose proof (filter_length_le f l) as Hle.
  destruct (f x); simpl.
  - rewrite <- IH. split; intros H; [now injection H | now f_equal].
  - split; [intros H; rewrite H in Hle; lia | discriminate].
Qed.

(** [validate_message_format] looks for the placeholders [%1] to [%(n+1)],
    [n] being the number of values, and refuses the message exactly when all
    of them occur in it: a message with a gap in its numbering, or one that
    only uses numbers above [n+1], is accepted although it names parameters
    without a value. *)
Theorem validate_message_format_accepts (m : string) (values : list pyval) :
  validate_message_format (PStr m) (PList values) = Ok tt <->
  exists i, (1 <= i <= List.length values + 1)%nat /\
            contains_sub (placeholder i) m = false.
Proof.
  unfold validate_message_format. cbn [py_len bind].
  rewrite count_placeholders_text. cbn [bind].
  set (n := List.length values).
  set (f := fun i => contains_sub (placeholder i) m).
  pose proof (filter_length_le f (seq 1 (n + 1))) as Hle.
  rewrite length_seq in Hle.
  pose proof (filter_all_length f (seq 1 (n + 1))) as Hall.
  rewrite length_seq in Hall.
  destruct (Nat.ltb_spec n (List.length (filter f (seq 1 (n + 1))))) as [Hlt|Hge].
  - split; [discriminate|]. intros (i & Hi & Hf). exfalso.
    assert (Hfa : forallb f (seq 1 (n + 1)) = true) by (apply Hall; lia).
    rewrite forallb_forall in Hfa.
    assert (Hfi : f i = true) by (apply Hfa; apply in_seq; lia).
    unfold f in Hfi. congruence.
  - split; [intros _ | reflexivity].
    destruct (forallb f (seq 1 (n + 1))) eqn:E.
    + pose proof (proj2 Hall eq_refl) as Hl. lia.
    + assert (Hex : existsb (fun i => negb (f i)) (seq 1 (n + 1)) = true).
      { clear - E. induction (seq 1 (n + 1)) as [|x l IH]; simpl in *; [discriminate|].
        destruct (f x); simpl in *; auto. }
      apply existsb_exists in Hex. destruct Hex as (i & Hi & Hf).
      apply in_seq in Hi. exists i. split; [lia|].
      unfold f in Hf. now apply negb_true_iff in Hf.
Qed.

Lemma replace_aux_absent (old new : string) :
  forall s, contains_sub old s = false -> replace_aux old new 0 s = s.
Proof.
  induction s as [|c r IH]; [reflexivity|].
  intros H. cbn [contains_sub] in H. apply orb_false_iff in H. destruct H as [Hp Hr].
  cbn [replace_aux]. rewrite Hp. now rewrite (IH Hr).
Qed.

Lemma placeholder_not_empty (i : nat) : placeholder i <> "".
Proof. unfold placeholder. simpl. discriminate. Qed.

Lemma replace_absent (i : nat) (new s : string) :
  contains_sub (placeholder i) s = false -> replace (placeholder i) new s = s.
Proof.
  intros H. unfold replace.
  destruct (placeholder i) eqn:E; [now apply placeholder_not_empty in E|].
  now apply replace_aux_absent.
Qed.

Lemma format_from_absent (values : list pyval) :
  forall i message,
    Forall (fun v => isinstance_str v = true) values ->
    (forall j, (i <= j < i + List.length values)%nat ->
               contains_sub (placeholder j) message = false) ->
    format_from i message values = Ok message.
Proof.
  induction values as [|v values IH]; intros i message Hs Hp; [reflexivity|].
  inversion Hs as [|? ? Hv Hvs]; subst.
  destruct v; try discriminate Hv. cbn [format_from].
  rewrite replace_absent by (apply Hp; simpl; lia).
  apply IH; [assumption|]. intros j Hj. apply Hp. simpl. lia.
Qed.

(** A message in which none of the placeholders [%1] to [%n] of its [n]
    values occurs is returned as it is by [format_windows_message]. *)
Theorem format_windows_message_absent (message : string) (values : list pyval) :
  Forall (fun v => isinstance_str v = true) values ->
  (forall j, (1 <= j <= List.length values)%nat ->
             contains_sub (placeholder j) message = false) ->
  format_windows_message message values = Ok message.
Proof.
  intros Hs Hp. apply format_from_absent; [assumption|].
  intros j Hj. apply Hp. lia.
Qed.

Lemma format_windows_message_absent_witness :
  format_windows_message "Logon of %3 refused" [PStr "alice"; PStr "CORP"]
  = Ok "Logon of %3 refused".
Proof.
  apply format_windows_message_absent.
  - repeat constructor.
  - intros j Hj. simpl in Hj.
    assert (E : j = 1%nat \/ j = 2%nat) by lia.
    destruct E as [-> | ->]; reflexivity.
Defined.

(** ** UserData and DebugData *)


(** [validate_debug_data] accepts a mapping exactly when it has Component and
    Message and its SequenceNumber, if any, converts to an integer that is not
    negative. *)
Theorem validate_debug_data_accepts (d : list (string * pyval)) :
  validate_debug_data (PDict d) = Ok tt <->
  has_key "Component" d = true /\ has_key "Message" d = true /\
  absent_or_natural d "SequenceNumber".
Proof.
  unfold validate_debug_data, absent_or_natural. rewrite missing_from_dict.
  cbn [bind filter py_in getitem]. unfold has_key.
  destruct (lookup "Component" d), (lookup "Message" d); cbn [negb is_nil];
    try (split; [discriminate | intros (? & ? & _); discriminate]).
  destruct (lookup "SequenceNumber" d) as [v|]; cbn [bind].
  - destruct (py_int v) as [z|e] eqn:Hz.
    + destruct (Z.ltb_spec z 0).
      * split; [discriminate|]. intros (_ & _ & [H0|(v' & z' & Hv & Hz' & Hn)]);
          [discriminate|]. injection Hv as <-. rewrite Hz in Hz'. injection Hz' as <-. lia.
      * split; [intros _ | reflexivity]. repeat split. right. now exists v, z.
    + assert (Hne : (match e with
                     | ValueError _ =>
                         x' <- Ok v ;; invalid ("Invalid SequenceNumber: " ++ py_str x')
                     | _ => Raise e
                     end : result unit) <> Ok tt) by (destruct e; discriminate).
      split; [intros H; now apply Hne in H|].
      intros (_ & _ & [H0|(v' & z' & Hv & Hz' & _)]); [discriminate|].
      injection Hv as <-. congruence.
  - split; [intros _ | reflexivity]. repeat split. now left.
Qed.

(** ** The Execution element *)

Lemma check_execution_field_accepts (d : list (string * pyval)) (f : string) :
  check_execution_field (PDict d) f = Ok tt <-> absent_or_natural d f.
Proof.
  unfold check_execution_field, absent_or_natural.
  cbn [py_in getitem bind]. unfold has_key.
  destruct (lookup f d) as [v|]; cbn [bind].
  - destruct (py_int v) as [z|e] eqn:Hz.
    + destruct (Z.ltb_spec z 0).
      * split; [discriminate|]. intros [H0|(v' & z' & Hv & Hz' & Hn)];
          [discriminate|]. injection Hv as <-. rewrite Hz in Hz'. injection Hz' as <-. lia.
      * split; [intros _ | reflexivity]. right. now exists v, z.
    + split.
      * destruct e; discriminate.
      * intros [H0|(v' & z' & Hv & Hz' & _)]; [discriminate|].
        injection Hv as <-. congruence.
  - split; [intros _ | reflexivity]. now left.
Qed.

(** [validate_execution] accepts a mapping exactly when it has ProcessID and
    ThreadID and each of ProcessID, ThreadID and SessionID that it has
    converts to an integer that is not negative. *)
Theorem validate_execution_accepts (d : list (string * pyval)) :
  validate_execution (PDict d) = Ok tt <->
  has_key "ProcessID" d = true /\ has_key "ThreadID" d = true /\
  absent_or_natural d "ProcessID" /\ absent_or_natural d "ThreadID" /\
  absent_or_natural d "SessionID".
Proof.
  unfold validate_execution. rewrite missing_from_dict. cbn [bind filter].
  rewrite <- !check_execution_field_accepts.
  destruct (has_key "ProcessID" d), (has_key "ThreadID" d); cbn [negb is_nil];
    try (split; [discriminate | intros (? & ? & _); discriminate]).
  destruct (check_execution_field (PDict d) "ProcessID") as [[]|e1]; cbn [bind];
    [|split; [discriminate | intros (_ & _ & H & _); discriminate]].
  destruct (check_execution_field (PDict d) "ThreadID") as [[]|e2]; cbn [bind];
    [|split; [discriminate | intros (_ & _ & _ & H & _); discriminate]].
  destruct (check_execution_field (PDict d) "SessionID") as [[]|e3];
    [tauto | split; [discriminate | intros (_ & _ & _ & _ & H); discriminate]].
Qed.

(** ** Provider, Correlation and RenderingInfo *)

Lemma check_guid_field_accepts (d : list (string * pyval)) (k what : string) :
  check_guid_field (PDict d) k what = Ok tt <-> empty_or_guid d k.
Proof.
  unfold check_guid_field, empty_or_guid. cbn [get get_default getitem].
  destruct (lookup k d) as [g|]; cbn [bind].
  - destruct (truthy g) eqn:Ht.
    + destruct (validate_guid g) as [[|]|e] eqn:Hv; cbn [bind].
      * split; [|reflexivity]. intros _ g' Hg _. now injection Hg as <-.
      * split; [discriminate|]. intros H. specialize (H g eq_refl Ht). congruence.
      * split; [discriminate|]. intros H. specialize (H g eq_refl Ht). congruence.
    + split; [|reflexivity]. intros _ g' Hg Ht'. injection Hg as <-. congruence.
  - split; [|reflexivity]. intros _ g Hg. discriminate.
Qed.

(** [validate_provider] accepts a mapping exactly when its Name or its Guid
    is present and not empty, and its Guid, when not empty, is a GUID that
    [validate_guid] accepts. *)
Theorem validate_provider_accepts (d : list (string * pyval)) :
  validate_provider (PDict d) = Ok tt <->
  (exists v, (lookup "Name" d = Some v \/ lookup "Guid" d = Some v) /\ truthy v = true) /\
  empty_or_guid d "Guid".
Proof.
  unfold validate_provider. rewrite <- check_guid_field_accepts with (what := "Provider").
  cbn [get get_default].
  destruct (lookup "Name" d) as [n|] eqn:Hn; cbn [bind].
  - destruct (truthy n) eqn:Htn; cbn [bind].
    + split; [intros H; split; [exists n; auto | exact H] | tauto].
    + destruct (lookup "Guid" d) as [g|] eqn:Hg; cbn [bind truthy].
      * destruct (truthy g) eqn:Htg; cbn [negb].
        -- split; [intros H; split; [exists g; auto | exact H] | tauto].
        -- split; [discriminate|]. intros [(v & [Hv|Hv] & Ht) _];
             injection Hv as <-; congruence.
      * cbn [negb]. split; [discriminate|].
        intros [(v & [Hv|Hv] & Ht) _]; [injection Hv as <-; congruence | discriminate].
  - destruct (lookup "Guid" d) as [g|] eqn:Hg; cbn [bind truthy].
    + destruct (truthy g) eqn:Htg; cbn [negb].
      * split; [intros H; split; [exists g; auto | exact H] | tauto].
      * split; [discriminate|]. intros [(v & [Hv|Hv] & Ht) _];
          [discriminate | injection Hv as <-; congruence].
    + cbn [negb]. split; [discriminate|].
      intros [(v & [Hv|Hv] & Ht) _]; discriminate.
Qed.

(** [validate_correlation] accepts a mapping exactly when its ActivityID and
    its RelatedActivityID, when present and not empty, are GUIDs that
    [validate_guid] accepts. *)
Theorem validate_correlation_accepts (d : list (string * pyval)) :
  validate_correlation (PDict d) = Ok tt <->
  empty_or_guid d "ActivityID" /\ empty_or_guid d "RelatedActivityID".
Proof.
  unfold validate_correlation.
  rewrite <- (check_guid_field_accepts d "ActivityID" "ActivityID").
  rewrite <- (check_guid_field_accepts d "RelatedActivityID" "RelatedActivityID").
  destruct (check_guid_field (PDict d) "ActivityID" "ActivityID") as [[]|e]; cbn [bind].
  - tauto.
  - split; [discriminate | intros [H _]; discriminate].
Qed.

Lemma in_class_single (lo hi : nat) (c : ascii) : in_class [(lo, hi)] c = char_in lo hi c.
Proof. unfold in_class. simpl. apply orb_false_r. Qed.

Lemma has_form_final_sym (fmt : list (nat * (ascii -> bool))) (s : string) :
  has_form fmt (fun r => String.eqb r "") s = has_form fmt (String.eqb "") s.
Proof.
  revert s. induction fmt as [|[n p] fmt IH]; intros s; simpl.
  - apply String.eqb_sym.
  - destruct (take_chars p n s); [apply IH | reflexivity].
Qed.

Lemma has_form_at_eol (fmt : list (nat * (ascii -> bool))) (s : string) :
  has_form fmt at_eol s = true <->
  has_form fmt (String.eqb "") s = true \/
  exists g, s = g ++ nl /\ has_form fmt (String.eqb "") g = true.
Proof.
  unfold at_eol.
  rewrite (has_form_or fmt (fun r => String.eqb r "") (fun r => String.eqb r nl)).
  rewrite <- has_form_newline, has_form_final_sym. apply orb_true_iff.
Qed.

Lemma re_match_culture (s : string) :
  re_match CULTURE_PATTERN s = has_form culture_form at_eol s.
Proof.
  unfold re_match, CULTURE_PATTERN, culture_form, lit. cbn [re_items Nat.eqb andb].
  rewrite (rep_match_exact _ is_lower _ (in_class_single 97 122)). cbn [has_form].
  destruct (take_chars is_lower 2 s) as [r1|]; [|reflexivity].
  rewrite (rep_match_exact _ _ _ (in_class_lit _)).
  destruct (take_chars (Ascii.eqb "-") 1 r1) as [r2|]; [|reflexivity].
  rewrite (rep_match_exact _ is_upper _ (in_class_single 65 90)).
  destruct (take_chars is_upper 2 r2) as [r3|]; [|reflexivity].
  cbn [re_items]. now rewrite andb_true_r.
Qed.

(** [validate_rendering_info] accepts a mapping exactly when its Culture is a
    culture name, possibly followed by one line feed, and its Keywords, if
    any, is a mapping whose Keyword is a list of at most 64 entries. *)
Theorem validate_rendering_info_accepts (d : list (string * pyval)) :
  validate_rendering_info (PDict d) = Ok tt <->
  (exists c, lookup "Culture" d = Some (PStr c) /\
             (culture_name c = true \/
              exists g, c = g ++ nl /\ culture_name g = true)) /\
  (lookup "Keywords" d = None \/
   exists kd l, lookup "Keywords" d = Some (PDict kd) /\
                lookup "Keyword" kd = Some (PList l) /\ (List.length l <= 64)%nat).
Proof.
  unfold validate_rendering_info, culture_name.
  cbn [py_in getitem bind]. unfold has_key.
  destruct (lookup "Culture" d) as [cv|] eqn:Hc; cbn [negb bind];
    [|split; [discriminate | intros [(c & Hc' & _) _]; discriminate]].
  destruct cv as [| | |c| |]; cbn [re_match_val bind];
    try (split; [discriminate | intros [(c & Hc' & _) _]; discriminate]).
  rewrite re_match_culture.
  destruct (has_form culture_form at_eol c) eqn:Hm; cbn [negb].
  2:{ split; [discriminate|]. intros [(c' & Hc' & Hf) _]. injection Hc' as <-.
      apply has_form_at_eol in Hf. congruence. }
  apply has_form_at_eol in Hm.
  destruct (lookup "Keywords" d) as [kw|] eqn:Hk; cbn [bind].
  2:{ split; [intros _ | reflexivity]. split; [now exists c | now left]. }
  destruct kw as [| | | | |kd]; cbn [isinstance_dict negb bind];
    try (split; [discriminate | intros [_ [H|(? & ? & H & _)]]; discriminate]).
  cbn [py_in bind getitem]. unfold has_key.
  destruct (lookup "Keyword" kd) as [k|] eqn:Hkk; cbn [negb bind].
  2:{ split; [discriminate|]. intros [_ [H|(kd' & l & H & H' & _)]]; [discriminate|].
      injection H as <-. congruence. }
  destruct k as [| | | |l|];
    try (split; [discriminate|];
         intros [_ [H|(? & ? & H & H' & _)]]; [discriminate|];
         injection H as <-; congruence).
  destruct (Nat.ltb_spec 64 (List.length l)).
  - split; [discriminate|]. intros [_ [H0|(kd' & l' & H1 & H2 & H3)]]; [discriminate|].
    injection H1 as <-. rewrite Hkk in H2. injection H2 as <-. lia.
  - split; [intros _ | reflexivity]. split; [now exists c|].
    right. now exists kd, l.
Qed.

(** ** Hexadecimal texts *)

Lemma rep_match_range (cls : list (nat * nat)) (p : ascii -> bool)
    (k : nat -> string -> bool) :
  (forall c, in_class cls c = p c) ->
  forall hi lo pos s,
    rep_match cls k lo hi pos s = true <->
    exists n r, (lo <= n <= hi)%nat /\ take_chars p n s = Some r /\
                k (pos + n)%nat r = true.
Proof.
  intros Hcls. induction hi as [|hi IH]; intros lo pos s.
  - cbn [rep_match]. rewrite andb_true_iff, Nat.eqb_eq. split.
    + intros [-> Hk]. exists O, s. rewrite Nat.add_0_r. repeat split; auto.
    + intros (n & r & Hn & Ht & Hk). assert (n = O) by lia. subst n.
      simpl in Ht. injection Ht as <-. rewrite Nat.add_0_r in Hk. split; [lia | exact Hk].
  - cbn [rep_match]. rewrite orb_true_iff. split.
    + intros [H|H].
      * destruct s as [|c s']; [discriminate|].
        rewrite Hcls in H. apply andb_true_iff in H. destruct H as [Hp H].
        apply IH in H. destruct H as (n & r & Hn & Ht & Hk).
        exists (S n), r. repeat split; try lia.
        -- simpl. now rewrite Hp.
        -- now rewrite Nat.add_succ_r.
      * apply andb_true_iff in H. destruct H as [Hlo Hk]. apply Nat.eqb_eq in Hlo.
        exists O, s. rewrite Nat.add_0_r. repeat split; auto; lia.
    + intros (n & r & Hn & Ht & Hk). destruct n as [|n].
      * right. simpl in Ht. injection Ht as <-. rewrite Nat.add_0_r in Hk.
        rewrite Hk, andb_true_r. apply Nat.eqb_eq. lia.
      * left. simpl in Ht. destruct s as [|c s']; [discriminate|].
        destruct (p c) eqn:Hp; [|discriminate].
        rewrite Hcls, Hp. cbn [andb]. apply IH. exists n, r.
        repeat split; try lia; [assumption|]. now rewrite Nat.add_succ_r in Hk.
Qed.

Lemma take_chars_split (p : ascii -> bool) (n : nat) :
  forall s r, take_chars p n s = Some r ->
    exists h, s = h ++ r /\ String.length h = n /\ all_chars p h = true.
Proof.
  induction n as [|n IH]; intros s r H; simpl in H.
  - injection H as <-. now exists "".
  - destruct s as [|c s']; [discriminate|]. destruct (p c) eqn:Hp; [|discriminate].
    destruct (IH _ _ H) as (h & -> & Hl & Ha).
    exists (String c h). repeat split; [simpl; now f_equal|].
    unfold all_chars in *. simpl. now rewrite Hp.
Qed.

Lemma take_chars_join (p : ascii -> bool) (h r : string) :
  all_chars p h = true -> take_chars p (String.length h) (h ++ r) = Some r.
Proof.
  unfold all_chars. induction h as [|c h IH]; simpl; [reflexivity|].
  intros H. apply andb_true_iff in H. destruct H as [Hc Hh]. rewrite Hc. now apply IH.
Qed.

Lemma in_class_hex' (c : ascii) : in_class hex_class' c = is_hex c.
Proof.
  unfold in_class, hex_class', is_hex, is_digit; simpl.
  destruct (char_in 48 57 c), (char_in 97 102 c), (char_in 65 70 c); reflexivity.
Qed.

Lemma in_class_x (c : ascii) :
  in_class [(120, 120); (88, 88)]%nat c = Ascii.eqb c "x" || Ascii.eqb c "X".
Proof.
  destruct c as [[] [] [] [] [] [] [] []]; reflexivity.
Qed.

Lemma append_empty (s : string) : s ++ "" = s.
Proof. induction s as [|c s IH]; simpl; [reflexivity | now rewrite IH]. Qed.

Lemma re_match_hex64 (s : string) :
  re_match HEX_INT64_PATTERN s = true <->
  exists x h tail,
    s = String "0" (String x (h ++ tail)) /\ (x = "x"%char \/ x = "X"%char) /\
    hex_text h /\ (String.length h <= 16)%nat /\ at_eol tail = true.
Proof.
  unfold re_match, HEX_INT64_PATTERN, lit. cbn [re_items Nat.eqb andb].
  rewrite (rep_match_exact _ _ _ (in_class_lit "0")).
  split.
  - intros H.
    destruct s as [|c0 s1]; [discriminate|]. cbn [take_chars] in H.
    destruct (Ascii.eqb_spec "0" c0) as [<-|]; [|discriminate].
    rewrite (rep_match_exact _ _ _ in_class_x) in H.
    destruct s1 as [|x s2]; [discriminate|]. cbn [take_chars] in H.
    destruct (Ascii.eqb x "x" || Ascii.eqb x "X") eqn:Hx; [|discriminate].
    apply (rep_match_range _ _ _ in_class_hex') in H.
    destruct H as (n & r & Hn & Ht & Hk).
    cbn [re_items] in Hk. rewrite andb_true_r in Hk.
    destruct (take_chars_split _ _ _ _ Ht) as (h & -> & Hl & Ha).
    exists x, h, r. split; [reflexivity|]. split.
    { apply orb_true_iff in Hx. destruct Hx as [Hx|Hx]; apply Ascii.eqb_eq in Hx; auto. }
    split; [|split; [lia | exact Hk]].
    split; [|exact Ha]. intros ->. simpl in Hl. lia.
  - intros (x & h & tail & -> & Hx & [Hne Ha] & Hl & Ht).
    cbn [take_chars Ascii.eqb Bool.eqb].
    rewrite (rep_match_exact _ _ _ in_class_x). cbn [take_chars].
    assert (Hxb : Ascii.eqb x "x" || Ascii.eqb x "X" = true)
      by (destruct Hx as [-> | ->]; reflexivity).
    rewrite Hxb. apply (rep_match_range _ _ _ in_class_hex').
    exists (String.length h), tail. split; [|split].
    + destruct h; [contradiction | simpl in *; lia].
    + now apply take_chars_join.
    + cbn [re_items]. now rewrite Ht.
Qed.

(** The pattern of System.Keywords accepts exactly the hexadecimal literals
    of at most 16 digits, and such a literal followed by one line feed. *)
Theorem hex_int64_accepts (s : string) :
  validate_hex_value (PStr s) HEX_INT64_PATTERN = Ok true <->
  hex_literal 16 s \/ exists g, s = g ++ nl /\ hex_literal 16 g.
Proof.
  unfold validate_hex_value, re_match_val, hex_literal.
  split.
  - intros H. injection H as H. apply re_match_hex64 in H.
    destruct H as (x & h & tail & -> & Hx & Hh & Hl & Ht).
    unfold at_eol in Ht. apply orb_true_iff in Ht.
    destruct Ht as [Ht|Ht]; apply String.eqb_eq in Ht; subst tail.
    + left. exists x, h. rewrite append_empty. auto.
    + right. exists (String "0" (String x h)). split; [reflexivity|].
      exists x, h. auto.
  - intros H. f_equal. apply re_match_hex64.
    destruct H as [(x & h & -> & Hx & Hh & Hl)|(g & -> & x & h & -> & Hx & Hh & Hl)].
    + exists x, h, "". rewrite append_empty. auto.
    + exists x, h, nl. auto.
Qed.

Lemma list_ascii_app (a b : string) :
  list_ascii_of_string (a ++ b) = (list_ascii_of_string a ++ list_ascii_of_string b)%list.
Proof. induction a as [|c a IH]; simpl; [reflexivity | now rewrite IH]. Qed.

Lemma lstrip_first (c : ascii) (r : string) :
  is_space c = false -> lstrip (String c r) = String c r.
Proof. intros H. simpl. now rewrite (int_space_is_space c H). Qed.

(** [strip] removes a final line feed from a text without white space. *)
Lemma strip_app_nl (t : string) :
  all_chars no_space t = true -> strip (t ++ nl) = t.
Proof.
  intros Ha. destruct t as [|c0 r0] eqn:Et; [reflexivity|]. rewrite <- Et in *.
  unfold strip.
  assert (H1 : lstrip (t ++ nl) = t ++ nl).
  { rewrite Et in *. clear Et. revert Ha. generalize c0 as c, r0 as r. intros c r Ha.
    unfold all_chars, no_space in Ha. simpl in Ha. apply andb_true_iff in Ha.
    destruct Ha as [Hc _]. apply negb_true_iff in Hc. now apply lstrip_first. }
  rewrite H1.
  assert (H2 : rev_string (t ++ nl) = String newline (rev_string t)).
  { unfold rev_string. rewrite list_ascii_app. simpl. now rewrite rev_app_distr. }
  rewrite H2. cbn [lstrip].
  change (is_int_space newline) with true. cbv iota.
  rewrite lstrip_no_space by now rewrite all_chars_rev.
  apply rev_string_involutive.
Qed.

Lemma hex_literal_no_space (x : ascii) (h : string) :
  (x = "x"%char \/ x = "X"%char) -> all_chars is_hex h = true ->
  all_chars no_space (String "0" (String x h)) = true.
Proof.
  intros Hx Ha. pose proof (all_chars_hex_no_space h Ha) as Hn.
  unfold all_chars in *. simpl. rewrite Hn.
  destruct Hx as [-> | ->]; reflexivity.
Qed.

(** [int(s, 16)] of a hexadecimal literal, with or without a final line
    feed, is the hexadecimal reading of its digits. *)
Lemma int_of_string_literal (x : ascii) (h tail : string) :
  (x = "x"%char \/ x = "X"%char) -> hex_text h -> at_eol tail = true ->
  int_of_string 16 (String "0" (String x (h ++ tail))) = Ok (hexadecimal_reading h).
Proof.
  intros Hx Hh Ht. pose proof Hh as [Hne Ha].
  assert (Hs : strip (String "0" (String x (h ++ tail))) = String "0" (String x h)).
  { unfold at_eol in Ht. apply orb_true_iff in Ht.
    destruct Ht as [Ht|Ht]; apply String.eqb_eq in Ht; subst tail.
    - rewrite append_empty. apply strip_no_space. now apply hex_literal_no_space.
    - change (String "0" (String x (h ++ nl))) with (String "0" (String x h) ++ nl).
      apply strip_app_nl. now apply hex_literal_no_space. }
  unfold int_of_string. rewrite Hs. cbn [drop_sign].
  assert (Hd : drop_prefix 16 (String "0" (String x h)) = h).
  { unfold drop_prefix. cbn [Z.eqb Pos.eqb].
    assert (Hxb : Ascii.eqb x "x" || Ascii.eqb x "X" = true)
      by (destruct Hx as [-> | ->]; reflexivity).
    rewrite Hxb. destruct h as [|c r]; [contradiction|].
    assert (Hc : is_hex c = true).
    { unfold all_chars in Ha. simpl in Ha. now apply andb_true_iff in Ha. }
    destruct c as [[] [] [] [] [] [] [] []]; try reflexivity; discriminate Hc. }
  rewrite Hd, (parse_digits_hex _ Hh). reflexivity.
Qed.

Lemma hex_digit_value_bound (c : ascii) :
  is_hex c = true -> 0 <= hex_digit_value c <= 15.
Proof.
  destruct c as [[] [] [] [] [] [] [] []]; intros H; try discriminate H;
    vm_compute; split; discriminate.
Qed.

Lemma reading_bound (h : string) :
  all_chars is_hex h = true ->
  forall acc, 0 <= acc ->
    let v := fold_left (fun a c => a * 16 + hex_digit_value c)
                       (list_ascii_of_string h) acc in
    0 <= v < (acc + 1) * 16 ^ Z.of_nat (String.length h).
Proof.
  unfold all_chars. induction h as [|c r IH]; intros Ha acc Hacc.
  - simpl. lia.
  - simpl in Ha. apply andb_true_iff in Ha. destruct Ha as [Hc Hr].
    pose proof (hex_digit_value_bound c Hc) as Hd.
    cbn [list_ascii_of_string fold_left String.length].
    specialize (IH Hr (acc * 16 + hex_digit_value c) ltac:(lia)). cbv zeta in IH.
    rewrite Nat2Z.inj_succ, Z.pow_succ_r by lia.
    assert (Hp : 0 < 16 ^ Z.of_nat (String.length r)) by (apply Z.pow_pos_nonneg; lia).
    split; [lia|]. nia.
Qed.

(** Every Keywords text that the validator accepts is read by [int(., 16)]
    as a number of 64 bits. *)
Theorem accepted_keywords_are_64_bit (s : string) :
  validate_hex_value (PStr s) HEX_INT64_PATTERN = Ok true ->
  exists z, int_of_string 16 s = Ok z /\ 0 <= z < 2 ^ 64.
Proof.
  intros H. injection H as H. apply re_match_hex64 in H.
  destruct H as (x & h & tail & -> & Hx & Hh & Hl & Ht).
  exists (hexadecimal_reading h). split; [now apply int_of_string_literal|].
  pose proof (reading_bound h (proj2 Hh) 0 ltac:(lia)) as Hb. cbv zeta in Hb.
  unfold hexadecimal_reading, reading.
  assert (Hp : 16 ^ Z.of_nat (String.length h) <= 16 ^ 16)
    by (apply Z.pow_le_mono_r; lia).
  change (2 ^ 64) with (16 ^ 16). lia.
Qed.

Lemma accepted_keywords_are_64_bit_witness :
  exists z, int_of_string 16 "0x8020000000000000" = Ok z /\ 0 <= z < 2 ^ 64.
Proof.
  apply accepted_keywords_are_64_bit. reflexivity.
Defined.

(** ** The logon event *)

Lemma get_default_dict (d : list (string * pyval)) (k : string) (dflt : pyval) :
  get_default (PDict d) k dflt = Ok (field_or d k dflt).
Proof. unfold field_or. simpl. now destruct (lookup k d). Qed.

Lemma check_logon_boolean_accepts (d : list (string * pyval)) (f : string) :
  check_logon_boolean (PDict d) f = Ok tt <-> logon_boolean d f = true.
Proof.
  unfold check_logon_boolean, logon_boolean. rewrite get_default_dict. cbn [bind].
  destruct (in_strings _ logon_boolean_lexicon); cbn [negb]; split;
    (reflexivity || discriminate).
Qed.

(** [validate_logon_event] accepts a mapping exactly when its LogonType (-1
    when absent) converts to one of the logon types 0, 2, 3, ..., 11 and
    RestrictedAdminMode, VirtualAccount and ElevatedToken (the empty text when
    absent) read, in lower case, yes, no, true, false, 0 or 1. *)
Theorem validate_logon_event_accepts (d : list (string * pyval)) :
  validate_logon_event (PDict d) = Returns tt <->
  (exists z, py_int (field_or d "LogonType" (PInt (-1))) = Ok z /\
             In z SecurityLogonType_values) /\
  logon_boolean d "RestrictedAdminMode" = true /\
  logon_boolean d "VirtualAccount" = true /\
  logon_boolean d "ElevatedToken" = true.
Proof.
  unfold validate_logon_event. rewrite get_default_dict.
  rewrite <- !check_logon_boolean_accepts.
  destruct (py_int (field_or d "LogonType" (PInt (-1)))) as [z|e] eqn:Hz.
  - destruct (existsb (Z.eqb z) SecurityLogonType_values) eqn:Hin; cbn [negb].
    + assert (Hz' : In z SecurityLogonType_values).
      { apply existsb_exists in Hin. destruct Hin as (y & Hy & E).
        apply Z.eqb_eq in E. now subst y. }
      cbn [for_each].
      destruct (check_logon_boolean (PDict d) "RestrictedAdminMode") as [[]|e1]; cbn [bind];
        [|split; [discriminate | intros (_ & H & _); discriminate]].
      destruct (check_logon_boolean (PDict d) "VirtualAccount") as [[]|e2]; cbn [bind];
        [|split; [discriminate | intros (_ & _ & H & _); discriminate]].
      destruct (check_logon_boolean (PDict d) "ElevatedToken") as [[]|e3]; cbn [bind of_result].
      * split; [intros _ | reflexivity]. repeat split. now exists z.
      * split; [discriminate | intros (_ & _ & _ & H); discriminate].
    + split; [discriminate|]. intros [(z' & Hz'' & Hi) _]. injection Hz'' as <-.
      assert (E : existsb (Z.eqb z) SecurityLogonType_values = true).
      { apply existsb_exists. exists z. split; [assumption | apply Z.eqb_refl]. }
      congruence.
  - split; [destruct e; discriminate|]. intros [(z' & Hz'' & _) _]. discriminate.
Qed.

(** A LogonType that is a text [int] refuses ends [validate_logon_event]
    in [UnboundLocalError], not in the [ValueError] its handler builds: the
    handler reads [logon_type], which was never assigned. *)
Theorem validate_logon_event_unbound (d : list (string * pyval)) (s m : string) :
  lookup "LogonType" d = Some (PStr s) ->
  int_of_string 10 s = Raise (ValueError m) ->
  validate_logon_event (PDict d) = RaisesUnboundLocalError "logon_type".
Proof.
  intros Hl Hi. unfold validate_logon_event. rewrite get_default_dict.
  unfold field_or. rewrite Hl. cbn [py_int]. now rewrite Hi.
Qed.

Lemma validate_logon_event_unbound_witness :
  validate_logon_event (PDict [("LogonType", PStr "interactive")])
  = RaisesUnboundLocalError "logon_type".
Proof.
  apply (validate_logon_event_unbound
           [("LogonType", PStr "interactive")] "interactive"
           "invalid literal for int() with base 10: 'interactive'");
    reflexivity.
Defined.

(** ** EventData *)

Lemma validate_data_entry_accepts (data : pyval) :
  validate_data_entry data = Ok tt <-> acceptable_entry data.
Proof.
  unfold validate_data_entry, acceptable_entry.
  destruct data as [| | | | |d]; cbn [isinstance_dict negb];
    try (split; [discriminate | intros (? & H & _); discriminate]).
  cbn [py_in bind]. unfold get. rewrite !get_default_dict. cbn [bind].
  destruct (has_key "Name" d) eqn:Hn; cbn [negb].
  2:{ split; [discriminate|]. intros (d' & H & Hn' & _). injection H as <-. congruence. }
  destruct (py_eq_str (field_or d "Type" PNone) "win:Boolean") eqn:Ht.
  - destruct (in_strings _ boolean_lexicon) eqn:Hb; cbn [negb].
    + split; [intros _ | reflexivity]. exists d. auto.
    + split.
      * unfold has_key in Hn. cbn [getitem]. destruct (lookup "Name" d); discriminate.
      * intros (d' & H & _ & Hi). injection H as <-. specialize (Hi Ht). congruence.
  - split; [intros _ | reflexivity]. exists d. repeat split; auto. congruence.
Qed.

Lemma for_each_accepts {A : Type} (f : A -> result unit) (l : list A) :
  for_each f l = Ok tt <-> Forall (fun x => f x = Ok tt) l.
Proof.
  split; [|apply for_each_ok].
  induction l as [|x l IH]; simpl; intros H; [constructor|].
  destruct (f x) as [[]|e] eqn:E; [|discriminate]. constructor; auto.
Qed.

Lemma validate_event_data_iff (d : list (string * pyval)) :
  validate_event_data (PDict d) = Ok tt <->
  lookup "Data" d = None \/
  exists l, lookup "Data" d = Some (PList l) /\ Forall acceptable_entry l.
Proof.
  unfold validate_event_data. cbn [py_in getitem bind]. unfold has_key.
  destruct (lookup "Data" d) as [v|]; cbn [bind].
  - destruct v as [| | | |l|];
      try (split; [discriminate | intros [H|(? & H & _)]; discriminate]).
    rewrite for_each_accepts. split.
    + intros H. right. exists l. split; [reflexivity|].
      revert H. apply Forall_impl. intros x. apply validate_data_entry_accepts.
    + intros [H|(l' & H & Hf)]; [discriminate|]. injection H as <-.
      revert Hf. apply Forall_impl. intros x. apply validate_data_entry_accepts.
  - split; [now left | reflexivity].
Qed.

(** [validate_event_data] accepts a mapping exactly when it has no Data, or
    its Data is a list of acceptable entries. *)
Theorem validate_event_data_accepts (d : list (string * pyval)) :
  validate_event_data (PDict d) = Ok tt <->
  lookup "Data" d = None \/
  exists l, lookup "Data" d = Some (PList l) /\ Forall acceptable_entry l.
Proof. exact (validate_event_data_iff d). Qed.

(** ** What an accepted configuration satisfies *)

Lemma bind_unit_ok {B : Type} (r : result unit) (k : unit -> result B) (b : B) :
  bind r k = Ok b -> r = Ok tt /\ k tt = Ok b.
Proof. destruct r as [[]|e]; simpl; [auto | discriminate]. Qed.

(** The parts of a configuration that [validate_windows_event_config]
    accepts have passed their own validators. *)
Lemma validate_windows_event_config_parts (config : pyval) :
  validate_windows_event_config config = Ok tt ->
  exists t event system descriptor e,
    getitem config "template" = Ok (PDict t) /\
    getitem config "Event" = Ok event /\
    getitem event "System" = Ok system /\
    validate_system_properties system = Ok tt /\
    getitem config "event_descriptor" = Ok descriptor /\
    validate_event_descriptor descriptor = Ok e /\
    (forall name id ch,
       getitem system "Channel" = Ok (PStr name) ->
       In (name, id) STANDARD_CHANNELS ->
       getitem descriptor "Channel" = Ok ch -> py_eq_int ch id = true) /\
    (forall id,
       getitem descriptor "Id" = Ok id -> is_security_event_id id = true ->
       exists ed, getitem event "EventData" = Ok ed /\
                  validate_security_event_data ed id = Ok tt) /\
    (forall ri, getitem event "RenderingInfo" = Ok ri ->
                validate_rendering_info ri = Ok tt) /\
    (forall ed, getitem event "EventData" = Ok ed -> validate_event_data ed = Ok tt).
Proof.
  intros H. unfold validate_windows_event_config in H.
  apply bind_ok in H. destruct H as (missing & _ & H).
  destruct (negb (is_nil missing)); [discriminate|].
  apply bind_ok in H. destruct H as (tv & Ht & H).
  destruct tv as [| | | | |t]; try discriminate H. cbn [isinstance_dict negb] in H.
  apply bind_ok in H. destruct H as (hm & _ & H).
  apply bind_ok in H. destruct H as (nv & _ & H).
  destruct nv; [discriminate|].
  apply bind_ok in H. destruct H as (event & He & H).
  apply bind_ok in H. destruct H as (hs & _ & H).
  destruct (negb hs); [discriminate|].
  apply bind_ok in H. destruct H as (system & Hs & H).
  apply bind_unit_ok in H. destruct H as (Hsys & H).
  apply bind_ok in H. destruct H as (descriptor & Hd & H).
  apply bind_ok in H. destruct H as (e & Hdesc & H).
  apply bind_ok in H. destruct H as (hc & Hhc & H).
  apply bind_unit_ok in H. destruct H as (Hchan & H).
  apply bind_ok in H. destruct H as (event_id & Hid & H).
  apply bind_unit_ok in H. destruct H as (Hsec & H).
  apply bind_ok in H. destruct H as (hri & Hhri & H).
  apply bind_unit_ok in H. destruct H as (Hri & H).
  apply bind_ok in H. destruct H as (hed & Hhed & H).
  exists t, event, system, descriptor, e.
  repeat (split; [assumption|]). split; [|split; [|split]].
  - intros name id ch Hn Hin Hch.
    rewrite (getitem_in _ _ _ Hn) in Hhc. injection Hhc as <-.
    rewrite Hn in Hchan. cbn [bind standard_channel] in Hchan.
    rewrite (standard_channel_id _ _ Hin), Hch in Hchan. cbn [bind] in Hchan.
    destruct (py_eq_int ch id); [reflexivity | discriminate].
  - intros id Hid' Hsecid. rewrite Hid in Hid'. injection Hid' as ->.
    rewrite Hsecid in Hsec.
    apply bind_ok in Hsec. destruct Hsec as (hed' & _ & Hsec).
    destruct (negb hed'); [discriminate|].
    apply bind_ok in Hsec. destruct Hsec as (ed & Hed & Hsec). now exists ed.
  - intros ri Hr. rewrite (getitem_in _ _ _ Hr) in Hhri. injection Hhri as <-.
    now rewrite Hr in Hri.
  - intros ed Hed. rewrite (getitem_in _ _ _ Hed) in Hhed. injection Hhed as <-.
    now rewrite Hed in H.
Qed.

(** The descriptor of an accepted configuration is in range: it converts to
    a descriptor with Level in 0..15, Opcode in 0..240 and Task not negative,
    the one the check of [utils.py] accepts. *)
Theorem accepted_descriptor_in_range (config : pyval) :
  validate_windows_event_config config = Ok tt ->
  exists descriptor e,
    getitem config "event_descriptor" = Ok descriptor /\
    converts descriptor e /\
    0 <= Level e <= 15 /\ 0 <= Opcode e <= 240 /\ 0 <= Task e /\
    Utils.validate_event_descriptor e = true.
Proof.
  intros H. apply validate_windows_event_config_parts in H.
  destruct H as (t & event & system & descriptor & e & _ & _ & _ & _ & Hd & He & _).
  pose proof (validate_event_descriptor_converts _ _ He) as Hc.
  assert (Hu : Utils.validate_event_descriptor e = true)
    by now apply (descriptor_checks_iff _ _ Hc).
  exists descriptor, e. repeat (split; [assumption|]).
  pose proof Hu as Hr. unfold Utils.validate_event_descriptor in Hr.
  rewrite !andb_true_iff, !Z.leb_le, Z.geb_leb, Z.leb_le in Hr.
  repeat split; try assumption; lia.
Qed.

Lemma accepted_descriptor_in_range_witness :
  exists descriptor e,
    getitem valid_config "event_descriptor" = Ok descriptor /\
    converts descriptor e /\
    0 <= Level e <= 15 /\ 0 <= Opcode e <= 240 /\ 0 <= Task e /\
    Utils.validate_event_descriptor e = true.
Proof.
  apply accepted_descriptor_in_range. reflexivity.
Defined.

(** In an accepted configuration whose System.Channel is a standard channel
    name, the Channel of the descriptor equals the id of that name. *)
Theorem accepted_channel_consistent (config event system descriptor ch : pyval)
    (name : string) (id : Z) :
  validate_windows_event_config config = Ok tt ->
  getitem config "Event" = Ok event ->
  getitem event "System" = Ok system ->
  getitem system "Channel" = Ok (PStr name) ->
  In (name, id) STANDARD_CHANNELS ->
  getitem config "event_descriptor" = Ok descriptor ->
  getitem descriptor "Channel" = Ok ch ->
  py_eq_int ch id = true.
Proof.
  intros H He Hs Hn Hin Hd Hch. apply validate_windows_event_config_parts in H.
  destruct H as (t & event' & system' & descriptor' & e & _ & He' & Hs' & _ & Hd' & _
                 & Hchan & _).
  rewrite He in He'. injection He' as <-. rewrite Hs in Hs'. injection Hs' as <-.
  rewrite Hd in Hd'. injection Hd' as <-. exact (Hchan name id ch Hn Hin Hch).
Qed.

Lemma accepted_channel_consistent_witness : py_eq_int (PInt 2) 2 = true.
Proof.
  apply (accepted_channel_consistent
           valid_config
           (PDict [("xmlns", PStr "http://schemas.microsoft.com/win/2004/08/events/event");
                   ("System", system_of "TestComputer");
                   ("EventData", PDict [("Data", PList logon_entries)])])
           (system_of "TestComputer") (descriptor_of (PInt 2)) (PInt 2) "Security" 2);
    try reflexivity.
  simpl. auto.
Defined.




(** ** Security records *)

Lemma index_by_name_nameless (x : list (string * pyval)) (post : list pyval) :
  has_key "Name" x = false ->
  forall pre acc,
    Forall indexable pre ->
    index_by_name (pre ++ PDict x :: post) acc = Raise (KeyError "Name").
Proof.
  intros Hx. induction pre as [|item pre IH]; intros acc Hpre.
  - cbn [app index_by_name getitem]. unfold has_key in Hx.
    destruct (lookup "Name" x); [discriminate | reflexivity].
  - inversion Hpre as [|? ? (n & Hn & Hh) Hp]; subst.
    cbn [app index_by_name]. rewrite Hn. cbn [bind]. rewrite Hh. now apply IH.
Qed.

(** A security record with a Data entry that has no Name leaves the
    validator of security records with [KeyError], not with a validation
    error: the entries are indexed by Name before anything checks that each
    has one. *)
Theorem nameless_entry_key_error (d x : list (string * pyval)) (pre post : list pyval) :
  lookup "Data" d = Some (PList (pre ++ PDict x :: post)) ->
  Forall indexable pre ->
  has_key "Name" x = false ->
  validate_security_event_data (PDict d) (PInt 4624) = Raise (KeyError "Name").
Proof.
  intros Hd Hpre Hx.
  assert (Hg : getitem (PDict d) "Data" = Ok (PList (pre ++ PDict x :: post)))
    by (simpl; now rewrite Hd).
  unfold validate_security_event_data. cbn [isinstance_dict negb].
  unfold validate_security_event.
  change (security_event_of (PInt 4624)) with (Some LOGON_SUCCESS).
  cbn [SECURITY_EVENT_TEMPLATES].
  rewrite (getitem_in _ _ _ Hg), Hg. cbn [bind negb].
  assert (Ht : truthy (PList (pre ++ PDict x :: post)) = true)
    by (destruct pre; reflexivity).
  rewrite Ht. cbn [bind py_iter].
  now rewrite (index_by_name_nameless x post Hx pre [] Hpre).
Qed.

Lemma nameless_entry_key_error_witness :
  validate_security_event_data
    (PDict [("Data", PList [entry "SubjectUserSid" "win:SID" "S-1-5-18";
                            PDict [("Type", PStr "win:UInt32"); ("_text", PStr "2")]])])
    (PInt 4624)
  = Raise (KeyError "Name").
Proof.
  apply (nameless_entry_key_error
           [("Data", PList [entry "SubjectUserSid" "win:SID" "S-1-5-18";
                            PDict [("Type", PStr "win:UInt32"); ("_text", PStr "2")]])]
           [("Type", PStr "win:UInt32"); ("_text", PStr "2")]
           [entry "SubjectUserSid" "win:SID" "S-1-5-18"] []).
  - reflexivity.
  - constructor; [|constructor]. exists (PStr "SubjectUserSid"). split; reflexivity.
  - reflexivity.
Defined.

Lemma py_iter_indexed (v : pyval) (l : list pyval) (df : list (pyval * pyval)) :
  truthy v = true -> py_iter v = Ok l -> index_by_name l [] = Ok df ->
  v = PList l.
Proof.
  intros Ht Hi Hx. destruct v as [| | |s|l'|d]; try discriminate Hi.
  - simpl in Hi. injection Hi as <-. destruct s as [|c s]; [discriminate Ht|].
    discriminate Hx.
  - simpl in Hi. now injection Hi as <-.
  - simpl in Hi. injection Hi as <-. destruct d as [|[k v] d]; [discriminate Ht|].
    discriminate Hx.
Qed.

Lemma check_field_type_ok (t : template) (n e : pyval) (ty : string) :
  check_field_type t (n, e) = Ok tt -> declared_type n t = Some ty ->
  get e "Type" = Ok (PStr ty).
Proof.
  unfold check_field_type. intros H Hd. rewrite Hd in H.
  destruct (get e "Type") as [a|] eqn:Ha; [|discriminate]. cbn [bind] in H.
  destruct (py_eq_str a ty) eqn:E; cbn [negb] in H.
  - now rewrite (py_eq_str_true _ _ E).
  - discriminate H.
Qed.

(** A logon record (4624) that the validator of security records accepts
    has a list of Data entries among whose Names are all eight required
    fields, and the last entry of every Name with a declared type has that
    type. *)
Theorem accepted_logon_record (d : list (string * pyval)) :
  validate_security_event_data (PDict d) (PInt 4624) = Ok tt ->
  exists entries,
    lookup "Data" d = Some (PList entries) /\
    (forall f, In f (required_fields LOGON_SUCCESS_TEMPLATE) ->
               existsb (fun it => named it f) entries = true) /\
    (forall f ty, In (f, ty) (field_types LOGON_SUCCESS_TEMPLATE) ->
       exists e, last_named entries (PStr f) e /\ get e "Type" = Ok (PStr ty)).
Proof.
  intros H. unfold validate_security_event_data in H. cbn [isinstance_dict negb] in H.
  assert (Hv : validate_security_event (PInt 4624) (PDict d) = Ok tt).
  { destruct (validate_security_event (PInt 4624) (PDict d)) as [[]|[]];
      try discriminate H; reflexivity. }
  clear H. unfold validate_security_event in Hv.
  change (security_event_of (PInt 4624)) with (Some LOGON_SUCCESS) in Hv.
  cbn [SECURITY_EVENT_TEMPLATES] in Hv.
  apply bind_ok in Hv. destruct Hv as (hd & _ & Hv).
  destruct (negb hd); [discriminate|].
  apply bind_ok in Hv. destruct Hv as (v & Hg & Hv).
  apply bind_ok in Hv. destruct Hv as (df & Hdf & Hv).
  destruct (negb (is_nil (missing_required LOGON_SUCCESS_TEMPLATE df))) eqn:Hm;
    [discriminate|].
  apply negb_false_iff in Hm.
  assert (Hmiss : missing_required LOGON_SUCCESS_TEMPLATE df = [])
    by (destruct (missing_required LOGON_SUCCESS_TEMPLATE df); [reflexivity | discriminate]).
  destruct (truthy v) eqn:Ht.
  2:{ injection Hdf as <-. discriminate Hmiss. }
  rewrite Hg in Hdf. cbn [bind] in Hdf.
  apply bind_ok in Hdf. destruct Hdf as (l & Hl & Hdf).
  pose proof (py_iter_indexed v l df Ht Hl Hdf) as ->.
  exists l. split.
  { simpl in Hg. destruct (lookup "Data" d); [now injection Hg as -> | discriminate]. }
  rewrite (missing_required_entries _ _ _ Hdf) in Hmiss.
  assert (Hreq : forall f, In f (required_fields LOGON_SUCCESS_TEMPLATE) ->
                           existsb (fun it => named it f) l = true).
  { intros f Hf.
    destruct (existsb (fun it => named it f) l) eqn:E; [reflexivity|].
    assert (Hin : In f (filter (fun f => negb (existsb (fun it => named it f) l))
                               (required_fields LOGON_SUCCESS_TEMPLATE)))
      by (apply filter_In; split; [assumption | now rewrite E]).
    rewrite Hmiss in Hin. destruct Hin. }
  split; [exact Hreq|].
  intros f ty Hfty.
  assert (Hf : In f (required_fields LOGON_SUCCESS_TEMPLATE)).
  { simpl in Hfty. simpl.
    repeat (destruct Hfty as [Hfty|Hfty]; [injection Hfty as <- <-; tauto|]).
    destruct Hfty. }
  assert (Hdecl : declared_type (PStr f) LOGON_SUCCESS_TEMPLATE = Some ty).
  { simpl in Hfty.
    repeat (destruct Hfty as [Hfty|Hfty]; [injection Hfty as <- <-; reflexivity|]).
    destruct Hfty. }
  assert (Hmem : mem_key (PStr f) df = true).
  { rewrite (index_by_name_mem f _ _ _ Hdf). simpl. now apply Hreq. }
  unfold mem_key in Hmem. apply existsb_exists in Hmem.
  destruct Hmem as ([n e] & Hin & Hk). cbn [fst] in Hk.
  rewrite key_eq_str in Hk. apply py_eq_str_true in Hk. subst n.
  exists e. split.
  - destruct (index_by_name_entries l [] df I Hdf (PStr f) e Hin) as [Hlast|[[] _]].
    exact Hlast.
  - apply for_each_accepts in Hv. rewrite Forall_forall in Hv.
    exact (check_field_type_ok _ _ _ _ (Hv _ Hin) Hdecl).
Qed.

Lemma accepted_logon_record_witness :
  exists entries,
    lookup "Data" [("Data", PList logon_entries)] = Some (PList entries) /\
    (forall f, In f (required_fields LOGON_SUCCESS_TEMPLATE) ->
               existsb (fun it => named it f) entries = true) /\
    (forall f ty, In (f, ty) (field_types LOGON_SUCCESS_TEMPLATE) ->
       exists e, last_named entries (PStr f) e /\ get e "Type" = Ok (PStr ty)).
Proof.
  apply accepted_logon_record. reflexivity.
Defined.

(** ** What the value provider answers *)

Lemma get_function_raises (t : string) (e : exn) :
  get_function t = Raise e -> exists m, e = ValueError m \/ e = IndexError m.
Proof.
  unfold get_function. destruct (negb (startswith "func_" t)); [discriminate|].
  destruct (split_on underscore t) as [|a [|x r]].
  - intros H. injection H as <-. eexists. right. reflexivity.
  - intros H. injection H as <-. eexists. right. reflexivity.
  - destruct (getattr_module ("func_" ++ x)); [discriminate|].
    intros H. injection H as <-. eexists. left. reflexivity.
Qed.

Lemma run_function_returns (o : Oracle) (f : module_function) (w : World) :
  exists x w', run_function o f w = (Ok x, w').
Proof. destruct f; eexists; eexists; reflexivity. Qed.

Lemma get_random_value_outcome (o : Oracle) (v : pyval) (w : World) :
  (answered v = true -> exists x w', get_random_value o v w = (Ok x, w')) /\
  (answered v = false ->
   exists name n, get_random_value o v w = (Raise (arity_error name n), w)).
Proof.
  destruct v as [| | |s| |]; try (split; [intros _; eexists; eexists; reflexivity
                                         | discriminate]).
  unfold answered, get_random_value, exec_function_str.
  destruct (split_ws s) as [|t [|a args]].
  - split; [intros _; eexists; eexists; reflexivity | discriminate].
  - split; [intros _ | discriminate]. unfold mbind, lift.
    destruct (get_function t) as [[l|f]|e] eqn:Hg.
    + eexists; eexists; reflexivity.
    + cbn [call]. destruct (run_function_returns o f w) as (x & w' & Hr).
      rewrite Hr. now exists x, w'.
    + destruct (get_function_raises t e Hg) as (m & [-> | ->]);
        eexists; eexists; reflexivity.
  - unfold mbind, lift. destruct (get_function t) as [[l|f]|e] eqn:Hg.
    + split; [discriminate | intros _; eexists; eexists; reflexivity].
    + split; [discriminate | intros _; eexists; eexists; reflexivity].
    + split; [intros _ | discriminate].
      destruct (get_function_raises t e Hg) as (m & [-> | ->]);
        eexists; eexists; reflexivity.
Qed.

(** [get_random_value] returns exactly on the answered values; on the other
    values it raises the [TypeError] of a call with too many arguments, which
    it does not catch. *)
Theorem get_random_value_returns (o : Oracle) (v : pyval) (w : World) :
  (answered v = true -> exists x w', get_random_value o v w = (Ok x, w')) /\
  (answered v = false ->
   exists name n, get_random_value o v w = (Raise (arity_error name n), w)).
Proof. exact (get_random_value_outcome o v w). Qed.

(** A literal, that is a text whose first token does not carry the marker:
    with one token the token is the answer, so white space around it is
    lost, and the world is untouched; without a token the text itself is the
    answer and a warning is logged; with more tokens the call raises. *)
Theorem get_random_value_literal (o : Oracle) (s : string) (w : World) :
  is_invocation s = false ->
  get_random_value o (PStr s) w =
    match split_ws s with
    | [] =>
        (Ok s, mkWorld (readings w)
                 (logged w ++ [(WARNING, "Failed to execute function for " ++ s
                                         ++ ": list index out of range")]))
    | [t] => (Ok t, w)
    | _ :: args => (Raise (arity_error lambda_name (List.length args)), w)
    end.
Proof.
  unfold is_invocation, get_random_value, exec_function_str.
  destruct (split_ws s) as [|t args]; [reflexivity|].
  intros Ht. unfold mbind, lift, get_function. rewrite Ht. cbn [negb].
  destruct args; reflexivity.
Qed.

Lemma get_random_value_literal_witness :
  get_random_value oracle0 (PStr "  WIN-DC01 ") world0 = (Ok "WIN-DC01", world0).
Proof.
  apply (get_random_value_literal oracle0 "  WIN-DC01 " world0). reflexivity.
Defined.

(** A specification whose first token carries the marker but whose looked-up
    name (the marker and the text between the first and the second
    underscore) is no module function is returned as it is, arguments
    included; nothing is raised, the random source is not read, and a
    warning that names the looked-up function is logged. *)
Theorem unknown_function_returned_unchanged (o : Oracle) (s t a x : string)
    (args rest : list string) (w : World) :
  split_ws s = t :: args ->
  startswith "func_" t = true ->
  split_on underscore t = a :: x :: rest ->
  getattr_module ("func_" ++ x) = None ->
  get_random_value o (PStr s) w =
    (Ok s, mkWorld (readings w)
             (logged w ++ [(WARNING, "Failed to execute function for " ++ s
                                     ++ ": Unknown function: func_" ++ x)])).
Proof. exact (get_random_value_unknown o s t a x args rest w). Qed.

(** The documented example [func_randint 1 10]: no module function is called
    [func_randint], so the text is returned as it is, with a warning. *)
Lemma unknown_function_returned_unchanged_witness :
  get_random_value oracle0 (PStr "func_randint 1 10") world0
  = (Ok "func_randint 1 10",
     mkWorld 0 [(WARNING, "Failed to execute function for func_randint 1 10: "
                          ++ "Unknown function: func_randint")]).
Proof.
  apply (unknown_function_returned_unchanged oracle0 "func_randint 1 10" "func_randint"
           "func" "randint" ["1"; "10"] [] world0); reflexivity.
Defined.

(** A generator specification is no GUID: [validate_guid] refuses every text
    that starts with the marker, so a Provider whose Guid is a specification
    is refused, although the serializer would resolve it. *)
Theorem specification_is_no_guid (d : list (string * pyval)) (s : string) :
  startswith "func_" s = true ->
  lookup "Guid" d = Some (PStr s) ->
  validate_guid (PStr s) = Ok false /\
  validate_provider (PDict d)
  = Raise (WindowsEventValidationError ("Invalid Provider GUID format: " ++ s)).
Proof.
  intros Hs Hd.
  assert (Hf : exists r, s = String "f" r).
  { destruct s as [|c r]; [discriminate|]. unfold startswith in Hs.
    destruct c as [[] [] [] [] [] [] [] []]; try (vm_compute in Hs; discriminate Hs).
    now exists r. }
  destruct Hf as (r & ->).
  assert (Hv : validate_guid (PStr (String "f" r)) = Ok false).
  { unfold validate_guid, re_match_val. now rewrite re_match_guid. }
  split; [exact Hv|].
  unfold validate_provider, check_guid_field. cbn [get get_default getitem].
  rewrite Hd. cbn [bind truthy String.eqb negb].
  destruct (lookup "Name" d) as [n|]; cbn [bind];
    [destruct (truthy n)|]; cbn [bind negb]; rewrite Hv; reflexivity.
Qed.

Lemma specification_is_no_guid_witness :
  validate_guid (PStr "func_guid") = Ok false /\
  validate_provider (PDict [("Name", PStr "App"); ("Guid", PStr "func_guid")])
  = Raise (WindowsEventValidationError "Invalid Provider GUID format: func_guid").
Proof.
  apply (specification_is_no_guid [("Name", PStr "App"); ("Guid", PStr "func_guid")]
           "func_guid"); reflexivity.
Defined.

Lemma has_form_app (fmt rest : list (nat * (ascii -> bool))) (f : string -> bool) :
  forall u t,
    has_form fmt (String.eqb "") u = true ->
    has_form (fmt ++ rest) f (u ++ t) = has_form rest f t.
Proof.
  induction fmt as [|[n p] fmt IH]; intros u t H.
  - simpl in H. destruct u; [reflexivity | discriminate].
  - cbn [app has_form] in *.
    destruct (take_chars p n u) as [r|] eqn:Ht; [|discriminate].
    rewrite (take_chars_app _ _ _ _ t Ht). now apply IH.
Qed.

(** The generator of GUIDs and their validator fit: whenever the random
    source gives a well-formed UUID, the answer of [func_guid] is a GUID that
    [validate_guid] accepts. *)
Theorem func_guid_is_valid (o : Oracle) (w : World) :
  has_form uuid_form (String.eqb "") (uuid4 o (readings w)) = true ->
  exists g w',
    get_random_value o (PStr "func_guid") w = (Ok g, w') /\
    validate_guid (PStr g) = Ok true.
Proof.
  intros Hu. exists ("{" ++ uuid4 o (readings w) ++ "}"), (mkWorld (S (readings w)) (logged w)).
  split; [reflexivity|].
  apply validate_guid_accepts. left. unfold canonical_guid.
  change guid_form with ((1%nat, Ascii.eqb "{") :: uuid_form ++ [(1%nat, Ascii.eqb "}")])%list.
  cbn [has_form String.append take_chars Ascii.eqb Bool.eqb].
  now rewrite (has_form_app uuid_form _ _ _ "}" Hu).
Qed.

Lemma func_guid_is_valid_witness :
  exists g w',
    get_random_value oracle0 (PStr "func_guid") world0 = (Ok g, w') /\
    validate_guid (PStr g) = Ok true.
Proof.
  apply func_guid_is_valid. reflexivity.
Defined.

(** ** When the serializer returns *)

Lemma get_random_value_answered (o : Oracle) (v : pyval) (w : World) :
  returns (get_random_value o v) w <-> answered v = true.
Proof.
  destruct (get_random_value_outcome o v w) as [Hyes Hno]. split.
  - intros (x & w' & H). destruct (answered v); [reflexivity|].
    destruct (Hno eq_refl) as (name & n & E). rewrite E in H. discriminate.
  - exact Hyes.
Qed.

Lemma mbind_returns {A B : Type} (m : M A) (k : A -> M B) (w : World) :
  returns (mbind m k) w <-> exists a w1, m w = (Ok a, w1) /\ returns (k a) w1.
Proof.
  unfold returns, mbind. split.
  - intros (b & w' & H). destruct (m w) as [[a|e] w1]; [|discriminate].
    exists a, w1. split; [reflexivity|]. now exists b, w'.
  - intros (a & w1 & -> & b & w' & H). now exists b, w'.
Qed.

Lemma ret_returns {A : Type} (a : A) (w : World) : returns (ret a) w.
Proof. now exists a, w. Qed.

Lemma fold_m_returns {A B : Type} (f : A -> B -> M A) (P : B -> bool) :
  (forall acc x w, returns (f acc x) w <-> P x = true) ->
  forall l acc w, returns (fold_m f l acc) w <-> forallb P l = true.
Proof.
  intros Hf. induction l as [|x l IH]; intros acc w; cbn [fold_m forallb].
  - split; [reflexivity | intros _; apply ret_returns].
  - rewrite mbind_returns, andb_true_iff. split.
    + intros (a & w1 & Hx & Hl). split.
      * apply (Hf acc x w). now exists a, w1.
      * now apply (IH a w1).
    + intros [Hx Hl]. apply (Hf acc x w) in Hx. destruct Hx as (a & w1 & Hx).
      exists a, w1. split; [assumption | now apply IH].
Qed.

Lemma system_attr_step_returns (o : Oracle) (st : list string * string)
    (kv : string * pyval) (w : World) :
  returns (system_attr_step o st kv) w <-> answered (snd kv) = true.
Proof.
  destruct st as [attrs text], kv as [k v]. unfold system_attr_step. cbn [snd].
  rewrite <- (get_random_value_answered o v w).
  destruct (String.eqb k "_text"); rewrite mbind_returns; split.
  - intros (a & w1 & H & _). now exists a, w1.
  - intros (a & w1 & H). exists a, w1. split; [assumption | apply ret_returns].
  - intros (a & w1 & H & _). now exists a, w1.
  - intros (a & w1 & H). exists a, w1. split; [assumption | apply ret_returns].
Qed.

Lemma data_attr_step_returns (o : Oracle) (st : list string * string)
    (kv : string * pyval) (w : World) :
  returns (data_attr_step o st kv) w
  <-> negb (String.eqb (fst kv) "_text") || answered (snd kv) = true.
Proof.
  destruct st as [attrs text], kv as [k v]. unfold data_attr_step. cbn [fst snd].
  destruct (String.eqb k "_text"); cbn [negb orb].
  - rewrite <- (get_random_value_answered o v w), mbind_returns. split.
    + intros (a & w1 & H & _). now exists a, w1.
    + intros (a & w1 & H). exists a, w1. split; [assumption | apply ret_returns].
  - split; [reflexivity | intros _; apply ret_returns].
Qed.

Lemma system_step_returns (o : Oracle) (xml : list string) (kv : string * pyval)
    (w : World) :
  returns (system_step o xml kv) w <-> system_field_answered kv = true.
Proof.
  destruct kv as [key value]. unfold system_step, system_field_answered. cbn [snd].
  destruct value as [| | |s| |its]; cbn [isinstance_dict];
    try (rewrite mbind_returns, <- (get_random_value_answered o _ w); split;
         [intros (a & w1 & H & _); now exists a, w1
         |intros (a & w1 & H); exists a, w1; split; [assumption | apply ret_returns]]).
  rewrite mbind_returns. unfold answered_items.
  rewrite <- (fold_m_returns (system_attr_step o) (fun kv => answered (snd kv))
                (system_attr_step_returns o) its ([], "") w).
  split.
  - intros (its' & w1 & Hi & H). unfold lift in Hi. simpl in Hi. injection Hi as <- <-.
    apply mbind_returns in H. destruct H as (a & w2 & H & _). now exists a, w2.
  - intros (a & w2 & H). exists its, w. split; [reflexivity|].
    apply mbind_returns. exists a, w2. split; [assumption | apply ret_returns].
Qed.

Lemma data_step_returns (o : Oracle) (xml : list string) (data : pyval) (w : World) :
  returns (data_step o xml data) w <-> data_entry_answered data = true.
Proof.
  unfold data_step, data_entry_answered. rewrite mbind_returns.
  destruct data as [| | | | |its];
    try (split; [intros (a & w1 & H & _); discriminate H | discriminate]).
  rewrite <- (fold_m_returns (data_attr_step o)
                (fun kv => negb (String.eqb (fst kv) "_text") || answered (snd kv))
                (data_attr_step_returns o) its ([], "") w).
  split.
  - intros (its' & w1 & Hi & H). unfold lift in Hi. simpl in Hi. injection Hi as <- <-.
    apply mbind_returns in H. destruct H as (a & w2 & H & _). now exists a, w2.
  - intros (a & w2 & H). exists its, w. split; [reflexivity|].
    apply mbind_returns. exists a, w2. split; [assumption | apply ret_returns].
Qed.

Lemma lift_returns {A B : Type} (r : result A) (k : A -> M B) (w : World) :
  returns (mbind (lift r) k) w <-> exists a, r = Ok a /\ returns (k a) w.
Proof.
  rewrite mbind_returns. unfold lift. split.
  - intros (a & w1 & H & Hk). injection H as -> <-. now exists a.
  - intros (a & -> & Hk). now exists a, w.
Qed.

Lemma validated_system_is_dict (system : pyval) :
  validate_system_properties system = Ok tt -> exists sys, system = PDict sys.
Proof.
  unfold validate_system_properties. intros H.
  apply bind_ok in H. destruct H as (m & _ & H).
  destruct (negb (is_nil m)); [discriminate|].
  apply bind_ok in H. destruct H as (p & Hp & _).
  destruct system; try discriminate Hp. now eexists.
Qed.

Lemma acceptable_entry_dict (data : pyval) :
  acceptable_entry data -> isinstance_dict data = true.
Proof. intros (d & -> & _). reflexivity. Qed.

Lemma get_windows_event_log_body_returns (o : Oracle) (config : pyval) (w : World) :
  returns (get_windows_event_log o config) w
  <-> returns (windows_event_log_body o config) w.
Proof.
  unfold returns, get_windows_event_log.
  destruct (windows_event_log_body o config w) as [[t|e] w1].
  - reflexivity.
  - split; intros (a & w' & H); [destruct e|]; discriminate H.
Qed.

(** The serializer returns a text exactly for the configurations that the
    validator accepts, whose System values all have an answer of the value
    provider, and whose EventData, if any, has a list of Data entries whose
    texts all have one.  (An accepted configuration whose EventData has no
    Data, or in which a text has blanks in it, is not among them.) *)
Theorem get_windows_event_log_returns (o : Oracle) (config : pyval) (w : World) :
  returns (get_windows_event_log o config) w <->
  validate_windows_event_config config = Ok tt /\
  exists event sys,
    getitem config "Event" = Ok event /\
    getitem event "System" = Ok (PDict sys) /\
    forallb system_field_answered sys = true /\
    (py_in "EventData" event = Ok false \/
     exists ed entries,
       getitem event "EventData" = Ok ed /\
       getitem ed "Data" = Ok (PList entries) /\
       forallb data_entry_answered entries = true).
Proof.
  rewrite get_windows_event_log_body_returns. unfold windows_event_log_body.
  rewrite lift_returns. split.
  - intros ([] & Hv & H). split; [exact Hv|].
    apply lift_returns in H. destruct H as (event & He & H).
    apply lift_returns in H. destruct H as (system & Hs & H).
    apply lift_returns in H. destruct H as (its & Hi & H).
    destruct system; try discriminate Hi. simpl in Hi. injection Hi as <-.
    apply mbind_returns in H. destruct H as (xml1 & w1 & Hf & H).
    apply lift_returns in H. destruct H as (has_ed & Hed & H).
    apply mbind_returns in H. destruct H as (xml2 & w2 & Hd & _).
    exists event, d. repeat (split; [assumption|]). split.
    { apply (fold_m_returns (system_step o) system_field_answered
               (system_step_returns o) d
               (append (append [xml_declaration] event_open) "  <System>") w).
      now exists xml1, w1. }
    destruct has_ed; [right | now left].
    assert (Hr : returns
                   (ed <~ lift (getitem event "EventData") ;;
                    d0 <~ lift (getitem ed "Data") ;;
                    l <~ lift (py_iter d0) ;;
                    xml <~ fold_m (data_step o) l
                             (append (append xml1 "  </System>") "  <EventData>") ;;
                    ret (append xml "  </EventData>")) w1)
      by (now exists xml2, w2).
    apply lift_returns in Hr. destruct Hr as (ed & Hg & Hr).
    apply lift_returns in Hr. destruct Hr as (dv & Hgd & Hr).
    apply lift_returns in Hr. destruct Hr as (l & Hl & Hr).
    apply mbind_returns in Hr. destruct Hr as (xml3 & w3 & Hfd & _).
    destruct (validate_windows_event_config_parts config Hv)
      as (t & event' & system' & descriptor & e & _ & He' & _ & _ & _ & _ & _ & _ & _ & Hved).
    rewrite He in He'. injection He' as <-.
    specialize (Hved ed Hg).
    assert (Hedd : exists edd, ed = PDict edd)
      by (destruct ed; try discriminate Hgd; now eexists).
    destruct Hedd as (edd & ->).
    apply validate_event_data_iff in Hved.
    simpl in Hgd. destruct (lookup "Data" edd) as [dv'|] eqn:Hlk; [|discriminate].
    injection Hgd as ->.
    destruct Hved as [Hnone|(l' & Hsome & _)]; [discriminate|].
    injection Hsome as ->. simpl in Hl. injection Hl as <-.
    exists (PDict edd), l'. split; [assumption|]. split; [simpl; now rewrite Hlk|].
    apply (fold_m_returns (data_step o) data_entry_answered
             (data_step_returns o) l'
             (append (append xml1 "  </System>") "  <EventData>") w1).
    now exists xml3, w3.
  - intros (Hv & event & sys & He & Hs & Hsys & Hdata).
    exists tt. split; [exact Hv|].
    apply lift_returns. exists event. split; [exact He|].
    apply lift_returns. exists (PDict sys). split; [exact Hs|].
    apply lift_returns. exists sys. split; [reflexivity|].
    apply mbind_returns.
    destruct (proj2 (fold_m_returns (system_step o) system_field_answered
                       (system_step_returns o) sys
                       (append (append [xml_declaration] event_open) "  <System>") w)
                    Hsys) as (xml1 & w1 & Hf).
    exists xml1, w1. split; [exact Hf|].
    destruct Hdata as [Hno|(ed & entries & Hg & Hgd & Hent)].
    + apply lift_returns. exists false. split; [exact Hno|].
      apply mbind_returns. eexists. eexists. split; [reflexivity | apply ret_returns].
    + apply lift_returns. exists true. split; [exact (getitem_in _ _ _ Hg)|].
      apply mbind_returns.
      destruct (proj2 (fold_m_returns (data_step o) data_entry_answered
                         (data_step_returns o) entries
                         (append (append xml1 "  </System>") "  <EventData>") w1)
                      Hent) as (xml3 & w3 & Hfd).
      exists (append xml3 "  </EventData>"), w3. split; [|apply ret_returns].
      unfold mbind, lift. rewrite Hg, Hgd. cbn [py_iter]. now rewrite Hfd.
Qed.

Lemma get_windows_event_log_returns_witness :
  returns (get_windows_event_log oracle0 valid_config) world0.
Proof.
  apply (get_windows_event_log_returns oracle0 valid_config world0).
  split; [reflexivity|].
  exists (PDict [("xmlns", PStr "http://schemas.microsoft.com/win/2004/08/events/event");
                 ("System", system_of "TestComputer");
                 ("EventData", PDict [("Data", PList logon_entries)])]).
  eexists. split; [reflexivity|]. split; [reflexivity|]. split; [reflexivity|].
  right. exists (PDict [("Data", PList logon_entries)]), logon_entries.
  repeat split.
Defined.

(** ** The lines of a serialized event *)





(** ** What an accepted System satisfies *)

Lemma event_id_body_ok (d : list (string * pyval)) :
  event_id_body (PDict d) = Ok tt ->
  exists eid z, lookup "EventID" d = Some eid /\
                py_int (event_id_value eid) = Ok z /\ 0 <= z.
Proof.
  unfold event_id_body. intros H.
  apply bind_ok in H. destruct H as (eid & He & H).
  apply bind_ok in H. destruct H as (z & Hz & H).
  destruct (Z.ltb_spec z 0); [discriminate|].
  exists eid, z. split; [|split; [|assumption]].
  - simpl in He. destruct (lookup "EventID" d); [now injection He as -> | discriminate].
  - destruct eid as [| | | | |e]; cbn [isinstance_dict event_id_value] in *;
      try exact Hz.
    apply bind_ok in Hz. destruct Hz as (ht & _ & Hz).
    destruct (negb ht); [discriminate|].
    apply bind_ok in Hz. destruct Hz as (t & Ht & Hz).
    apply bind_ok in Hz. destruct Hz as (z' & Hz' & Hz).
    apply bind_ok in Hz. destruct Hz as (hq & _ & Hz).
    apply bind_unit_ok in Hz. destruct Hz as (_ & Hz). injection Hz as <-.
    unfold field_or. simpl in Ht.
    destruct (lookup "_text" e); [now injection Ht as -> | discriminate].
Qed.

Lemma optional_ok (c : pyval) (k : string) (f : pyval -> result unit) (b : bool) :
  py_in k c = Ok b ->
  (if b then (x <- getitem c k ;; f x) else Ok tt) = Ok tt ->
  forall v, getitem c k = Ok v -> f v = Ok tt.
Proof.
  intros Hb H v Hv. rewrite (getitem_in _ _ _ Hv) in Hb. injection Hb as <-.
  now rewrite Hv in H.
Qed.

(** A System mapping that [validate_system_properties] accepts has a
    Provider that [validate_provider] accepts, an EventID that converts to an
    integer that is not negative, a Computer, and, where present, a Version
    in 0..255, a Level in 0..15, Keywords that are a hexadecimal literal of
    at most 16 digits, and Correlation and Execution that pass their own
    validators. *)
Theorem accepted_system_properties (d : list (string * pyval)) :
  validate_system_properties (PDict d) = Ok tt ->
  (exists p, lookup "Provider" d = Some p /\ validate_provider p = Ok tt) /\
  (exists eid z, lookup "EventID" d = Some eid /\
                 py_int (event_id_value eid) = Ok z /\ 0 <= z) /\
  has_key "Computer" d = true /\
  (forall v, lookup "Version" d = Some v -> exists z, py_int v = Ok z /\ 0 <= z <= 255) /\
  (forall v, lookup "Level" d = Some v -> exists z, py_int v = Ok z /\ 0 <= z <= 15) /\
  (forall v, lookup "Keywords" d = Some v ->
             validate_hex_value v HEX_INT64_PATTERN = Ok true) /\
  (forall v, lookup "Correlation" d = Some v -> validate_correlation v = Ok tt) /\
  (forall v, lookup "Execution" d = Some v -> validate_execution v = Ok tt).
Proof.
  intros H. unfold validate_system_properties in H.
  rewrite missing_from_dict in H. cbn [bind filter] in H.
  destruct (has_key "Provider" d) eqn:Hp; cbn [negb] in H;
    [|destruct (has_key "EventID" d), (has_key "Computer" d); discriminate H].
  destruct (has_key "EventID" d) eqn:He; cbn [negb] in H;
    [|destruct (has_key "Computer" d); discriminate H].
  destruct (has_key "Computer" d) eqn:Hc; cbn [negb is_nil] in H; [|discriminate H].
  apply bind_ok in H. destruct H as (p & Hgp & H).
  apply bind_unit_ok in H. destruct H as (Hvp & H).
  apply bind_unit_ok in H. destruct H as (Heid & H).
  apply bind_ok in H. destruct H as (hcorr & Hhcorr & H).
  apply bind_unit_ok in H. destruct H as (Hcorr & H).
  apply bind_ok in H. destruct H as (hexec & Hhexec & H).
  apply bind_unit_ok in H. destruct H as (Hexec & H).
  apply bind_ok in H. destruct H as (hkw & Hhkw & H).
  apply bind_unit_ok in H. destruct H as (Hkw & H).
  apply bind_ok in H. destruct H as (hver & Hhver & H).
  apply bind_unit_ok in H. destruct H as (Hver & H).
  apply bind_ok in H. destruct H as (hlvl & Hhlvl & Hlvl).
  assert (Hget : forall k v, lookup k d = Some v -> getitem (PDict d) k = Ok v)
    by (intros k v Hk; simpl; now rewrite Hk).
  split; [|split; [|split; [exact eq_refl|split; [|split; [|split; [|split]]]]]].
  - exists p. split; [|assumption]. simpl in Hgp.
    destruct (lookup "Provider" d); [now injection Hgp as -> | discriminate].
  - apply event_id_body_ok.
    destruct (event_id_body (PDict d)) as [[]|[]]; try reflexivity;
      cbn [bind] in Heid; try discriminate Heid;
      destruct (getitem (PDict d) "EventID"); discriminate Heid.
  - intros v Hv.
    pose proof (optional_ok (PDict d) "Version"
                  (fun v => version <- py_int v ;;
                            if (0 <=? version) && (version <=? 255) then Ok tt
                            else invalid ("Version must be between 0 and 255, got "
                                          ++ str_of_Z version))
                  hver Hhver Hver v (Hget _ _ Hv)) as Hz.
    cbv beta in Hz. apply bind_ok in Hz. destruct Hz as (z & Hz & Hr).
    exists z. split; [assumption|].
    destruct (Z.leb_spec 0 z), (Z.leb_spec z 255); try discriminate Hr. lia.
  - intros v Hv.
    pose proof (optional_ok (PDict d) "Level"
                  (fun v => level <- py_int v ;;
                            if (0 <=? level) && (level <=? 15) then Ok tt
                            else invalid ("Level must be between 0 and 15, got "
                                          ++ str_of_Z level))
                  hlvl Hhlvl Hlvl v (Hget _ _ Hv)) as Hz.
    cbv beta in Hz. apply bind_ok in Hz. destruct Hz as (z & Hz & Hr).
    exists z. split; [assumption|].
    destruct (Z.leb_spec 0 z), (Z.leb_spec z 15); try discriminate Hr. lia.
  - intros v Hv. rewrite (getitem_in _ _ _ (Hget _ _ Hv)) in Hhkw. injection Hhkw as <-.
    rewrite (Hget _ _ Hv) in Hkw. cbn [bind] in Hkw.
    destruct (validate_hex_value v HEX_INT64_PATTERN) as [[|]|]; cbn [bind] in Hkw;
      [reflexivity | discriminate | discriminate].
  - intros v Hv.
    exact (optional_ok (PDict d) "Correlation" validate_correlation hcorr Hhcorr Hcorr
             v (Hget _ _ Hv)).
  - intros v Hv.
    exact (optional_ok (PDict d) "Execution" validate_execution hexec Hhexec Hexec
             v (Hget _ _ Hv)).
Qed.

Lemma accepted_system_properties_witness :
  exists z, py_int (PStr "3") = Ok z /\ 0 <= z <= 255.
Proof.
  apply (accepted_system_properties
           [("Provider", PDict [("Name", PStr "App")]);
            ("EventID", PInt 7); ("Computer", PStr "host"); ("Version", PStr "3")]);
    reflexivity.
Defined.
